(** * libobjecttracker: the tracking and initialization engine

    A shallow embedding of [src/object_tracker.cpp] and the properties of
    its natural-language specification.

    The C++ code computes with IEEE 754 [float] (binary32) and [double]
    (binary64) values.  Both are modelled by the executable specification
    of floating-point arithmetic of the Standard Library ([SpecFloat]),
    instantiated at the two formats, so that NaN, the infinities, the
    signed zeros and rounding behave as they do in the program.

    PCL (the registration primitive, the k-d tree and the Euler-angle
    helpers) is an external library: it is an interface here, and every
    theorem holds for any implementation of it. *)

From Stdlib Require Import ZArith Bool Lia SpecFloat.
From stdpp Require Import base option list.

Local Open Scope Z_scope.

(* ------------------------------------------------------------------ *)
(** ** Floating-point formats *)

(** [float]: IEEE 754 binary32. *)
Module F32.
Definition prec : Z := 24.
Definition emax : Z := 128.
Definition t := spec_float.
Definition add : t -> t -> t := SFadd prec emax.
Definition sub : t -> t -> t := SFsub prec emax.
Definition div : t -> t -> t := SFdiv prec emax.
(** Conversion of an integer: [static_cast<float>(n)]. *)
Definition of_Z (n : Z) : t := binary_normalize prec emax n 0 false.
(** Rounding of a value given as [(-1)^s * m * 2^e]. *)
Definition round (x : spec_float) : t :=
  match x with
  | S754_finite s m e => binary_round prec emax s m e
  | _ => x
  end.
End F32.

(** [double]: IEEE 754 binary64. *)
Module F64.
Definition prec : Z := 53.
Definition emax : Z := 1024.
Definition t := spec_float.
Definition mul : t -> t -> t := SFmul prec emax.
Definition div : t -> t -> t := SFdiv prec emax.
Definition of_Z (n : Z) : t := binary_normalize prec emax n 0 false.
Definition round (x : spec_float) : t :=
  match x with
  | S754_finite s m e => binary_round prec emax s m e
  | _ => x
  end.
End F64.

Definition float : Type := F32.t.
Definition double : Type := F64.t.

(** The implicit promotion [float -> double] (exact) and the narrowing
    conversion [double -> float] (round to nearest even). *)
Definition float_to_double (x : float) : double := F64.round x.
Definition double_to_float (x : double) : float := F32.round x.

(** [fabs] and the comparison [<] (false as soon as one side is a NaN). *)
Definition fabs (x : spec_float) : spec_float := SFabs x.
Definition flt (x y : spec_float) : bool := SFltb x y.

(** A zero of either sign: the divisors at which [/] has no quotient. *)
Definition is_zero (x : spec_float) : bool :=
  match x with S754_zero _ => true | _ => false end.

(** NaN or an infinity: what a division by a zero yields. *)
Definition is_nonfinite (x : spec_float) : bool :=
  match x with S754_nan | S754_infinity _ => true | _ => false end.

(** [M_PI] of <math.h>: 0x1.921fb54442d18p+1. *)
Definition M_PI : double := S754_finite false 7074237752028440 (-51).

(** [DBL_MAX] of <cfloat>. *)
Definition DBL_MAX : double := SFmax_float F64.prec F64.emax.

(** The literal [0.008]: the double nearest to 8/1000. *)
Definition lit_0_008 : double := S754_finite false 4611686018427388 (-59).

(** The threshold [INIT_MAX_HAUSDORFF_DIST2 = 0.008 * 0.008] (8mm). *)
Definition INIT_MAX_HAUSDORFF_DIST2 : double := F64.mul lit_0_008 lit_0_008.

(** An [int] or [size_t] constant used where a [float] is expected. *)
Definition float_of_int (n : Z) : float := F32.of_Z n.
Definition double_of_int (n : Z) : double := F64.of_Z n.

(* ------------------------------------------------------------------ *)
(** ** Time *)

(** A [std::chrono::high_resolution_clock::time_point]: the number of
    clock ticks since the clock's epoch.  The default-constructed time
    point is the epoch itself. *)
Definition time_point : Type := Z.
Definition epoch : time_point := 0.

(** The clock period is [std::nano], as in libstdc++ and libc++. *)
Definition ticks_per_second : Z := 1000000000.

(** [std::chrono::duration<double> d = a - b; d.count()]: the tick
    difference is converted to [double] and divided by the ticks per
    second ([duration_cast] with a floating-point target). *)
Definition elapsedSeconds (a b : time_point) : double :=
  F64.div (double_of_int (a - b)) (double_of_int ticks_per_second).

(* ------------------------------------------------------------------ *)
(** ** Data model *)

Record PointXYZ := mkPoint { px : float; py : float; pz : float }.

Definition PointCloud : Type := list PointXYZ.

Record Vector4f := mkVector4f { c0 : float; c1 : float; c2 : float; c3 : float }.

(** [Eigen::Matrix4f], row by row.  An [Eigen::Affine3f] stores such a
    matrix; [.matrix()] and the converting constructor are the identity
    on it. *)
Record Matrix4f := mkMatrix4f
  { r0 : Vector4f; r1 : Vector4f; r2 : Vector4f; r3 : Vector4f }.

Definition Affine3f : Type := Matrix4f.

(** [Affine3f::translation()]: the first three entries of the last column. *)
Definition translation (t : Affine3f) : PointXYZ :=
  mkPoint (c3 (r0 t)) (c3 (r1 t)) (c3 (r2 t)).

(** Modelled from the spec: [DynamicsConfiguration] is declared in
    libobjecttracker/object_tracker.h, which is not among the sources.
    The spec lists its scalar bounds: max linear velocity per axis, max
    angular rate per axis, max absolute roll and pitch.  The fields carry
    the names the code reads; they are doubles (a [float] bound is a
    double that narrowing leaves unchanged). *)
Record DynamicsConfiguration := mkDynamicsConfiguration
  { maxXVelocity : double;
    maxYVelocity : double;
    maxZVelocity : double;
    maxRollRate : double;
    maxPitchRate : double;
    maxYawRate : double;
    maxRoll : double;
    maxPitch : double }.

(** A marker configuration is a (shared pointer to a) point cloud. *)
Definition MarkerConfiguration : Type := PointCloud.

(** Modelled from the spec: the members of [Object] are declared in the
    same header; they are the ones the constructor initialises. *)
Record Object := mkObject
  { m_markerConfigurationIdx : nat;
    m_dynamicsConfigurationIdx : nat;
    m_lastTransformation : Affine3f;
    m_lastValidTransform : time_point;
    m_lastTransformationValid : bool }.

(** [Object::Object]: the time point is value-initialised, the flag is
    cleared.  The constructor does not read any clock. *)
Definition Object_new (markerConfigurationIdx dynamicsConfigurationIdx : nat)
    (initialTransformation : Affine3f) : Object :=
  mkObject markerConfigurationIdx dynamicsConfigurationIdx
           initialTransformation epoch false.

Definition transformation (o : Object) : Affine3f := m_lastTransformation o.
Definition lastTransformationValid (o : Object) : bool :=
  m_lastTransformationValid o.

Definition set_lastTransformation (o : Object) (t : Affine3f) : Object :=
  mkObject (m_markerConfigurationIdx o) (m_dynamicsConfigurationIdx o)
           t (m_lastValidTransform o) (m_lastTransformationValid o).
Definition set_lastValidTransform (o : Object) (s : time_point) : Object :=
  mkObject (m_markerConfigurationIdx o) (m_dynamicsConfigurationIdx o)
           (m_lastTransformation o) s (m_lastTransformationValid o).
Definition set_lastTransformationValid (o : Object) (b : bool) : Object :=
  mkObject (m_markerConfigurationIdx o) (m_dynamicsConfigurationIdx o)
           (m_lastTransformation o) (m_lastValidTransform o) b.

Record ObjectTracker := mkObjectTracker
  { m_dynamicsConfigurations : list DynamicsConfiguration;
    m_markerConfigurations : list MarkerConfiguration;
    m_objects : list Object;
    m_initialized : bool }.

(** [ObjectTracker::ObjectTracker] *)
Definition ObjectTracker_new (dynamicsConfigurations : list DynamicsConfiguration)
    (markerConfigurations : list MarkerConfiguration)
    (objects : list Object) : ObjectTracker :=
  mkObjectTracker dynamicsConfigurations markerConfigurations objects false.

Definition objects (tr : ObjectTracker) : list Object := m_objects tr.

(* ------------------------------------------------------------------ *)
(** ** The PCL interface *)

(** The settings of a [pcl::IterativeClosestPoint] object that the code
    touches. *)
Record ICP := mkICP
  { max_iterations_ : Z;
    target_ : PointCloud;
    input_ : PointCloud;
    corr_dist_threshold_ : double }.

Definition setMaximumIterations (icp : ICP) (n : Z) : ICP :=
  mkICP n (target_ icp) (input_ icp) (corr_dist_threshold_ icp).
Definition setInputTarget (icp : ICP) (cloud : PointCloud) : ICP :=
  mkICP (max_iterations_ icp) cloud (input_ icp) (corr_dist_threshold_ icp).
Definition setInputSource (icp : ICP) (cloud : PointCloud) : ICP :=
  mkICP (max_iterations_ icp) (target_ icp) cloud (corr_dist_threshold_ icp).
Definition setMaxCorrespondenceDistance (icp : ICP) (d : double) : ICP :=
  mkICP (max_iterations_ icp) (target_ icp) (input_ icp) d.

(** What the code reads back after [icp.align]. *)
Record Registration := mkRegistration
  { hasConverged : bool;
    getFinalTransformation : Matrix4f;
    getFitnessScore : double }.

(** Translation and Euler angles, in PCL's order x, y, z, roll, pitch, yaw. *)
Record Pose := mkPose
  { pose_x : float; pose_y : float; pose_z : float;
    pose_roll : float; pose_pitch : float; pose_yaw : float }.

Class PCL := mkPCL
  { (** a default-constructed ICP object *)
    ICP_new : ICP;
    (** [icp.align(result, guess)] under the current settings *)
    align : ICP -> Matrix4f -> Registration;
    (** [kdtree.nearestKSearch(p, k, idx, sqrDist)] on the tree of a cloud:
        the two output vectors *)
    nearestKSearch : PointCloud -> PointXYZ -> nat -> list nat * list float;
    (** [pcl::getTransformation(x, y, z, roll, pitch, yaw)] *)
    getTransformation :
      float -> float -> float -> float -> float -> float -> Affine3f;
    (** [pcl::getTranslationAndEulerAngles(t, x, y, z, roll, pitch, yaw)] *)
    getTranslationAndEulerAngles : Affine3f -> Pose;
    (** [pcl::transformPointCloud] transforms point by point *)
    transformPoint : Affine3f -> PointXYZ -> PointXYZ }.

Definition transformPointCloud {lib : PCL} (cloud : PointCloud) (t : Affine3f)
    : PointCloud :=
  map (transformPoint t) cloud.

(* ------------------------------------------------------------------ *)
(** ** The engine *)

(** Indexing a [std::vector] out of its range is undefined in C++: the
    functions below return [None] there, and [Some] a result wherever the
    program's behaviour is defined. *)

Section Engine.
Context {lib : PCL}.

(** *** [ObjectTracker::initialize] *)

Definition N_YAW : Z := 20.

(** The summation loop of the centroid (lines 99-104), over the loop
    indices [ixs]. *)
Fixpoint sumNearest (markers : PointCloud) (nearestIdx : list nat)
    (ixs : list nat) (center : PointXYZ) : option PointXYZ :=
  match ixs with
  | [] => Some center
  | i :: ixs' =>
      j ← nearestIdx !! i;
      p ← markers !! j;
      sumNearest markers nearestIdx ixs'
        (mkPoint (F32.add (px center) (px p))
                 (F32.add (py center) (py p))
                 (F32.add (pz center) (pz p)))
  end.

(** The divisor of the three [center /= objNpts] (lines 105-107): the
    [size_t] count converted to [float]. *)
Definition centroidDivisor (objNpts : nat) : float :=
  float_of_int (Z.of_nat objNpts).

(** Centroid of the nearest points (lines 97-107). *)
Definition nearestCentroid (markers : PointCloud) (nearestIdx : list nat)
    (objNpts : nat) : option PointXYZ :=
  center ← sumNearest markers nearestIdx (seq 0 objNpts)
                      (mkPoint (float_of_int 0) (float_of_int 0) (float_of_int 0));
  Some (mkPoint (F32.div (px center) (centroidDivisor objNpts))
                (F32.div (py center) (centroidDivisor objNpts))
                (F32.div (pz center) (centroidDivisor objNpts))).

(** [float yaw = i * (2 * M_PI / N_YAW)] (line 114). *)
Definition yawGuess (i : Z) : float :=
  double_to_float
    (F64.mul (double_of_int i)
             (F64.div (F64.mul (double_of_int 2) M_PI) (double_of_int N_YAW))).

(** [tryMatrix] (lines 115-116): the angle is the fourth argument of
    [pcl::getTransformation]. *)
Definition tryMatrix (center : PointXYZ) (yaw : float) : Matrix4f :=
  getTransformation (px center) (py center) (pz center)
                    yaw (float_of_int 0) (float_of_int 0).

(** The search loop (lines 113-123), over the loop indices [ixs]; the
    state is [bestErr] and the object's [m_lastTransformation]. *)
Fixpoint yawSearch (icp : ICP) (center : PointXYZ) (ixs : list Z)
    (bestErr : double) (lastTransformation : Affine3f) : double * Affine3f :=
  match ixs with
  | [] => (bestErr, lastTransformation)
  | i :: ixs' =>
      let reg := align icp (tryMatrix center (yawGuess i)) in
      let err := getFitnessScore reg in
      if flt err bestErr
      then yawSearch icp center ixs' err (getFinalTransformation reg)
      else yawSearch icp center ixs' bestErr lastTransformation
  end.

(** The loop indices [0 .. N_YAW-1]. *)
Definition yawIndices : list Z := map Z.of_nat (seq 0 (Z.to_nat N_YAW)).

(** The validation loop (lines 131-136) over the transformed cloud. *)
Fixpoint checkFit (markers : PointCloud) (bestCloud : PointCloud)
    (allFitsGood : bool) : option bool :=
  match bestCloud with
  | [] => Some allFitsGood
  | p :: rest =>
      nearestSqrDist0 ← (nearestKSearch markers p 1).2 !! 0%nat;
      checkFit markers rest
        (if flt INIT_MAX_HAUSDORFF_DIST2 (float_to_double nearestSqrDist0)
         then false else allFitsGood)
  end.

(** The body of the loop over the objects (lines 83-136). *)
Definition initializeObject (markerConfigurations : list MarkerConfiguration)
    (markers : PointCloud) (icp : ICP) (allFitsGood : bool) (object : Object)
    : option (ICP * bool * Object) :=
  objMarkers ← markerConfigurations !! m_markerConfigurationIdx object;
  let icp := setInputSource icp objMarkers in
  let objNpts := length objMarkers in
  let ctr := translation (m_lastTransformation object) in
  let nearestIdx := (nearestKSearch markers ctr objNpts).1 in
  center ← nearestCentroid markers nearestIdx objNpts;
  let object :=
    set_lastTransformation object
      (yawSearch icp center yawIndices DBL_MAX (m_lastTransformation object)).2 in
  let bestCloud := transformPointCloud objMarkers (m_lastTransformation object) in
  allFitsGood ← checkFit markers bestCloud allFitsGood;
  Some (icp, allFitsGood, object).

Fixpoint initializeLoop (markerConfigurations : list MarkerConfiguration)
    (markers : PointCloud) (icp : ICP) (allFitsGood : bool)
    (objs : list Object) : option (bool * list Object) :=
  match objs with
  | [] => Some (allFitsGood, [])
  | object :: rest =>
      '(icp, allFitsGood, object) ←
        initializeObject markerConfigurations markers icp allFitsGood object;
      '(allFitsGood, rest) ←
        initializeLoop markerConfigurations markers icp allFitsGood rest;
      Some (allFitsGood, object :: rest)
  end.

Definition with_objects (tr : ObjectTracker) (objs : list Object)
    : ObjectTracker :=
  mkObjectTracker (m_dynamicsConfigurations tr) (m_markerConfigurations tr)
                  objs (m_initialized tr).
Definition with_initialized (tr : ObjectTracker) (b : bool) : ObjectTracker :=
  mkObjectTracker (m_dynamicsConfigurations tr) (m_markerConfigurations tr)
                  (m_objects tr) b.

(** [bool ObjectTracker::initialize(markers)]: the returned flag and the
    tracker with its objects mutated. *)
Definition initialize (tr : ObjectTracker) (markers : PointCloud)
    : option (bool * ObjectTracker) :=
  let icp := setInputTarget (setMaximumIterations ICP_new 5) markers in
  '(allFitsGood, objs) ←
    initializeLoop (m_markerConfigurations tr) markers icp true (m_objects tr);
  Some (allFitsGood, with_objects tr objs).

(** *** [ObjectTracker::runICP] *)

(** The finite difference [(a - b) / dt] stored into a [float]
    (lines 208-213): a [float] subtraction, a [double] division. *)
Definition rate (a b : float) (dt : double) : float :=
  double_to_float (F64.div (float_to_double (F32.sub a b)) dt).

(** One test [fabs(v) < bound] of the gate. *)
Definition below (v : float) (bound : double) : bool :=
  flt (float_to_double (fabs v)) bound.

(** The condition of the [if] at lines 217-224. *)
Definition dynamicsCheck (dynConf : DynamicsConfiguration)
    (vx vy vz wroll wpitch wyaw roll pitch : float) : bool :=
  below vx (maxXVelocity dynConf)
  && below vy (maxYVelocity dynConf)
  && below vz (maxZVelocity dynConf)
  && below wroll (maxRollRate dynConf)
  && below wpitch (maxPitchRate dynConf)
  && below wyaw (maxYawRate dynConf)
  && below roll (maxRoll dynConf)
  && below pitch (maxPitch dynConf).

(** The gate applied to the new pose [p], the previous pose [l] and
    [dt] (lines 208-224). *)
Definition gate (dynConf : DynamicsConfiguration) (p l : Pose) (dt : double)
    : bool :=
  dynamicsCheck dynConf
    (rate (pose_x p) (pose_x l) dt)
    (rate (pose_y p) (pose_y l) dt)
    (rate (pose_z p) (pose_z l) dt)
    (rate (pose_roll p) (pose_roll l) dt)
    (rate (pose_pitch p) (pose_pitch l) dt)
    (rate (pose_yaw p) (pose_yaw l) dt)
    (pose_roll p) (pose_pitch p).

(** The body of the loop over the objects (lines 171-260); the
    diagnostics written to [std::cout] are left out. *)
Definition trackObject (dynamicsConfigurations : list DynamicsConfiguration)
    (markerConfigurations : list MarkerConfiguration)
    (stamp : time_point) (icp : ICP) (object : Object)
    : option (ICP * Object) :=
  let object := set_lastTransformationValid object false in
  let dt := elapsedSeconds stamp (m_lastValidTransform object) in
  dynConf ← dynamicsConfigurations !! m_dynamicsConfigurationIdx object;
  let maxV := double_to_float (maxXVelocity dynConf) in
  let icp := setMaxCorrespondenceDistance icp (F64.mul (float_to_double maxV) dt) in
  source ← markerConfigurations !! m_markerConfigurationIdx object;
  let icp := setInputSource icp source in
  let reg := align icp (m_lastTransformation object) in
  if negb (hasConverged reg) then Some (icp, object)
  else
    let tROTA : Affine3f := getFinalTransformation reg in
    let p := getTranslationAndEulerAngles tROTA in
    let l := getTranslationAndEulerAngles (m_lastTransformation object) in
    if gate dynConf p l dt
    then Some (icp,
               set_lastTransformationValid
                 (set_lastValidTransform
                    (set_lastTransformation object tROTA) stamp) true)
    else Some (icp, object).

Fixpoint trackLoop (dynamicsConfigurations : list DynamicsConfiguration)
    (markerConfigurations : list MarkerConfiguration)
    (stamp : time_point) (icp : ICP) (objs : list Object)
    : option (list Object) :=
  match objs with
  | [] => Some []
  | object :: rest =>
      '(icp, object) ←
        trackObject dynamicsConfigurations markerConfigurations stamp icp object;
      rest ← trackLoop dynamicsConfigurations markerConfigurations stamp icp rest;
      Some (object :: rest)
  end.

(** [m_initialized = m_initialized || initialize(markers)] (line 146):
    [initialize] is not called once the flag is set. *)
Definition ensureInitialized (tr : ObjectTracker) (markers : PointCloud)
    : option ObjectTracker :=
  if m_initialized tr then Some tr
  else
    '(allFitsGood, tr) ← initialize tr markers;
    Some (with_initialized tr allFitsGood).

(** [ObjectTracker::runICP(markers)], where [stamp] is what
    [high_resolution_clock::now()] returns at line 145; C++ does not
    require this clock to be steady (it may be the system clock, which can
    be set back), and the code compares no two readings.  The tracking
    loop runs whether or not the tracker is initialized. *)
Definition runICP (tr : ObjectTracker) (stamp : time_point)
    (markers : PointCloud) : option ObjectTracker :=
  tr ← ensureInitialized tr markers;
  let icp := setInputTarget (setMaximumIterations ICP_new 5) markers in
  objs ← trackLoop (m_dynamicsConfigurations tr) (m_markerConfigurations tr)
                   stamp icp (m_objects tr);
  Some (with_objects tr objs).

(** [ObjectTracker::update(pointCloud)] *)
Definition update (tr : ObjectTracker) (stamp : time_point)
    (pointCloud : PointCloud) : option ObjectTracker :=
  runICP tr stamp pointCloud.

End Engine.

(* ------------------------------------------------------------------ *)
(** ** Derived notions

    The vocabulary of the statements below: what one call does to one
    object, and the conditions of the specification. *)

(** [mag m e] is the position of the leading bit of [m * 2^e]. *)
Definition mag (m e : Z) : Z := Zdigits2 m + e.

Section Views.

Context {lib : PCL}.

(** The registrations the search runs, in order. *)
Definition hypotheses (icp : ICP) (center : PointXYZ) (ixs : list Z)
    : list Registration :=
  map (fun i => align icp (tryMatrix center (yawGuess i))) ixs.

(** The settings of the registrations of [initialize] for one object. *)
Definition initICP (markers objMarkers : PointCloud) : ICP :=
  setInputSource (setInputTarget (setMaximumIterations ICP_new 5) markers)
                 objMarkers.

(** The centroid of the markers nearest to the object's seed position. *)
Definition objectCentroid (markers objMarkers : PointCloud) (o : Object)
    : option PointXYZ :=
  nearestCentroid markers
    (nearestKSearch markers (translation (m_lastTransformation o))
                    (length objMarkers)).1
    (length objMarkers).

(** The pose the search leaves in the object. *)
Definition candidatePose (markers objMarkers : PointCloud) (center : PointXYZ)
    (o : Object) : Affine3f :=
  (yawSearch (initICP markers objMarkers) center yawIndices DBL_MAX
             (m_lastTransformation o)).2.

(** Squared distance from [p] to the nearest observed marker. *)
Definition nearestSqrDist (markers : PointCloud) (p : PointXYZ) : option float :=
  (nearestKSearch markers p 1).2 !! 0%nat.

(** The squared distance of [p] to its nearest observed marker does not
    exceed the threshold. *)
Definition pointFits (markers : PointCloud) (p : PointXYZ) : Prop :=
  exists d : float,
    nearestSqrDist markers p = Some d /\
    flt INIT_MAX_HAUSDORFF_DIST2 (float_to_double d) = false.

(** Every nominal marker of the object, transformed by the object's
    pose, fits. *)
Definition objectFits (markerConfigurations : list MarkerConfiguration)
    (markers : PointCloud) (o : Object) : Prop :=
  exists objMarkers : PointCloud,
    markerConfigurations !! m_markerConfigurationIdx o = Some objMarkers /\
    Forall (fun p => pointFits markers (transformPoint (transformation o) p))
           objMarkers.

(** Two ICP objects that differ at most in their input source. *)
Definition sameSettings (icp icp0 : ICP) : Prop :=
  max_iterations_ icp = max_iterations_ icp0 /\
  target_ icp = target_ icp0 /\
  corr_dist_threshold_ icp = corr_dist_threshold_ icp0.

(** How [initialize] relates an object before and after. *)
Definition initialized (markerConfigurations : list MarkerConfiguration)
    (markers : PointCloud) (o o' : Object) : Prop :=
  exists (objMarkers : PointCloud) (center : PointXYZ),
    markerConfigurations !! m_markerConfigurationIdx o = Some objMarkers /\
    objectCentroid markers objMarkers o = Some center /\
    o' = set_lastTransformation o (candidatePose markers objMarkers center o).

(** [dt] of a frame for an object (lines 174-175). *)
Definition frameDt (stamp : time_point) (o : Object) : double :=
  elapsedSeconds stamp (m_lastValidTransform o).

(** [maxV * dt] (lines 180-181). *)
Definition correspondenceDistance (dynConf : DynamicsConfiguration)
    (dt : double) : double :=
  F64.mul (float_to_double (double_to_float (maxXVelocity dynConf))) dt.

(** The settings of the registration of one object in a frame. *)
Definition trackICP (markers : PointCloud) (dynConf : DynamicsConfiguration)
    (source : PointCloud) (dt : double) : ICP :=
  setInputSource
    (setMaxCorrespondenceDistance
       (setInputTarget (setMaximumIterations ICP_new 5) markers)
       (correspondenceDistance dynConf dt))
    source.

(** The registration of one object in a frame (line 189). *)
Definition frameRegistration (markers : PointCloud)
    (dynConf : DynamicsConfiguration) (source : PointCloud)
    (stamp : time_point) (o : Object) : Registration :=
  align (trackICP markers dynConf source (frameDt stamp o))
        (m_lastTransformation o).

(** The gate on the registration of a frame. *)
Definition frameGate (markers : PointCloud) (dynConf : DynamicsConfiguration)
    (source : PointCloud) (stamp : time_point) (o : Object) : bool :=
  gate dynConf
    (getTranslationAndEulerAngles
       (getFinalTransformation (frameRegistration markers dynConf source stamp o)))
    (getTranslationAndEulerAngles (m_lastTransformation o))
    (frameDt stamp o).

(** The object after its iteration of the tracking loop. *)
Definition tracked (markers : PointCloud) (dynConf : DynamicsConfiguration)
    (source : PointCloud) (stamp : time_point) (o : Object) : Object :=
  if hasConverged (frameRegistration markers dynConf source stamp o)
     && frameGate markers dynConf source stamp o
  then mkObject (m_markerConfigurationIdx o) (m_dynamicsConfigurationIdx o)
         (getFinalTransformation (frameRegistration markers dynConf source stamp o))
         stamp true
  else mkObject (m_markerConfigurationIdx o) (m_dynamicsConfigurationIdx o)
         (m_lastTransformation o) (m_lastValidTransform o) false.

(** Two ICP objects with the same iteration limit and target. *)
Definition sameTarget (icp icp0 : ICP) : Prop :=
  max_iterations_ icp = max_iterations_ icp0 /\ target_ icp = target_ icp0.

(** How the tracking loop relates an object before and after. *)
Definition trackedIn (dynamicsConfigurations : list DynamicsConfiguration)
    (markerConfigurations : list MarkerConfiguration) (markers : PointCloud)
    (stamp : time_point) (o o' : Object) : Prop :=
  exists (dynConf : DynamicsConfiguration) (source : PointCloud),
    dynamicsConfigurations !! m_dynamicsConfigurationIdx o = Some dynConf /\
    markerConfigurations !! m_markerConfigurationIdx o = Some source /\
    o' = tracked markers dynConf source stamp o.

(** The eight strict comparisons of the gate, as the specification
    lists them. *)
Definition withinBounds (dynConf : DynamicsConfiguration) (p l : Pose)
    (dt : double) : Prop :=
  flt (float_to_double (fabs (rate (pose_x p) (pose_x l) dt)))
      (maxXVelocity dynConf) = true /\
  flt (float_to_double (fabs (rate (pose_y p) (pose_y l) dt)))
      (maxYVelocity dynConf) = true /\
  flt (float_to_double (fabs (rate (pose_z p) (pose_z l) dt)))
      (maxZVelocity dynConf) = true /\
  flt (float_to_double (fabs (rate (pose_roll p) (pose_roll l) dt)))
      (maxRollRate dynConf) = true /\
  flt (float_to_double (fabs (rate (pose_pitch p) (pose_pitch l) dt)))
      (maxPitchRate dynConf) = true /\
  flt (float_to_double (fabs (rate (pose_yaw p) (pose_yaw l) dt)))
      (maxYawRate dynConf) = true /\
  flt (float_to_double (fabs (pose_roll p))) (maxRoll dynConf) = true /\
  flt (float_to_double (fabs (pose_pitch p))) (maxPitch dynConf) = true.

(** At least one of the eight comparisons of the gate fails. *)
Definition outOfBounds (dynConf : DynamicsConfiguration) (p l : Pose)
    (dt : double) : Prop :=
  flt (float_to_double (fabs (rate (pose_x p) (pose_x l) dt)))
      (maxXVelocity dynConf) = false \/
  flt (float_to_double (fabs (rate (pose_y p) (pose_y l) dt)))
      (maxYVelocity dynConf) = false \/
  flt (float_to_double (fabs (rate (pose_z p) (pose_z l) dt)))
      (maxZVelocity dynConf) = false \/
  flt (float_to_double (fabs (rate (pose_roll p) (pose_roll l) dt)))
      (maxRollRate dynConf) = false \/
  flt (float_to_double (fabs (rate (pose_pitch p) (pose_pitch l) dt)))
      (maxPitchRate dynConf) = false \/
  flt (float_to_double (fabs (rate (pose_yaw p) (pose_yaw l) dt)))
      (maxYawRate dynConf) = false \/
  flt (float_to_double (fabs (pose_roll p))) (maxRoll dynConf) = false \/
  flt (float_to_double (fabs (pose_pitch p))) (maxPitch dynConf) = false.

(** The pose the registration of the frame proposes for an object. *)
Definition newPose (markers : PointCloud) (dynConf : DynamicsConfiguration)
    (source : PointCloud) (stamp : time_point) (o : Object) : Affine3f :=
  getFinalTransformation (frameRegistration markers dynConf source stamp o).

(** The pose [p] with its yaw replaced. *)
Definition with_yaw (p : Pose) (yaw : float) : Pose :=
  mkPose (pose_x p) (pose_y p) (pose_z p) (pose_roll p) (pose_pitch p) yaw.

(** The larger of two doubles, and the largest of the three linear
    velocity bounds: the "maximum linear velocity" of a dynamics
    configuration, in the words of the specification. *)
Definition fmax (a b : double) : double := if flt a b then b else a.

Definition maxLinearVelocity (dynConf : DynamicsConfiguration) : double :=
  fmax (fmax (maxXVelocity dynConf) (maxYVelocity dynConf))
       (maxZVelocity dynConf).

(** The elapsed time since the construction of an object, when the
    clock read [constructedAt] at its construction. *)
Definition sinceConstruction (constructedAt stamp : time_point) : double :=
  elapsedSeconds stamp constructedAt.

(** What the search leaves as the pose of an object: the seed when no
    hypothesis scored below [DBL_MAX], else the refined transform of the
    first hypothesis of lowest score. *)
Definition searchOutcome (hs : list Registration) (seed pose : Affine3f)
    : Prop :=
  (pose = seed /\
   Forall (fun r => flt (getFitnessScore r) DBL_MAX = false) hs)
  \/
  (exists (k : nat) (r : Registration),
      hs !! k = Some r /\
      pose = getFinalTransformation r /\
      flt (getFitnessScore r) DBL_MAX = true /\
      Forall (fun r' => flt (getFitnessScore r') (getFitnessScore r) = false) hs /\
      forall (j : nat) (r' : Registration),
        (j < k)%nat -> hs !! j = Some r' ->
        SFleb (getFitnessScore r') (getFitnessScore r) = false).

(** The k-d tree returned at least [n] indices, all within the cloud. *)
Definition neighboursInRange (markers : PointCloud) (nearestIdx : list nat)
    (n : nat) : Prop :=
  forall i : nat, (i < n)%nat ->
    exists j : nat, nearestIdx !! i = Some j /\ (j < length markers)%nat.

(** The queries of [initialize] for an object are answered in range. *)
Definition queriesAnswered (markerConfigurations : list MarkerConfiguration)
    (markers : PointCloud) (o : Object) : Prop :=
  exists objMarkers : PointCloud,
    markerConfigurations !! m_markerConfigurationIdx o = Some objMarkers /\
    neighboursInRange markers
      (nearestKSearch markers (translation (m_lastTransformation o))
                      (length objMarkers)).1
      (length objMarkers) /\
    forall p : PointXYZ, is_Some (nearestSqrDist markers p).

(** The configuration indices of an object are within the tables. *)
Definition indicesInRange (tr : ObjectTracker) (o : Object) : Prop :=
  is_Some (m_dynamicsConfigurations tr !! m_dynamicsConfigurationIdx o) /\
  is_Some (m_markerConfigurations tr !! m_markerConfigurationIdx o).

Definition nanPoint : PointXYZ := mkPoint S754_nan S754_nan S754_nan.

End Views.

(* ------------------------------------------------------------------ *)
(** ** Test doubles for PCL

    Implementations of the interface that return what the caller
    prescribes, on which the engine can be run. *)

Module Fake.

Definition zero : float := S754_zero false.

(** A matrix that stores the six pose parameters. *)
Definition poseMatrix (x y z roll pitch yaw : float) : Matrix4f :=
  mkMatrix4f (mkVector4f roll zero zero x)
             (mkVector4f zero pitch zero y)
             (mkVector4f zero zero yaw z)
             (mkVector4f zero zero zero (float_of_int 1)).

Definition poseOf (t : Affine3f) : Pose :=
  mkPose (c3 (r0 t)) (c3 (r1 t)) (c3 (r2 t))
         (c0 (r0 t)) (c1 (r1 t)) (c2 (r2 t)).

(** A k-d tree that answers with the first [k] points of the cloud, all
    at squared distance [d]. *)
Definition knn (d : float) (cloud : PointCloud) (p : PointXYZ) (k : nat)
    : list nat * list float :=
  (seq 0 (min k (length cloud)), replicate (min k (length cloud)) d).

Definition pcl (reg : ICP -> Matrix4f -> Registration) (d : float) : PCL :=
  mkPCL (mkICP 10 [] [] DBL_MAX) reg (knn d) poseMatrix poseOf (fun _ p => p).

Definition point (a b c : Z) : PointXYZ :=
  mkPoint (float_of_int a) (float_of_int b) (float_of_int c).

(** A pose at [x] on the first axis, with yaw [yaw]. *)
Definition poseAt (x yaw : Z) : Matrix4f :=
  poseMatrix (float_of_int x) zero zero zero zero (float_of_int yaw).

(** The registration always converges to [t], with score [score]. *)
Definition converging (t : Matrix4f) (score : double) : PCL :=
  pcl (fun _ _ => mkRegistration true t score) zero.

(** The registration never converges; it reports [t] and [score]. *)
Definition diverging (t : Matrix4f) (score : double) (d : float) : PCL :=
  pcl (fun _ _ => mkRegistration false t score) d.

(** All eight bounds equal to [b]. *)
Definition bounds (b : Z) : DynamicsConfiguration :=
  mkDynamicsConfiguration (double_of_int b) (double_of_int b) (double_of_int b)
    (double_of_int b) (double_of_int b) (double_of_int b)
    (double_of_int b) (double_of_int b).

Definition cloud : PointCloud := [point 0 0 0; point 1 0 0].

(** One object with two markers, seeded at the origin. *)
Definition object (lastValid : time_point) : Object :=
  mkObject 0 0 (poseAt 0 0) lastValid false.

Definition tracker (initialized : bool) (lastValid : time_point)
    : ObjectTracker :=
  mkObjectTracker [bounds 2] [cloud] [object lastValid] initialized.

Definition second : Z := ticks_per_second.

End Fake.

(** Scenarios on the test doubles. *)
Module Scenario.
Import Fake.

(** Registrations that converge to a pose one unit along x, turned by
    3 rad, with score 0. *)
Definition moving : PCL := converging (poseAt 1 3) (double_of_int 0).

(** Registrations that converge to the same pose without the turn. *)
Definition shifted : PCL := converging (poseAt 1 0) (double_of_int 0).

(** Registrations that converge to the seed pose. *)
Definition resting : PCL := converging (poseAt 0 0) (double_of_int 0).

(** Registrations that never converge and report a pose one unit along
    x, with score 0; observed markers at squared distance 0. *)
Definition lost : PCL := diverging (poseAt 1 0) (double_of_int 0) zero.

(** Registrations that find no correspondence: score [DBL_MAX]. *)
Definition blind : PCL := converging (poseAt 1 0) DBL_MAX.

(** The same, with every observed marker at squared distance 1. *)
Definition blindFar : PCL := diverging (poseAt 1 0) DBL_MAX (float_of_int 1).

(** Score 0, every observed marker at squared distance 1. *)
Definition far : PCL := diverging (poseAt 1 0) (double_of_int 0) (float_of_int 1).

Definition objectAt (t : Affine3f) (stamp : time_point) (valid : bool) : Object :=
  mkObject 0 0 t stamp valid.

Definition trackerOf (initialized : bool) (o : Object) : ObjectTracker :=
  mkObjectTracker [bounds 2] [cloud] [o] initialized.

(** Bounds 1, 2, 1 on the velocities along x, y, z. *)
Definition boundsXYZ : DynamicsConfiguration :=
  mkDynamicsConfiguration (double_of_int 1) (double_of_int 2) (double_of_int 1)
    (double_of_int 2) (double_of_int 2) (double_of_int 2)
    (double_of_int 2) (double_of_int 2).

(** The double nearest to 1/10, which is not a [float]. *)
Definition tenth : double := F64.div (double_of_int 1) (double_of_int 10).

Definition boundsTenth : DynamicsConfiguration :=
  mkDynamicsConfiguration tenth tenth tenth tenth tenth tenth tenth tenth.

(** The centroid of the two markers of [cloud]. *)
Definition middle : PointXYZ :=
  mkPoint (F32.div (float_of_int 1) (float_of_int 2))
          (F32.div zero (float_of_int 2)) (F32.div zero (float_of_int 2)).
End Scenario.

(* ------------------------------------------------------------------ *)
(** ** Further notions

    The vocabulary of the properties of the engine beyond the
    specification. *)

(** The members of an object that no call changes. *)
Definition sameIndices (o o' : Object) : Prop :=
  m_markerConfigurationIdx o' = m_markerConfigurationIdx o /\
  m_dynamicsConfigurationIdx o' = m_dynamicsConfigurationIdx o.

(** No component of the pose is a NaN or an infinity. *)
Definition finitePose (p : Pose) : bool :=
  negb (is_nonfinite (pose_x p)) && negb (is_nonfinite (pose_y p))
  && negb (is_nonfinite (pose_z p)) && negb (is_nonfinite (pose_roll p))
  && negb (is_nonfinite (pose_pitch p)) && negb (is_nonfinite (pose_yaw p)).

(** A bound that some absolute value can be below: a positive number or
    the positive infinity, not a zero, a negative number or a NaN. *)
Definition positiveBound (b : double) : bool :=
  match b with
  | S754_infinity false | S754_finite false _ _ => true
  | _ => false
  end.

Definition positiveBounds (dynConf : DynamicsConfiguration) : bool :=
  positiveBound (maxXVelocity dynConf) && positiveBound (maxYVelocity dynConf)
  && positiveBound (maxZVelocity dynConf) && positiveBound (maxRollRate dynConf)
  && positiveBound (maxPitchRate dynConf) && positiveBound (maxYawRate dynConf)
  && positiveBound (maxRoll dynConf) && positiveBound (maxPitch dynConf).

(** Every bound of [d'] is at least the bound of [d]. *)
Definition looser (d d' : DynamicsConfiguration) : Prop :=
  SFleb (maxXVelocity d) (maxXVelocity d') = true /\
  SFleb (maxYVelocity d) (maxYVelocity d') = true /\
  SFleb (maxZVelocity d) (maxZVelocity d') = true /\
  SFleb (maxRollRate d) (maxRollRate d') = true /\
  SFleb (maxPitchRate d) (maxPitchRate d') = true /\
  SFleb (maxYawRate d) (maxYawRate d') = true /\
  SFleb (maxRoll d) (maxRoll d') = true /\
  SFleb (maxPitch d) (maxPitch d') = true.

(** The library [lib] with the convergence verdicts of its registrations
    replaced by [c]. *)
Definition withConvergence (c : ICP -> Matrix4f -> bool) (lib : PCL) : PCL :=
  mkPCL (@ICP_new lib)
        (fun icp guess =>
           mkRegistration (c icp guess)
             (getFinalTransformation (@align lib icp guess))
             (getFitnessScore (@align lib icp guess)))
        (@nearestKSearch lib) (@getTransformation lib)
        (@getTranslationAndEulerAngles lib) (@transformPoint lib).

(** The library [lib] with the fitness scores of its registrations
    replaced by [s]. *)
Definition withScore (s : ICP -> Matrix4f -> double) (lib : PCL) : PCL :=
  mkPCL (@ICP_new lib)
        (fun icp guess =>
           mkRegistration (hasConverged (@align lib icp guess))
             (getFinalTransformation (@align lib icp guess))
             (s icp guess))
        (@nearestKSearch lib) (@getTransformation lib)
        (@getTranslationAndEulerAngles lib) (@transformPoint lib).

(** The tracker with the validity flags of its objects cleared. *)
Definition clearFlags (tr : ObjectTracker) : ObjectTracker :=
  mkObjectTracker (m_dynamicsConfigurations tr) (m_markerConfigurations tr)
    (map (fun o => set_lastTransformationValid o false) (m_objects tr))
    (m_initialized tr).

(** An object as [Object::Object] builds it from its three arguments. *)
Definition newObject (given : nat * nat * Affine3f) : Object :=
  Object_new given.1.1 given.1.2 given.2.

(** A sequence of calls of [update], each with the clock reading at its
    entry and its point cloud. *)
Fixpoint updates {lib : PCL} (tr : ObjectTracker)
    (frames : list (time_point * PointCloud)) : option ObjectTracker :=
  match frames with
  | [] => Some tr
  | (stamp, pointCloud) :: rest =>
      tr ← update tr stamp pointCloud;
      updates tr rest
  end.

(** Further scenarios on the test doubles. *)
Module Cases.
Import Fake Scenario.

(** Registrations that converge to a pose one unit along x with score 0,
    while every observed marker is at squared distance 1: the validation
    of [initialize] fails and the tracking loop accepts. *)
Definition misfit : PCL :=
  pcl (fun _ _ => mkRegistration true (poseAt 1 0) (double_of_int 0))
      (float_of_int 1).

(** Registrations that converge to a pose whose x is a NaN. *)
Definition broken : PCL :=
  converging (poseMatrix S754_nan zero zero zero zero zero) (double_of_int 0).

(** Two objects on the same marker configuration. *)
Definition pair (initialized : bool) : ObjectTracker :=
  mkObjectTracker [bounds 2] [cloud]
                  [object 0; objectAt (poseAt 1 3) 0 false] initialized.

(** One object whose eight bounds are zero. *)
Definition frozen (o : Object) : ObjectTracker :=
  mkObjectTracker [bounds 0] [cloud] [o] true.

(** One object without markers, on a tracker that is not initialized. *)
Definition bare : ObjectTracker :=
  mkObjectTracker [bounds 2] [[]] [object 0] false.

(** One object whose marker configuration index is out of range. *)
Definition stray : ObjectTracker :=
  trackerOf true (mkObject 5 0 (poseAt 0 0) 0 false).

End Cases.

(** Test doubles in which the observed markers lie in the plane x = 0:
    the k-d tree reports the square of the x coordinate of the query as
    its squared distance, and a transform shifts a point along x by its
    translation. *)
Module Field.
Import Fake Scenario.

Definition sqrDist (p : PointXYZ) : float :=
  SFmul F32.prec F32.emax (px p) (px p).

Definition knnPlane (cloud : PointCloud) (p : PointXYZ) (k : nat)
    : list nat * list float :=
  (seq 0 (min k (length cloud)), replicate (min k (length cloud)) (sqrDist p)).

Definition shiftX (t : Affine3f) (p : PointXYZ) : PointXYZ :=
  mkPoint (F32.add (px p) (c3 (r0 t))) (py p) (pz p).

Definition plane (reg : ICP -> Matrix4f -> Registration) : PCL :=
  mkPCL (mkICP 10 [] [] DBL_MAX) reg knnPlane poseMatrix poseOf shiftX.

(** Registrations that return their seed, with score 0. *)
Definition seeded : PCL :=
  plane (fun _ guess => mkRegistration true guess (double_of_int 0)).

(** Registrations that report a pose one unit along x and find no
    correspondence: score [DBL_MAX]. *)
Definition unscored : PCL :=
  plane (fun _ _ => mkRegistration true (poseAt 1 0) DBL_MAX).

(** A configuration of one marker and one of two markers. *)
Definition oneMarker : PointCloud := [point 0 0 0].
Definition twoMarkers : PointCloud := [point 0 0 0; point 0 1 0].

(** One object on the one-marker configuration. *)
Definition alone : ObjectTracker :=
  mkObjectTracker [bounds 2] [oneMarker] [object 0] false.

(** Three objects: the first and the third on the one-marker
    configuration, the second on the two-marker configuration. *)
Definition three : ObjectTracker :=
  mkObjectTracker [bounds 2] [oneMarker; twoMarkers]
    [mkObject 0 0 (poseAt 0 0) 0 false; mkObject 1 0 (poseAt 0 0) 0 false;
     mkObject 0 0 (poseAt 0 0) 0 false] false.

(** A pose half a unit along x. *)
Definition halfway : Matrix4f :=
  poseMatrix (F32.div (float_of_int 1) (float_of_int 2)) zero zero zero zero zero.

(** What [initialize] leaves of [three] on [seeded]. *)
Definition threeSearched : ObjectTracker :=
  mkObjectTracker [bounds 2] [oneMarker; twoMarkers]
    [mkObject 0 0 (poseAt 0 0) 0 false; mkObject 1 0 halfway 0 false;
     mkObject 0 0 (poseAt 0 0) 0 false] false.

(** One object whose eight bounds are the double nearest to 1/10. *)
Definition slow : ObjectTracker :=
  mkObjectTracker [boundsTenth] [cloud] [object 0] true.

(** A clock reading of 10.0000001 s. *)
Definition tenSecondsAndABit : time_point := 10000000100.

End Field.

(* ------------------------------------------------------------------ *)
(** ** Facts on the floating-point operations *)

Section FloatFacts.

(** The constants are the doubles nearest to their decimal literals. *)
Lemma M_PI_nearest :
  2 * Z.abs (7074237752028440 * 10 ^ 20 - 314159265358979323846 * 2 ^ 51) <= 10 ^ 20
  /\ M_PI = S754_finite false 7074237752028440 (-51).
Proof. split; [vm_compute; discriminate | reflexivity]. Qed.

Lemma lit_0_008_nearest :
  F64.div (double_of_int 8) (double_of_int 1000) = lit_0_008.
Proof. vm_compute. reflexivity. Qed.

Lemma fabs_promote (v : float) :
  float_to_double (fabs v) = fabs (float_to_double v).
Proof.
  destruct v as [s|s| |s m e]; try reflexivity.
  unfold float_to_double, F64.round, fabs, SFabs, binary_round.
  destruct (shl_align _ _ _) as [mz ez].
  unfold binary_round_aux.
  destruct (shr_fexp _ _ _ _ _) as [mrs' e'].
  destruct (shr_fexp _ _ _ _ _) as [mrs'' e''].
  destruct (shr_m mrs'') as [|p|p]; try reflexivity.
  destruct (e'' <=? _); reflexivity.
Qed.

Lemma flt_nan_l (b : spec_float) : flt S754_nan b = false.
Proof. reflexivity. Qed.

Lemma flt_pinf_l (b : spec_float) : flt (S754_infinity false) b = false.
Proof. destruct b as [s|[]| |[] m e]; reflexivity. Qed.

(** The quotient by a zero is a NaN or an infinity. *)
Lemma div_zero_nonfinite (a d : double) :
  is_zero d = true -> is_nonfinite (F64.div a d) = true.
Proof.
  destruct d as [sd|sd| |sd md ed]; try discriminate; intros _.
  destruct a as [s|s| |s m e]; reflexivity.
Qed.

Lemma double_to_float_nonfinite (x : double) :
  is_nonfinite x = true -> is_nonfinite (double_to_float x) = true.
Proof. destruct x; try discriminate; reflexivity. Qed.

Lemma fabs_nonfinite (x : spec_float) :
  is_nonfinite x = true -> fabs x = S754_nan \/ fabs x = S754_infinity false.
Proof. destruct x; try discriminate; simpl; auto. Qed.

Lemma float_to_double_nonfinite (x : float) :
  is_nonfinite x = true -> float_to_double x = x.
Proof. destruct x; try discriminate; reflexivity. Qed.

(** A NaN or an infinity is below no bound, not even an infinite one. *)
Lemma flt_abs_nonfinite (v : float) (bound : double) :
  is_nonfinite v = true -> flt (float_to_double (fabs v)) bound = false.
Proof.
  intros Hv. destruct (fabs_nonfinite v Hv) as [-> | ->]; simpl.
  - apply flt_nan_l.
  - apply flt_pinf_l.
Qed.

(** The elapsed time between a time point and itself is [+0.0]. *)
Lemma elapsedSeconds_diag (s : time_point) :
  elapsedSeconds s s = S754_zero false.
Proof. unfold elapsedSeconds. rewrite Z.sub_diag. reflexivity. Qed.

End FloatFacts.

(* ------------------------------------------------------------------ *)
(** ** Rounding never produces a zero above the underflow range

  [mag m e] is the position of the leading bit of [m * 2^e].  The
  lemmas follow the definitions of [SpecFloat] step by step. *)

Section Rounding.
Variables prec emax : Z.
Hypothesis prec_pos : 0 < prec.

Lemma digits2_pos_size (p : positive) : digits2_pos p = Pos.size p.
Proof. induction p; simpl; congruence. Qed.

Lemma Zdigits2_log2 (m : Z) : 0 < m -> Zdigits2 m = Z.log2 m + 1.
Proof.
  destruct m as [|p|p]; try lia. intros _. simpl. rewrite digits2_pos_size.
  destruct p; simpl; lia.
Qed.

Lemma Zdigits2_mono (a b : Z) : 0 < a -> a <= b -> Zdigits2 a <= Zdigits2 b.
Proof.
  intros Ha Hab. rewrite !Zdigits2_log2 by lia.
  pose proof (Z.log2_le_mono a b Hab). lia.
Qed.

Lemma shr_1_m (r : shr_record) : 0 <= shr_m r -> shr_m (shr_1 r) = shr_m r / 2.
Proof.
  destruct r as [m rb sb]. cbn [shr_m]. intros Hm.
  destruct m as [|[p|p|]|p]; cbn [shr_1 shr_m]; try lia; try reflexivity.
  - apply Z.div_unique with 1; lia.
  - apply Z.div_unique with 0; lia.
Qed.

Lemma iter_shr_1_m (n : positive) : forall r : shr_record,
  0 <= shr_m r -> shr_m (SpecFloat.iter_pos shr_1 n r) = shr_m r / 2 ^ Zpos n.
Proof.
  assert (Hnn : forall r, 0 <= shr_m r -> 0 <= shr_m (shr_1 r)).
  { intros r Hr. rewrite shr_1_m by assumption. apply Z.div_pos; lia. }
  induction n as [n IH|n IH|]; intros r Hr; cbn [SpecFloat.iter_pos].
  - assert (H1 := Hnn r Hr).
    assert (H2 : 0 <= shr_m (SpecFloat.iter_pos shr_1 n (shr_1 r))).
    { rewrite IH by assumption. apply Z.div_pos; lia. }
    rewrite IH, IH, shr_1_m by assumption.
    rewrite !Z.div_div by lia.
    f_equal. rewrite <- !Z.pow_add_r by lia.
    rewrite <- (Z.pow_1_r 2) at 1. rewrite <- Z.pow_add_r by lia.
    f_equal. lia.
  - assert (H2 : 0 <= shr_m (SpecFloat.iter_pos shr_1 n r)).
    { rewrite IH by assumption. apply Z.div_pos; lia. }
    rewrite IH, IH by assumption.
    rewrite !Z.div_div by lia.
    f_equal. rewrite <- Z.pow_add_r by lia. f_equal. lia.
  - rewrite shr_1_m by assumption. reflexivity.
Qed.

(** Dropping [n] low bits of a number of more than [n] bits. *)
Lemma shift_digits (m n : Z) :
  0 < m -> 0 < n -> n < Zdigits2 m ->
  1 <= m / 2 ^ n /\ Zdigits2 (m / 2 ^ n) = Zdigits2 m - n.
Proof.
  intros Hm Hn Hd. rewrite Zdigits2_log2 in Hd by lia.
  assert (Hq : 1 <= m / 2 ^ n).
  { apply Z.div_le_lower_bound; [lia|].
    destruct (Z.log2_spec m Hm) as [Hlo _].
    assert (2 ^ n <= 2 ^ Z.log2 m) by (apply Z.pow_le_mono_r; lia). lia. }
  split; [exact Hq|].
  rewrite !Zdigits2_log2 by lia.
  rewrite <- Z.shiftr_div_pow2 by lia.
  rewrite Z.log2_shiftr by lia. lia.
Qed.

Lemma shr_record_of_loc_m (m : Z) (l : location) :
  shr_m (shr_record_of_loc m l) = m.
Proof. destruct l as [|[]]; reflexivity. Qed.

Lemma fexp_ge_emin (e : Z) : emin prec emax <= fexp prec emax e.
Proof. unfold fexp. lia. Qed.

(** The shift of [shr_fexp] keeps a mantissa positive and its magnitude. *)
Lemma shr_fexp_mag (m e : Z) (l : location) :
  1 <= m -> emin prec emax < mag m e ->
  1 <= shr_m (fst (shr_fexp prec emax m e l)) /\
  mag (shr_m (fst (shr_fexp prec emax m e l))) (snd (shr_fexp prec emax m e l))
    = mag m e.
Proof.
  intros Hm Hmag. unfold shr_fexp, shr, mag in *.
  destruct (fexp prec emax (Zdigits2 m + e) - e) as [|n|n] eqn:Hn; simpl;
    rewrite ?shr_record_of_loc_m; try (split; [lia | reflexivity]).
  assert (E : shr_m (SpecFloat.iter_pos shr_1 n (shr_record_of_loc m l)) = m / 2 ^ Z.pos n).
  { rewrite iter_shr_1_m; rewrite shr_record_of_loc_m; [reflexivity | lia]. }
  rewrite E.
  assert (Hlt : Z.pos n < Zdigits2 m) by (unfold fexp in Hn; lia).
  destruct (shift_digits m (Z.pos n)) as [H1 H2]; lia.
Qed.

Lemma round_nearest_even_ge (m : Z) (l : location) :
  m <= round_nearest_even m l.
Proof. destruct l as [|[]]; simpl; try lia. destruct (Z.even m); lia. Qed.

(** Rounding a positive mantissa above the underflow range gives a
    finite number of at least its magnitude, or an infinity. *)
Lemma binary_round_aux_mag (s : bool) (m e : Z) (l : location) :
  1 <= m -> emin prec emax < mag m e ->
  match binary_round_aux prec emax s m e l with
  | S754_finite _ m' e' => mag m e <= mag (Zpos m') e'
  | S754_infinity _ => True
  | _ => False
  end.
Proof.
  intros Hm Hmag. unfold binary_round_aux.
  destruct (shr_fexp_mag m e l Hm Hmag) as [H1 H2].
  destruct (shr_fexp prec emax m e l) as [mrs' e'] eqn:E1. simpl in H1, H2.
  set (m1 := round_nearest_even (shr_m mrs') (loc_of_shr_record mrs')).
  assert (Hm1 : shr_m mrs' <= m1) by apply round_nearest_even_ge.
  assert (Hd1 : mag m e <= mag m1 e').
  { rewrite <- H2. unfold mag. pose proof (Zdigits2_mono (shr_m mrs') m1). lia. }
  destruct (shr_fexp_mag m1 e' loc_Exact) as [H3 H4]; try lia.
  destruct (shr_fexp prec emax m1 e' loc_Exact) as [mrs'' e''] eqn:E2.
  simpl in H3, H4.
  destruct (shr_m mrs'') as [|p|p]; try lia.
  destruct (e'' <=? emax - prec); [lia | exact I].
Qed.

Lemma iter_xO_pow (m d : positive) :
  Zpos (Pos.iter xO m d) = Zpos m * 2 ^ Zpos d.
Proof.
  induction d as [|d IH] using Pos.peano_ind.
  - cbn [Pos.iter]. rewrite Pos2Z.inj_xO, Z.pow_1_r. lia.
  - rewrite Pos.iter_succ, Pos2Z.inj_xO, IH, Pos2Z.inj_succ, Z.pow_succ_r; lia.
Qed.

Lemma binary_round_mag (s : bool) (m : positive) (e : Z) :
  emin prec emax < mag (Zpos m) e ->
  match binary_round prec emax s m e with
  | S754_finite _ m' e' => mag (Zpos m) e <= mag (Zpos m') e'
  | S754_infinity _ => True
  | _ => False
  end.
Proof.
  intros Hmag. unfold binary_round, shl_align.
  destruct (fexp prec emax (Z.pos (digits2_pos m) + e) - e) as [|d|d] eqn:Hd;
    try (apply binary_round_aux_mag; [lia | exact Hmag]).
  set (mz := Pos.iter xO m d).
  set (ez := fexp prec emax (Z.pos (digits2_pos m) + e)).
  assert (Hmz : Zpos mz = Zpos m * 2 ^ Zpos d).
  { apply iter_xO_pow. }
  assert (Hdig : Zdigits2 (Zpos mz) = Zdigits2 (Zpos m) + Zpos d).
  { rewrite !Zdigits2_log2 by lia. rewrite Hmz.
    rewrite <- Z.shiftl_mul_pow2 by lia. rewrite Z.log2_shiftl by lia. lia. }
  assert (Hmag' : mag (Zpos mz) ez = mag (Zpos m) e).
  { unfold mag. rewrite Hdig. simpl Zdigits2. unfold ez. lia. }
  pose proof (binary_round_aux_mag s (Zpos mz) ez loc_Exact) as H.
  rewrite Hmag' in H. apply H; lia.
Qed.

(** The quotient of two finite numbers, above the underflow range. *)
Lemma SFdiv_finite_mag (sx sy : bool) (mx my : positive) (ex ey : Z) :
  emin prec emax < mag (Zpos mx) ex - mag (Zpos my) ey ->
  match SFdiv prec emax (S754_finite sx mx ex) (S754_finite sy my ey) with
  | S754_finite _ m' e' => mag (Zpos mx) ex - mag (Zpos my) ey <= mag (Zpos m') e'
  | S754_infinity _ => True
  | _ => False
  end.
Proof.
  intros HX. cbn [SFdiv]. unfold SFdiv_core_binary.
  set (d1 := Zdigits2 (Zpos mx)) in *. set (d2 := Zdigits2 (Zpos my)) in *.
  set (e' := Z.min (fexp prec emax (d1 + ex - (d2 + ey))) (ex - ey)).
  set (sh := ex - ey - e').
  set (m' := match sh with
             | 0 => Z.pos mx | Z.pos _ => Z.shiftl (Z.pos mx) sh | Z.neg _ => 0
             end).
  unfold mag in HX. fold d1 d2 in HX.
  assert (Hsh : d2 - d1 + 1 <= sh) by (unfold sh, e', fexp; lia).
  assert (Hm' : m' = Zpos mx * 2 ^ sh).
  { unfold m'. destruct sh as [|p|p] eqn:E.
    - lia.
    - apply Z.shiftl_mul_pow2; lia.
    - unfold e' in *; lia. }
  assert (Hd1 : 2 ^ (d1 - 1) <= Zpos mx).
  { unfold d1. rewrite Zdigits2_log2 by lia.
    replace (Z.log2 (Z.pos mx) + 1 - 1) with (Z.log2 (Z.pos mx)) by lia.
    apply Z.log2_spec; lia. }
  assert (Hd2 : Zpos my < 2 ^ d2).
  { unfold d2. rewrite Zdigits2_log2 by lia. apply Z.log2_spec; lia. }
  assert (Hd1p : 1 <= d1) by (unfold d1; simpl; lia).
  assert (Hd2p : 1 <= d2) by (unfold d2; simpl; lia).
  assert (Hsh0 : 0 <= sh) by (unfold sh, e'; lia).
  set (k := d1 - 1 + sh - d2).
  assert (Hk : 0 <= k) by (unfold k; lia).
  assert (Hq : 2 ^ k <= m' / Zpos my).
  { apply Z.div_le_lower_bound; [lia|].
    assert (Zpos my * 2 ^ k <= 2 ^ d2 * 2 ^ k).
    { apply Z.mul_le_mono_nonneg_r; [apply Z.pow_nonneg|]; lia. }
    assert (2 ^ d2 * 2 ^ k = 2 ^ (d1 - 1) * 2 ^ sh).
    { rewrite <- !Z.pow_add_r by lia. f_equal. unfold k. lia. }
    assert (2 ^ (d1 - 1) * 2 ^ sh <= Zpos mx * 2 ^ sh).
    { apply Z.mul_le_mono_nonneg_r; [apply Z.pow_nonneg|]; lia. }
    lia. }
  destruct (Z.div_eucl m' (Z.pos my)) as [q r] eqn:Eq.
  assert (Hqd : q = m' / Zpos my) by (unfold Z.div; rewrite Eq; reflexivity).
  assert (Hq1 : 1 <= q).
  { assert (1 <= 2 ^ k) by (apply Z.pow_pos_nonneg with (a := 2) in Hk; lia). lia. }
  assert (Hdq : k + 1 <= Zdigits2 q).
  { rewrite Zdigits2_log2 by lia.
    assert (k <= Z.log2 q) by (apply Z.log2_le_pow2; lia). lia. }
  pose proof (binary_round_aux_mag (xorb sx sy) q e' (new_location (Z.pos my) r)) as H.
  assert (Hmag : emin prec emax < mag q e').
  { unfold mag. unfold k, sh in Hdq. lia. }
  specialize (H Hq1 Hmag).
  destruct (binary_round_aux _ _ _ _ _ _) as [s0|s0| |s0 m0 e0]; try exact H.
  unfold mag in *. fold d1 d2. unfold k, sh in Hdq. lia.
Qed.
End Rounding.

Ltac mag_lia :=
unfold emin, mag, F64.prec, F64.emax, F32.prec, F32.emax in *;
cbn [Zdigits2] in *; lia.

Section Conversions.

(** [static_cast<double>(c)] of a non-zero integer is a number of
    magnitude at least 1 (or an infinity, beyond every [int64]). *)
Lemma double_of_int_mag (c : Z) :
  c <> 0 ->
  match double_of_int c with
  | S754_finite _ m' e' => 1 <= mag (Zpos m') e'
  | S754_infinity _ => True
  | _ => False
  end.
Proof.
  intros Hc. unfold double_of_int, F64.of_Z.
  destruct c as [|p|p]; [lia| |]; cbn [binary_normalize].
  - pose proof (binary_round_mag F64.prec F64.emax eq_refl false p 0) as Hr.
    assert (Hm : emin F64.prec F64.emax < mag (Z.pos p) 0)
      by mag_lia.
    specialize (Hr Hm). destruct (binary_round _ _ _ _ _); try exact Hr.
    mag_lia.
  - pose proof (binary_round_mag F64.prec F64.emax eq_refl true p 0) as Hr.
    assert (Hm : emin F64.prec F64.emax < mag (Z.pos p) 0)
      by mag_lia.
    specialize (Hr Hm). destruct (binary_round _ _ _ _ _); try exact Hr.
    mag_lia.
Qed.

(** [static_cast<float>(n)] is a zero exactly when [n] is 0. *)
Lemma float_of_int_zero (n : Z) :
  is_zero (float_of_int n) = true <-> n = 0.
Proof.
  split; [|intros ->; reflexivity].
  unfold float_of_int, F32.of_Z. intros Hz.
  destruct n as [|p|p]; [reflexivity| |]; exfalso; cbn [binary_normalize] in Hz.
  - pose proof (binary_round_mag F32.prec F32.emax eq_refl false p 0) as Hr.
    assert (Hm : emin F32.prec F32.emax < mag (Z.pos p) 0)
      by mag_lia.
    specialize (Hr Hm). destruct (binary_round _ _ _ _ _); try discriminate.
    exact Hr.
  - pose proof (binary_round_mag F32.prec F32.emax eq_refl true p 0) as Hr.
    assert (Hm : emin F32.prec F32.emax < mag (Z.pos p) 0)
      by mag_lia.
    specialize (Hr Hm). destruct (binary_round _ _ _ _ _); try discriminate.
    exact Hr.
Qed.

(** The elapsed time between two time points is a zero exactly when
    they are the same. *)
Lemma elapsedSeconds_zero (a b : time_point) :
  is_zero (elapsedSeconds a b) = true <-> a = b.
Proof.
  split; [|intros ->; rewrite elapsedSeconds_diag; reflexivity].
  intros Hz. destruct (Z.eq_dec a b) as [|Hne]; [assumption|exfalso].
  unfold elapsedSeconds in Hz.
  pose proof (double_of_int_mag (a - b)) as Hn.
  destruct (double_of_int (a - b)) as [s|s| |s m e]; try (apply Hn; lia).
  - discriminate Hz.
  - change (double_of_int ticks_per_second)
      with (S754_finite false 8388608000000000 (-23)) in Hz.
    pose proof (SFdiv_finite_mag F64.prec F64.emax eq_refl s false m
                  8388608000000000 e (-23)) as Hd.
    unfold F64.div in Hz.
    destruct (SFdiv _ _ _ _); try discriminate Hz.
    apply Hd. specialize (Hn ltac:(lia)).
    change (mag 8388608000000000 (-23)) with 30.
    mag_lia.
Qed.

End Conversions.

(* ------------------------------------------------------------------ *)
(** ** The order of [<] on floating-point numbers *)

Ltac cmp_cases :=
repeat match goal with
| |- context [Z.compare ?a ?b] =>
    destruct (Z.compare_spec a b); try subst; cbn [CompOpp]
| |- context [Pos.compare_cont Eq ?a ?b] =>
    change (Pos.compare_cont Eq a b) with (Pos.compare a b);
    destruct (Pos.compare_spec a b); try subst; cbn [CompOpp]
end.

Lemma SFcompare_lt_trans (x y z : spec_float) :
SFcompare x y = Some Lt -> SFcompare y z = Some Lt -> SFcompare x z = Some Lt.
Proof.
destruct x as [[]|[]| |[] mx ex], y as [[]|[]| |[] my ey],
         z as [[]|[]| |[] mz ez];
  cbn [SFcompare]; try discriminate; try reflexivity;
  cmp_cases; intros; try discriminate; try reflexivity; try lia.
Qed.

Lemma SFcompare_le_lt_trans (x y z : spec_float) :
(SFcompare x y = Some Lt \/ SFcompare x y = Some Eq) ->
SFcompare y z = Some Lt -> SFcompare x z = Some Lt.
Proof.
intros [H|H]; [apply SFcompare_lt_trans; exact H|]. revert H.
destruct x as [[]|[]| |[] mx ex], y as [[]|[]| |[] my ey],
         z as [[]|[]| |[] mz ez];
  cbn [SFcompare]; try discriminate; try reflexivity;
  cmp_cases; intros; try discriminate; try reflexivity; try lia.
Qed.

Lemma SFcompare_irrefl (x : spec_float) : SFcompare x x <> Some Lt.
Proof.
destruct x as [[]|[]| |[] mx ex]; cbn [SFcompare]; try discriminate;
  rewrite Z.compare_refl; change (Pos.compare_cont Eq mx mx) with (Pos.compare mx mx);
  rewrite Pos.compare_refl; discriminate.
Qed.

Lemma flt_irrefl (x : spec_float) : flt x x = false.
Proof.
unfold flt, SFltb. pose proof (SFcompare_irrefl x) as Hx.
destruct (SFcompare x x) as [[]|]; congruence.
Qed.

Lemma flt_Lt (x y : spec_float) : flt x y = true <-> SFcompare x y = Some Lt.
Proof.
unfold flt, SFltb. destruct (SFcompare x y) as [[]|]; split; congruence.
Qed.

Lemma flt_trans (x y z : spec_float) :
flt x y = true -> flt y z = true -> flt x z = true.
Proof. rewrite !flt_Lt. apply SFcompare_lt_trans. Qed.

Lemma fle_flt_trans (x y z : spec_float) :
SFleb x y = true -> flt y z = true -> flt x z = true.
Proof.
rewrite !flt_Lt. intros Hle. apply SFcompare_le_lt_trans.
unfold SFleb in Hle. destruct (SFcompare x y) as [[]|]; auto; discriminate.
Qed.

(** Nothing is strictly below a value and strictly above it. *)
Lemma flt_asym (x y : spec_float) : flt x y = true -> flt y x = false.
Proof.
intros Hxy. destruct (flt y x) eqn:Hyx; [|reflexivity].
pose proof (flt_trans _ _ _ Hxy Hyx) as Hxx.
rewrite flt_irrefl in Hxx. discriminate.
Qed.

(* ------------------------------------------------------------------ *)
(** ** The yaw search *)

Section YawSearch.
Context {lib : PCL}.

(** What the loop leaves in [bestErr] and [m_lastTransformation]:
    either nothing scored below the initial [bestErr] and both are
    untouched, or they come from the first hypothesis of lowest score. *)
Lemma yawSearch_inv (icp : ICP) (center : PointXYZ) (ixs : list Z) :
  forall (bestErr : double) (T : Affine3f),
    (yawSearch icp center ixs bestErr T = (bestErr, T) /\
     Forall (fun r => flt (getFitnessScore r) bestErr = false)
            (hypotheses icp center ixs))
    \/
    (exists (k : nat) (r : Registration),
        hypotheses icp center ixs !! k = Some r /\
        yawSearch icp center ixs bestErr T
          = (getFitnessScore r, getFinalTransformation r) /\
        flt (getFitnessScore r) bestErr = true /\
        Forall (fun r' => flt (getFitnessScore r') (getFitnessScore r) = false)
               (hypotheses icp center ixs) /\
        forall (j : nat) (r' : Registration),
          (j < k)%nat -> hypotheses icp center ixs !! j = Some r' ->
          SFleb (getFitnessScore r') (getFitnessScore r) = false).
Proof.
  induction ixs as [|i ixs IH]; intros bestErr T.
  - left. split; [reflexivity | constructor].
  - cbn [yawSearch hypotheses map].
    set (r0 := align icp (tryMatrix center (yawGuess i))).
    fold (hypotheses icp center ixs).
    destruct (flt (getFitnessScore r0) bestErr) eqn:Hlt.
    + right.
      destruct (IH (getFitnessScore r0) (getFinalTransformation r0))
        as [[Heq Hall] | (k & r & Hk & Heq & Hbelow & Hall & Hfirst)].
      * exists 0%nat, r0. repeat split; auto.
        -- constructor; [apply flt_irrefl | exact Hall].
        -- intros j r' Hj. lia.
      * exists (S k), r. repeat split; auto.
        -- eapply flt_trans; eassumption.
        -- constructor; [apply flt_asym; exact Hbelow | exact Hall].
        -- intros [|j] r' Hj Hr'.
           ++ cbn in Hr'. injection Hr' as <-.
              destruct (SFleb _ _) eqn:Hle; [|reflexivity].
              pose proof (fle_flt_trans _ _ _ Hle Hbelow) as Hc.
              rewrite flt_irrefl in Hc. discriminate.
           ++ apply (Hfirst j); [lia | exact Hr'].
    + destruct (IH bestErr T)
        as [[Heq Hall] | (k & r & Hk & Heq & Hbelow & Hall & Hfirst)].
      * left. split; [exact Heq | constructor; assumption].
      * right. exists (S k), r. repeat split; auto.
        -- constructor; [|exact Hall].
           destruct (flt (getFitnessScore r0) (getFitnessScore r)) eqn:Hc;
             [|reflexivity].
           rewrite (flt_trans _ _ _ Hc Hbelow) in Hlt. discriminate.
        -- intros [|j] r' Hj Hr'.
           ++ cbn in Hr'. injection Hr' as <-.
              destruct (SFleb _ _) eqn:Hle; [|reflexivity].
              rewrite (fle_flt_trans _ _ _ Hle Hbelow) in Hlt. discriminate.
           ++ apply (Hfirst j); [lia | exact Hr'].
Qed.

Lemma yawIndices_eq :
  yawIndices = [0;1;2;3;4;5;6;7;8;9;10;11;12;13;14;15;16;17;18;19].
Proof. reflexivity. Qed.

End YawSearch.

(* ------------------------------------------------------------------ *)
(** ** [initialize], object by object *)

Section InitializeFacts.
Context {lib : PCL}.

Lemma sameSettings_source (icp icp0 : ICP) (s : PointCloud) :
  sameSettings icp icp0 -> setInputSource icp s = setInputSource icp0 s.
Proof. intros (H1 & H2 & H3). unfold setInputSource. congruence. Qed.

Lemma sameSettings_setInputSource (icp icp0 : ICP) (s : PointCloud) :
  sameSettings icp icp0 -> sameSettings (setInputSource icp s) icp0.
Proof. intros (H1 & H2 & H3). repeat split; assumption. Qed.

Lemma checkFit_spec (markers : PointCloud) (bestCloud : PointCloud) :
  forall ok ok' : bool,
    checkFit markers bestCloud ok = Some ok' ->
    (ok' = true <-> ok = true /\ Forall (pointFits markers) bestCloud).
Proof.
  induction bestCloud as [|p rest IH]; intros ok ok' Hc; cbn [checkFit] in Hc.
  - injection Hc as <-. split; [intros ->; split; [reflexivity|constructor] | tauto].
  - apply bind_Some in Hc as (d & Hd & Hc).
    apply IH in Hc. rewrite Hc. clear Hc IH. split.
    + intros [Hok Hrest].
      destruct (flt _ _) eqn:Hlt; [discriminate|].
      split; [exact Hok|]. constructor; [|exact Hrest].
      exists d. split; assumption.
    + intros [-> Hall]. inversion Hall as [|? ? (d' & Hd' & Hfit) Hrest]; subst.
      unfold nearestSqrDist in Hd'. rewrite Hd in Hd'. injection Hd' as <-.
      rewrite Hfit. split; [reflexivity | exact Hrest].
Qed.

(** One iteration of the loop over the objects. *)
Lemma initializeObject_spec (markerConfigurations : list MarkerConfiguration)
    (markers : PointCloud) (icp icp' : ICP) (ok ok' : bool) (o o' : Object) :
  initializeObject markerConfigurations markers icp ok o = Some (icp', ok', o') ->
  exists (objMarkers : PointCloud) (center : PointXYZ),
    markerConfigurations !! m_markerConfigurationIdx o = Some objMarkers /\
    objectCentroid markers objMarkers o = Some center /\
    icp' = setInputSource icp objMarkers /\
    o' = set_lastTransformation o
           (yawSearch icp' center yawIndices DBL_MAX (m_lastTransformation o)).2 /\
    (ok' = true <->
     ok = true /\
     Forall (fun p => pointFits markers (transformPoint (transformation o') p))
            objMarkers).
Proof.
  unfold initializeObject. intros Hi.
  apply bind_Some in Hi as (objMarkers & HobjMarkers & Hi).
  apply bind_Some in Hi as (center & Hcenter & Hi).
  remember (yawSearch (setInputSource icp objMarkers) center yawIndices DBL_MAX
              (m_lastTransformation o)).2 as T eqn:HT.
  apply bind_Some in Hi as (b & Hcheck & Hi).
  injection Hi as <- <- <-.
  exists objMarkers, center.
  split; [exact HobjMarkers|]. split; [exact Hcenter|].
  split; [reflexivity|]. split; [rewrite HT; reflexivity|].
  apply checkFit_spec in Hcheck. rewrite Hcheck.
  unfold transformPointCloud. rewrite Forall_map. reflexivity.
Qed.

Lemma initializeLoop_spec (markerConfigurations : list MarkerConfiguration)
    (markers : PointCloud) (objs : list Object) :
  forall (icp : ICP) (ok ok' : bool) (objs' : list Object),
    sameSettings icp (setInputTarget (setMaximumIterations ICP_new 5) markers) ->
    initializeLoop markerConfigurations markers icp ok objs = Some (ok', objs') ->
    Forall2 (initialized markerConfigurations markers) objs objs' /\
    (ok' = true <->
     ok = true /\ Forall (objectFits markerConfigurations markers) objs').
Proof.
  induction objs as [|o rest IH]; intros icp ok ok' objs' Hicp Hl;
    cbn [initializeLoop] in Hl.
  - injection Hl as <- <-. split; [constructor|].
    split; [intros ->; split; [reflexivity|constructor] | tauto].
  - apply bind_Some in Hl as ([[icp1 ok1] o1] & Hobj & Hl).
    apply bind_Some in Hl as ([ok2 rest'] & Hrest & Hl).
    injection Hl as <- <-.
    apply initializeObject_spec in Hobj
      as (objMarkers & center & Hcfg & Hctr & Hicp1 & Ho1 & Hok1).
    apply IH in Hrest as [Hall Hok2];
      [|rewrite Hicp1; apply sameSettings_setInputSource; exact Hicp].
    rewrite Hicp1, (sameSettings_source _ _ objMarkers Hicp) in Ho1.
    change (o1 = set_lastTransformation o
                   (candidatePose markers objMarkers center o)) in Ho1.
    assert (Hidx : m_markerConfigurationIdx o1 = m_markerConfigurationIdx o)
      by (rewrite Ho1; reflexivity).
    clear Hicp1 IH. split.
    + constructor; [|exact Hall]. exists objMarkers, center.
      split; [exact Hcfg|]. split; [exact Hctr | exact Ho1].
    + rewrite Hok2, Hok1. clear Hok1 Hok2. split.
      * intros [[Hok Hfit] Hrest]. split; [exact Hok|].
        constructor; [|exact Hrest]. exists objMarkers.
        split; [rewrite Hidx; exact Hcfg | exact Hfit].
      * intros [Hok Hfits].
        inversion Hfits as [|? ? (om & Hom & Hfit) Hrest]; subst x l.
        rewrite Hidx, Hcfg in Hom. injection Hom as <-.
        split; [split; [exact Hok | exact Hfit] | exact Hrest].
Qed.

Lemma initialize_spec (tr tr' : ObjectTracker) (markers : PointCloud)
    (ok : bool) :
  initialize tr markers = Some (ok, tr') ->
  m_dynamicsConfigurations tr' = m_dynamicsConfigurations tr /\
  m_markerConfigurations tr' = m_markerConfigurations tr /\
  m_initialized tr' = m_initialized tr /\
  Forall2 (initialized (m_markerConfigurations tr) markers)
          (m_objects tr) (m_objects tr') /\
  (ok = true <->
   Forall (objectFits (m_markerConfigurations tr) markers) (m_objects tr')).
Proof.
  unfold initialize. intros Hi.
  apply bind_Some in Hi as ([ok1 objs'] & Hl & Hi). injection Hi as <- <-.
  apply initializeLoop_spec in Hl as [Hall Hok];
    [|repeat split; reflexivity].
  repeat split; try reflexivity; try exact Hall.
  - intros Hk. apply Hok in Hk. tauto.
  - intros Hf. apply Hok. split; [reflexivity | exact Hf].
Qed.

End InitializeFacts.

(* ------------------------------------------------------------------ *)
(** ** The tracking loop, object by object *)

Section TrackingFacts.
Context {lib : PCL}.

Lemma trackObject_spec (dynamicsConfigurations : list DynamicsConfiguration)
    (markerConfigurations : list MarkerConfiguration) (markers : PointCloud)
    (stamp : time_point) (icp icp' : ICP) (o o' : Object) :
  sameTarget icp (setInputTarget (setMaximumIterations ICP_new 5) markers) ->
  trackObject dynamicsConfigurations markerConfigurations stamp icp o
    = Some (icp', o') ->
  exists (dynConf : DynamicsConfiguration) (source : PointCloud),
    dynamicsConfigurations !! m_dynamicsConfigurationIdx o = Some dynConf /\
    markerConfigurations !! m_markerConfigurationIdx o = Some source /\
    icp' = trackICP markers dynConf source (frameDt stamp o) /\
    o' = tracked markers dynConf source stamp o.
Proof.
  intros [Hit Htg] Ht. unfold trackObject in Ht.
  apply bind_Some in Ht as (dynConf & Hdyn & Ht).
  apply bind_Some in Ht as (source & Hsrc & Ht).
  cbn in Hdyn, Hsrc.
  exists dynConf, source. split; [exact Hdyn|]. split; [exact Hsrc|].
  assert (Hicp : setInputSource
                   (setMaxCorrespondenceDistance icp
                      (F64.mul (float_to_double (double_to_float (maxXVelocity dynConf)))
                         (elapsedSeconds stamp
                            (m_lastValidTransform (set_lastTransformationValid o false)))))
                   source
                 = trackICP markers dynConf source (frameDt stamp o)).
  { unfold trackICP, setInputSource, setMaxCorrespondenceDistance. cbn.
    cbn in Hit, Htg. rewrite Hit, Htg. reflexivity. }
  rewrite Hicp in Ht. clear Hicp.
  unfold tracked, frameGate, frameRegistration.
  cbn [set_lastTransformationValid m_lastTransformation m_lastValidTransform] in Ht.
  fold (frameDt stamp o) in Ht.
  destruct (hasConverged _) eqn:Hconv; cbn [negb andb] in *.
  - destruct (gate _ _ _ _) eqn:Hgate; injection Ht as <- <-;
      split; reflexivity.
  - injection Ht as <- <-. split; reflexivity.
Qed.

Lemma trackICP_sameTarget (markers : PointCloud)
    (dynConf : DynamicsConfiguration) (source : PointCloud) (dt : double) :
  sameTarget (trackICP markers dynConf source dt)
             (setInputTarget (setMaximumIterations ICP_new 5) markers).
Proof. split; reflexivity. Qed.

Lemma trackLoop_spec (dynamicsConfigurations : list DynamicsConfiguration)
    (markerConfigurations : list MarkerConfiguration) (markers : PointCloud)
    (stamp : time_point) (objs : list Object) :
  forall (icp : ICP) (objs' : list Object),
    sameTarget icp (setInputTarget (setMaximumIterations ICP_new 5) markers) ->
    trackLoop dynamicsConfigurations markerConfigurations stamp icp objs
      = Some objs' ->
    Forall2 (trackedIn dynamicsConfigurations markerConfigurations markers stamp)
            objs objs'.
Proof.
  induction objs as [|o rest IH]; intros icp objs' Hicp Hl; cbn [trackLoop] in Hl.
  - injection Hl as <-. constructor.
  - apply bind_Some in Hl as ([icp1 o1] & Hobj & Hl).
    apply bind_Some in Hl as (rest' & Hrest & Hl). injection Hl as <-.
    apply (trackObject_spec _ _ markers) in Hobj
      as (dynConf & source & Hdyn & Hsrc & -> & ->); [|exact Hicp].
    constructor.
    + exists dynConf, source. auto.
    + eapply IH; [|exact Hrest]. apply trackICP_sameTarget.
Qed.

Lemma ensureInitialized_spec (tr tr0 : ObjectTracker) (markers : PointCloud) :
  ensureInitialized tr markers = Some tr0 ->
  (m_initialized tr = true /\ tr0 = tr) \/
  (m_initialized tr = false /\
   exists (ok : bool) (tr1 : ObjectTracker),
     initialize tr markers = Some (ok, tr1) /\ tr0 = with_initialized tr1 ok).
Proof.
  unfold ensureInitialized. destruct (m_initialized tr) eqn:Hinit.
  - intros [= <-]. left. auto.
  - intros He. right. split; [reflexivity|].
    apply bind_Some in He as ([ok tr1] & Hi & He). injection He as <-.
    exists ok, tr1. auto.
Qed.

(** The configurations and the time stamps of the objects are the
    same before and after the initialization step. *)
Lemma ensureInitialized_keeps (tr tr0 : ObjectTracker) (markers : PointCloud) :
  ensureInitialized tr markers = Some tr0 ->
  m_dynamicsConfigurations tr0 = m_dynamicsConfigurations tr /\
  m_markerConfigurations tr0 = m_markerConfigurations tr /\
  Forall2 (fun o o0 =>
             m_markerConfigurationIdx o0 = m_markerConfigurationIdx o /\
             m_dynamicsConfigurationIdx o0 = m_dynamicsConfigurationIdx o /\
             m_lastValidTransform o0 = m_lastValidTransform o /\
             m_lastTransformationValid o0 = m_lastTransformationValid o)
          (m_objects tr) (m_objects tr0).
Proof.
  intros He. apply ensureInitialized_spec in He
    as [[_ ->] | (_ & ok & tr1 & Hi & ->)].
  - repeat split; try reflexivity. apply Forall2_same_length_lookup.
    split; [reflexivity|]. intros i x y Hx Hy. rewrite Hx in Hy.
    injection Hy as <-. auto.
  - apply initialize_spec in Hi as (Hd & Hm & _ & Hall & _). cbn.
    repeat split; try assumption.
    eapply Forall2_impl; [exact Hall|].
    intros o o0 (objMarkers & center & _ & _ & ->). cbn. auto.
Qed.

Lemma runICP_spec (tr tr' : ObjectTracker) (stamp : time_point)
    (markers : PointCloud) :
  runICP tr stamp markers = Some tr' ->
  exists tr0 : ObjectTracker,
    ensureInitialized tr markers = Some tr0 /\
    m_dynamicsConfigurations tr' = m_dynamicsConfigurations tr /\
    m_markerConfigurations tr' = m_markerConfigurations tr /\
    m_initialized tr' = m_initialized tr0 /\
    Forall2 (trackedIn (m_dynamicsConfigurations tr) (m_markerConfigurations tr)
                       markers stamp)
            (m_objects tr0) (m_objects tr').
Proof.
  unfold runICP. intros Hr.
  apply bind_Some in Hr as (tr0 & He & Hr).
  apply bind_Some in Hr as (objs' & Hl & Hr). injection Hr as <-.
  exists tr0. split; [exact He|].
  destruct (ensureInitialized_keeps _ _ _ He) as (Hd & Hm & _).
  cbn. repeat split; try assumption.
  rewrite <- Hd, <- Hm.
  eapply trackLoop_spec; [|exact Hl]. split; reflexivity.
Qed.

End TrackingFacts.

(* ------------------------------------------------------------------ *)
(** ** Defined behaviour

    The engine has a defined result whenever its vector accesses are in
    range. *)

Section Defined.

Context {lib : PCL}.

Lemma bind_defined {A B : Type} (m : option A) (f : A -> option B) (a : A) :
  m = Some a -> is_Some (f a) -> is_Some (m ≫= f).
Proof. intros -> Hf. exact Hf. Qed.

Lemma sumNearest_defined (markers : PointCloud) (nearestIdx : list nat)
    (ixs : list nat) :
  forall center : PointXYZ,
    Forall (fun i => exists j : nat,
                nearestIdx !! i = Some j /\ (j < length markers)%nat) ixs ->
    is_Some (sumNearest markers nearestIdx ixs center).
Proof.
  induction ixs as [|i ixs IH]; intros center Hall; cbn [sumNearest].
  - eexists. reflexivity.
  - inversion Hall as [|? ? (j & Hj & Hlt) Hrest]; subst.
    destruct (lookup_lt_is_Some_2 markers j Hlt) as [p Hp].
    apply (bind_defined _ _ j Hj). apply (bind_defined _ _ p Hp).
    apply IH. exact Hrest.
Qed.

Lemma nearestCentroid_defined (markers : PointCloud) (nearestIdx : list nat)
    (n : nat) :
  neighboursInRange markers nearestIdx n ->
  is_Some (nearestCentroid markers nearestIdx n).
Proof.
  intros Hn. unfold nearestCentroid.
  destruct (sumNearest_defined markers nearestIdx (seq 0 n)
              (mkPoint (float_of_int 0) (float_of_int 0) (float_of_int 0)))
    as [c Hc].
  - apply Forall_forall. intros i Hi. apply Hn.
    apply list_elem_of_In, in_seq in Hi. lia.
  - apply (bind_defined _ _ c Hc). eexists. reflexivity.
Qed.

Lemma checkFit_defined (markers : PointCloud) (bestCloud : PointCloud) :
  forall ok : bool,
    (forall p : PointXYZ, is_Some (nearestSqrDist markers p)) ->
    is_Some (checkFit markers bestCloud ok).
Proof.
  induction bestCloud as [|p rest IH]; intros ok Hq; cbn [checkFit].
  - eexists. reflexivity.
  - destruct (Hq p) as [d Hd]. unfold nearestSqrDist in Hd.
    apply (bind_defined _ _ d Hd). apply IH. exact Hq.
Qed.

Lemma initializeObject_defined
    (markerConfigurations : list MarkerConfiguration) (markers : PointCloud)
    (icp : ICP) (ok : bool) (o : Object) :
  queriesAnswered markerConfigurations markers o ->
  is_Some (initializeObject markerConfigurations markers icp ok o).
Proof.
  intros (objMarkers & Hcfg & Hn & Hq). unfold initializeObject.
  destruct (nearestCentroid_defined _ _ _ Hn) as [center Hc].
  remember (yawSearch (setInputSource icp objMarkers) center yawIndices DBL_MAX
              (m_lastTransformation o)).2 as T eqn:HT.
  destruct (checkFit_defined markers
              (transformPointCloud objMarkers
                 (m_lastTransformation (set_lastTransformation o T))) ok Hq)
    as [ok' Hok'].
  exists (setInputSource icp objMarkers, ok', set_lastTransformation o T).
  apply bind_Some. exists objMarkers. split; [exact Hcfg|].
  apply bind_Some. exists center. split; [exact Hc|].
  apply bind_Some. exists ok'. rewrite <- HT. split; [exact Hok' | reflexivity].
Qed.

Lemma initializeLoop_defined
    (markerConfigurations : list MarkerConfiguration) (markers : PointCloud)
    (objs : list Object) :
  forall (icp : ICP) (ok : bool),
    Forall (queriesAnswered markerConfigurations markers) objs ->
    is_Some (initializeLoop markerConfigurations markers icp ok objs).
Proof.
  induction objs as [|o rest IH]; intros icp ok Hall; cbn [initializeLoop].
  - eexists. reflexivity.
  - inversion Hall as [|? ? Ho Hrest]; subst.
    destruct (initializeObject_defined markerConfigurations markers icp ok o Ho)
      as [[[icp1 ok1] o1] H1].
    destruct (IH icp1 ok1 Hrest) as [[ok2 rest'] H2].
    exists (ok2, o1 :: rest').
    apply bind_Some. exists (icp1, ok1, o1). split; [exact H1|].
    apply bind_Some. exists (ok2, rest'). split; [exact H2 | reflexivity].
Qed.

Lemma trackObject_defined (tr : ObjectTracker) (stamp : time_point)
    (icp : ICP) (o : Object) :
  indicesInRange tr o ->
  is_Some (trackObject (m_dynamicsConfigurations tr) (m_markerConfigurations tr)
                       stamp icp o).
Proof.
  intros [[dynConf Hdyn] [source Hsrc]]. unfold trackObject.
  cbn [set_lastTransformationValid m_dynamicsConfigurationIdx
       m_markerConfigurationIdx].
  apply (bind_defined _ _ dynConf Hdyn). apply (bind_defined _ _ source Hsrc).
  destruct (negb _); [eexists; reflexivity|].
  destruct (gate _ _ _ _); eexists; reflexivity.
Qed.

Lemma trackLoop_defined (tr : ObjectTracker) (stamp : time_point)
    (objs : list Object) :
  forall icp : ICP,
    Forall (indicesInRange tr) objs ->
    is_Some (trackLoop (m_dynamicsConfigurations tr) (m_markerConfigurations tr)
                       stamp icp objs).
Proof.
  induction objs as [|o rest IH]; intros icp Hall; cbn [trackLoop].
  - eexists. reflexivity.
  - inversion Hall as [|? ? Ho Hrest]; subst.
    destruct (trackObject_defined tr stamp icp o Ho) as [[icp1 o1] H1].
    destruct (IH icp1 Hrest) as [rest' H2].
    exists (o1 :: rest').
    apply bind_Some. exists (icp1, o1). split; [exact H1|].
    apply bind_Some. exists rest'. split; [exact H2 | reflexivity].
Qed.

(** [initialize] has a defined result as soon as the k-d tree answers
    the queries in range. *)
Lemma initialize_defined (tr : ObjectTracker) (markers : PointCloud) :
  Forall (queriesAnswered (m_markerConfigurations tr) markers) (m_objects tr) ->
  is_Some (initialize tr markers).
Proof.
  intros Hall. unfold initialize.
  destruct (initializeLoop_defined (m_markerConfigurations tr) markers
              (m_objects tr)
              (setInputTarget (setMaximumIterations ICP_new 5) markers) true Hall)
    as [[ok objs'] Hl].
  apply (bind_defined _ _ (ok, objs') Hl). eexists. reflexivity.
Qed.

(** [update] has a defined result as soon as the configuration indices
    of the objects are in range and, for a tracker that is not
    initialized, the k-d tree answers the queries in range. *)
Lemma update_defined (tr : ObjectTracker) (stamp : time_point)
    (markers : PointCloud) :
  Forall (indicesInRange tr) (m_objects tr) ->
  (m_initialized tr = false ->
   Forall (queriesAnswered (m_markerConfigurations tr) markers) (m_objects tr)) ->
  is_Some (update tr stamp markers).
Proof.
  intros Hidx Hq. unfold update, runICP.
  assert (He : is_Some (ensureInitialized tr markers)).
  { unfold ensureInitialized. destruct (m_initialized tr) eqn:Hinit.
    - eexists. reflexivity.
    - destruct (initialize_defined tr markers (Hq eq_refl)) as [[ok tr1] Hi].
      apply (bind_defined _ _ (ok, tr1) Hi). eexists. reflexivity. }
  destruct He as [tr0 He]. apply (bind_defined _ _ tr0 He).
  destruct (ensureInitialized_keeps _ _ _ He) as (Hd & Hm & Hall).
  assert (Hidx0 : Forall (indicesInRange tr0) (m_objects tr0)).
  { apply Forall_lookup. intros i o0 Ho0.
    destruct (Forall2_lookup_r _ _ _ _ _ Hall Ho0) as (o & Ho & Hmi & Hdi & _).
    rewrite Forall_lookup in Hidx. specialize (Hidx i o Ho).
    unfold indicesInRange in *. rewrite Hd, Hm, Hmi, Hdi. exact Hidx. }
  destruct (trackLoop_defined tr0 stamp (m_objects tr0)
              (setInputTarget (setMaximumIterations ICP_new 5) markers) Hidx0)
    as [objs' Hl].
  apply (bind_defined _ _ objs' Hl). eexists. reflexivity.
Qed.

End Defined.

(* ------------------------------------------------------------------ *)
(** ** The dynamics gate *)

Section GateFacts.
Context {lib : PCL}.

Lemma gate_withinBounds (dynConf : DynamicsConfiguration) (p l : Pose)
    (dt : double) :
  gate dynConf p l dt = true <-> withinBounds dynConf p l dt.
Proof.
  unfold gate, dynamicsCheck, withinBounds, below.
  rewrite !andb_true_iff. tauto.
Qed.

Lemma rate_dt_zero (a b : float) (dt : double) :
  is_zero dt = true -> is_nonfinite (rate a b dt) = true.
Proof.
  intros Hz. unfold rate. apply double_to_float_nonfinite.
  apply div_zero_nonfinite. exact Hz.
Qed.

(** With [dt] zero every rate is a NaN or an infinity: the gate is shut. *)
Lemma gate_dt_zero (dynConf : DynamicsConfiguration) (p l : Pose) (dt : double) :
  is_zero dt = true -> gate dynConf p l dt = false.
Proof.
  intros Hz. unfold gate, dynamicsCheck, below.
  rewrite (flt_abs_nonfinite (rate (pose_x p) (pose_x l) dt))
    by (apply rate_dt_zero; exact Hz).
  reflexivity.
Qed.

Lemma tracked_valid (markers : PointCloud) (dynConf : DynamicsConfiguration)
    (source : PointCloud) (stamp : time_point) (o : Object) :
  lastTransformationValid (tracked markers dynConf source stamp o) = true <->
  hasConverged (frameRegistration markers dynConf source stamp o) = true /\
  frameGate markers dynConf source stamp o = true.
Proof.
  unfold tracked. rewrite <- andb_true_iff.
  destruct (_ && _); cbn; split; congruence.
Qed.

Lemma tracked_accepted (markers : PointCloud) (dynConf : DynamicsConfiguration)
    (source : PointCloud) (stamp : time_point) (o : Object) :
  lastTransformationValid (tracked markers dynConf source stamp o) = true ->
  tracked markers dynConf source stamp o
    = mkObject (m_markerConfigurationIdx o) (m_dynamicsConfigurationIdx o)
        (getFinalTransformation (frameRegistration markers dynConf source stamp o))
        stamp true.
Proof. unfold tracked. destruct (_ && _); cbn; [reflexivity | discriminate]. Qed.

Lemma tracked_rejected (markers : PointCloud) (dynConf : DynamicsConfiguration)
    (source : PointCloud) (stamp : time_point) (o : Object) :
  lastTransformationValid (tracked markers dynConf source stamp o) = false ->
  tracked markers dynConf source stamp o
    = mkObject (m_markerConfigurationIdx o) (m_dynamicsConfigurationIdx o)
        (m_lastTransformation o) (m_lastValidTransform o) false.
Proof. unfold tracked. destruct (_ && _); cbn; [discriminate | reflexivity]. Qed.

(** One object through one call of [update]: [o] before the call, [o0]
    after the initialization step, [o'] after the call. *)
Lemma update_object (tr tr0 tr' : ObjectTracker) (stamp : time_point)
    (markers : PointCloud) (i : nat) (o0 o' : Object)
    (dynConf : DynamicsConfiguration) (source : PointCloud) :
  update tr stamp markers = Some tr' ->
  ensureInitialized tr markers = Some tr0 ->
  m_objects tr0 !! i = Some o0 ->
  m_objects tr' !! i = Some o' ->
  m_dynamicsConfigurations tr !! m_dynamicsConfigurationIdx o0 = Some dynConf ->
  m_markerConfigurations tr !! m_markerConfigurationIdx o0 = Some source ->
  o' = tracked markers dynConf source stamp o0.
Proof.
  intros Hu He Ho0 Ho' Hdyn Hsrc. unfold update in Hu.
  apply runICP_spec in Hu as (tr0' & He' & _ & _ & _ & Hall).
  rewrite He in He'. injection He' as <-.
  destruct (Forall2_lookup_lr _ _ _ _ _ _ Hall Ho0 Ho')
    as (dynConf' & source' & Hdyn' & Hsrc' & ->).
  congruence.
Qed.

Lemma update_object_before (tr tr0 : ObjectTracker) (markers : PointCloud)
    (i : nat) (o o0 : Object) :
  ensureInitialized tr markers = Some tr0 ->
  m_objects tr !! i = Some o ->
  m_objects tr0 !! i = Some o0 ->
  m_lastValidTransform o0 = m_lastValidTransform o /\
  (m_initialized tr = true -> o0 = o).
Proof.
  intros He Ho Ho0.
  destruct (ensureInitialized_keeps _ _ _ He) as (_ & _ & Hall).
  destruct (Forall2_lookup_lr _ _ _ _ _ _ Hall Ho Ho0) as (_ & _ & Hts & _).
  split; [exact Hts|]. intros Hinit.
  apply ensureInitialized_spec in He as [[_ ->] | [Hf _]]; congruence.
Qed.

End GateFacts.

(* ------------------------------------------------------------------ *)
(** ** Properties of the tracking loop *)

Section TrackingClaims.
Context {lib : PCL}.

Lemma gate_outOfBounds (dynConf : DynamicsConfiguration) (p l : Pose)
    (dt : double) :
  gate dynConf p l dt = false <-> outOfBounds dynConf p l dt.
Proof.
  unfold gate, dynamicsCheck, outOfBounds, below.
  rewrite !andb_false_iff. tauto.
Qed.

(** C1, amended.  In every frame, for an object whose registration
    converged, the new pose is accepted exactly when the eight strict
    comparisons hold, and it is rejected exactly when one of them fails,
    whichever it is.  The six rates compared are the ones the code
    stores: the difference of the component in the new and in the held
    pose, taken in [float], divided by [dt] in [double] and narrowed to
    [float]; the roll and the pitch are those of the new pose.  On
    acceptance the object's transformation is the new pose, its time
    stamp is the clock reading of the frame and its validity flag is
    set. *)
Theorem gate_acceptance (tr tr0 tr' : ObjectTracker) (stamp : time_point)
    (markers : PointCloud) (i : nat) (o0 o' : Object)
    (dynConf : DynamicsConfiguration) (source : PointCloud) :
  update tr stamp markers = Some tr' ->
  ensureInitialized tr markers = Some tr0 ->
  m_objects tr0 !! i = Some o0 ->
  m_objects tr' !! i = Some o' ->
  m_dynamicsConfigurations tr !! m_dynamicsConfigurationIdx o0 = Some dynConf ->
  m_markerConfigurations tr !! m_markerConfigurationIdx o0 = Some source ->
  hasConverged (frameRegistration markers dynConf source stamp o0) = true ->
  let p := getTranslationAndEulerAngles
             (newPose markers dynConf source stamp o0) in
  let l := getTranslationAndEulerAngles (m_lastTransformation o0) in
  let dt := F64.div (double_of_int (stamp - m_lastValidTransform o0))
                    (double_of_int ticks_per_second) in
  let v := fun a b : float =>
             double_to_float (F64.div (float_to_double (F32.sub a b)) dt) in
  let lt := fun (x : float) (bound : double) =>
              flt (float_to_double (fabs x)) bound in
  (lastTransformationValid o' = true <->
     lt (v (pose_x p) (pose_x l)) (maxXVelocity dynConf) = true /\
     lt (v (pose_y p) (pose_y l)) (maxYVelocity dynConf) = true /\
     lt (v (pose_z p) (pose_z l)) (maxZVelocity dynConf) = true /\
     lt (v (pose_roll p) (pose_roll l)) (maxRollRate dynConf) = true /\
     lt (v (pose_pitch p) (pose_pitch l)) (maxPitchRate dynConf) = true /\
     lt (v (pose_yaw p) (pose_yaw l)) (maxYawRate dynConf) = true /\
     lt (pose_roll p) (maxRoll dynConf) = true /\
     lt (pose_pitch p) (maxPitch dynConf) = true) /\
  (lastTransformationValid o' = false <->
     lt (v (pose_x p) (pose_x l)) (maxXVelocity dynConf) = false \/
     lt (v (pose_y p) (pose_y l)) (maxYVelocity dynConf) = false \/
     lt (v (pose_z p) (pose_z l)) (maxZVelocity dynConf) = false \/
     lt (v (pose_roll p) (pose_roll l)) (maxRollRate dynConf) = false \/
     lt (v (pose_pitch p) (pose_pitch l)) (maxPitchRate dynConf) = false \/
     lt (v (pose_yaw p) (pose_yaw l)) (maxYawRate dynConf) = false \/
     lt (pose_roll p) (maxRoll dynConf) = false \/
     lt (pose_pitch p) (maxPitch dynConf) = false) /\
  (lastTransformationValid o' = true ->
     transformation o' = newPose markers dynConf source stamp o0 /\
     m_lastValidTransform o' = stamp).
Proof.
  intros Hu He Ho0 Ho' Hdyn Hsrc Hconv. cbv beta zeta.
  rewrite (update_object _ _ _ _ _ _ _ _ _ _ Hu He Ho0 Ho' Hdyn Hsrc).
  assert (Hv : lastTransformationValid (tracked markers dynConf source stamp o0)
               = frameGate markers dynConf source stamp o0).
  { unfold tracked. rewrite Hconv. cbn [andb].
    destruct (frameGate _ _ _ _ _); reflexivity. }
  split; [|split].
  - rewrite Hv.
    unfold frameGate, newPose, gate, dynamicsCheck, below, rate, frameDt,
      elapsedSeconds.
    rewrite !andb_true_iff. tauto.
  - rewrite Hv.
    unfold frameGate, newPose, gate, dynamicsCheck, below, rate, frameDt,
      elapsedSeconds.
    rewrite !andb_false_iff. tauto.
  - intros Hacc. rewrite (tracked_accepted _ _ _ _ _ Hacc). split; reflexivity.
Qed.

(** C2, amended.  When a frame is rejected for an object (the
    registration did not converge, or the gate is shut), the object's
    validity flag is false after the call, its time stamp is the one it
    had before the call, and its transformation is the one it had when
    the tracking loop started: the one before the call if the tracker
    was initialized, the one the initialization search of this call left
    otherwise.  Every object is processed. *)
Theorem rejection_keeps_pose (tr tr0 tr' : ObjectTracker) (stamp : time_point)
    (markers : PointCloud) (i : nat) (o o0 o' : Object)
    (dynConf : DynamicsConfiguration) (source : PointCloud) :
  update tr stamp markers = Some tr' ->
  ensureInitialized tr markers = Some tr0 ->
  m_objects tr !! i = Some o ->
  m_objects tr0 !! i = Some o0 ->
  m_objects tr' !! i = Some o' ->
  m_dynamicsConfigurations tr !! m_dynamicsConfigurationIdx o0 = Some dynConf ->
  m_markerConfigurations tr !! m_markerConfigurationIdx o0 = Some source ->
  hasConverged (frameRegistration markers dynConf source stamp o0) = false \/
  frameGate markers dynConf source stamp o0 = false ->
  lastTransformationValid o' = false /\
  transformation o' = transformation o0 /\
  m_lastValidTransform o' = m_lastValidTransform o /\
  (m_initialized tr = true -> transformation o' = transformation o) /\
  length (m_objects tr') = length (m_objects tr).
Proof.
  intros Hu He Ho Ho0 Ho' Hdyn Hsrc Hrej.
  pose proof (update_object _ _ _ _ _ _ _ _ _ _ Hu He Ho0 Ho' Hdyn Hsrc) as Heq.
  destruct (update_object_before _ _ _ _ _ _ He Ho Ho0) as [Hts Hsame].
  assert (Hv : lastTransformationValid o' = false).
  { rewrite Heq. destruct (lastTransformationValid _) eqn:Hacc; [|reflexivity].
    apply tracked_valid in Hacc as [Hc Hg].
    destruct Hrej as [Hr | Hr]; congruence. }
  assert (Hlen : length (m_objects tr') = length (m_objects tr)).
  { unfold update in Hu. apply runICP_spec in Hu as (tr1 & He1 & _ & _ & _ & Hall).
    rewrite He in He1. injection He1 as <-.
    destruct (ensureInitialized_keeps _ _ _ He) as (_ & _ & Hall0).
    rewrite <- (Forall2_length _ _ _ Hall), <- (Forall2_length _ _ _ Hall0).
    reflexivity. }
  rewrite Heq in Hv. rewrite Heq, (tracked_rejected _ _ _ _ _ Hv). cbn.
  repeat split; try assumption.
  intros Hinit. rewrite (Hsame Hinit). reflexivity.
Qed.

(** C8, amended.  The time stamp of an object changes only in a call
    that sets its validity flag; after an accepted frame it is the clock
    reading of the call, which is never the previous time stamp, and it is
    strictly greater than the previous one provided the clock reading is
    not earlier than it (the clock has not been set back). *)
Theorem timestamp_advances (tr tr' : ObjectTracker) (stamp : time_point)
    (markers : PointCloud) (i : nat) (o o' : Object) :
  update tr stamp markers = Some tr' ->
  m_objects tr !! i = Some o ->
  m_objects tr' !! i = Some o' ->
  (m_lastValidTransform o' <> m_lastValidTransform o ->
     lastTransformationValid o' = true) /\
  (lastTransformationValid o' = true ->
     m_lastValidTransform o' = stamp /\
     m_lastValidTransform o' <> m_lastValidTransform o /\
     (m_lastValidTransform o <= stamp ->
        m_lastValidTransform o < m_lastValidTransform o')).
Proof.
  intros Hu Ho Ho'.
  pose proof Hu as Hr. unfold update in Hr.
  apply runICP_spec in Hr as (tr0 & He & _ & _ & _ & Hall).
  destruct (ensureInitialized_keeps _ _ _ He) as (_ & _ & Hall0).
  destruct (Forall2_lookup_r _ _ _ _ _ Hall Ho') as (o0 & Ho0 & Ht).
  destruct Ht as (dynConf & source & Hdyn & Hsrc & Heq).
  destruct (update_object_before _ _ _ _ _ _ He Ho Ho0) as [Hts _].
  assert (Hacc : lastTransformationValid o' = true ->
                 m_lastValidTransform o' = stamp /\
                 stamp <> m_lastValidTransform o).
  { intros Hv. rewrite Heq in Hv. split.
    - rewrite Heq, (tracked_accepted _ _ _ _ _ Hv). reflexivity.
    - intros Hsame. apply tracked_valid in Hv as [_ Hg].
      unfold frameGate in Hg. rewrite gate_dt_zero in Hg; [discriminate|].
      unfold frameDt. rewrite Hts. apply elapsedSeconds_zero. exact Hsame. }
  split.
  - intros Hne. destruct (lastTransformationValid o') eqn:Hv; [reflexivity|].
    exfalso. apply Hne. rewrite Heq in Hv.
    rewrite Heq, (tracked_rejected _ _ _ _ _ Hv). cbn. exact Hts.
  - intros Hv. destruct (Hacc Hv) as [Hs Hne]. rewrite Hs.
    split; [reflexivity|]. split; [exact Hne | lia].
Qed.

(** C9, amended.  The yaw of the new pose is compared with no bound: a
    frame whose six rates, the yaw rate included, and whose roll and pitch
    are within their bounds is accepted whatever the yaw of the new pose
    is, and two new poses that differ only in their yaw pass or fail the
    gate together as soon as their yaw rates are on the same side of the
    yaw-rate bound. *)
Theorem yaw_is_unbounded (tr tr0 tr' : ObjectTracker) (stamp : time_point)
    (markers : PointCloud) (i : nat) (o0 o' : Object)
    (dynConf : DynamicsConfiguration) (source : PointCloud) :
  update tr stamp markers = Some tr' ->
  ensureInitialized tr markers = Some tr0 ->
  m_objects tr0 !! i = Some o0 ->
  m_objects tr' !! i = Some o' ->
  m_dynamicsConfigurations tr !! m_dynamicsConfigurationIdx o0 = Some dynConf ->
  m_markerConfigurations tr !! m_markerConfigurationIdx o0 = Some source ->
  hasConverged (frameRegistration markers dynConf source stamp o0) = true ->
  let p := getTranslationAndEulerAngles (newPose markers dynConf source stamp o0) in
  let l := getTranslationAndEulerAngles (m_lastTransformation o0) in
  let dt := frameDt stamp o0 in
  (below (rate (pose_x p) (pose_x l) dt) (maxXVelocity dynConf) = true ->
   below (rate (pose_y p) (pose_y l) dt) (maxYVelocity dynConf) = true ->
   below (rate (pose_z p) (pose_z l) dt) (maxZVelocity dynConf) = true ->
   below (rate (pose_roll p) (pose_roll l) dt) (maxRollRate dynConf) = true ->
   below (rate (pose_pitch p) (pose_pitch l) dt) (maxPitchRate dynConf) = true ->
   below (rate (pose_yaw p) (pose_yaw l) dt) (maxYawRate dynConf) = true ->
   below (pose_roll p) (maxRoll dynConf) = true ->
   below (pose_pitch p) (maxPitch dynConf) = true ->
   lastTransformationValid o' = true /\
   transformation o' = newPose markers dynConf source stamp o0) /\
  (forall yaw : float,
     below (rate yaw (pose_yaw l) dt) (maxYawRate dynConf)
       = below (rate (pose_yaw p) (pose_yaw l) dt) (maxYawRate dynConf) ->
     gate dynConf (with_yaw p yaw) l dt = lastTransformationValid o').
Proof.
  intros Hu He Ho0 Ho' Hdyn Hsrc Hconv p l dt.
  rewrite (update_object _ _ _ _ _ _ _ _ _ _ Hu He Ho0 Ho' Hdyn Hsrc).
  assert (Hv : lastTransformationValid (tracked markers dynConf source stamp o0)
               = gate dynConf p l dt).
  { unfold tracked. rewrite Hconv. cbn [andb]. fold (gate dynConf p l dt).
    change (frameGate markers dynConf source stamp o0) with (gate dynConf p l dt).
    destruct (gate dynConf p l dt); reflexivity. }
  split.
  - intros H1 H2 H3 H4 H5 H6 H7 H8.
    assert (Hg : gate dynConf p l dt = true).
    { unfold gate, dynamicsCheck. rewrite H1, H2, H3, H4, H5, H6, H7, H8.
      reflexivity. }
    rewrite <- Hv in Hg. split; [exact Hg|].
    rewrite (tracked_accepted _ _ _ _ _ Hg). reflexivity.
  - intros yaw Hyaw. rewrite Hv. unfold gate, dynamicsCheck, with_yaw.
    cbn [pose_x pose_y pose_z pose_roll pose_pitch pose_yaw].
    rewrite Hyaw. reflexivity.
Qed.

End TrackingClaims.

(* ------------------------------------------------------------------ *)
(** ** The correspondence distance and [dt] *)

Section DistanceClaims.
Context {lib : PCL}.

(** C6, amended.  For every object of every frame, the maximum
    correspondence distance of the registration is the bound on the
    velocity along x, narrowed to single precision, times [dt]; the
    bounds along y and z play no part.  The registration that decides
    the frame runs under that setting. *)
Theorem correspondence_distance
    (dynamicsConfigurations : list DynamicsConfiguration)
    (markerConfigurations : list MarkerConfiguration)
    (stamp : time_point) (icp icp' : ICP) (o o' : Object) :
  trackObject dynamicsConfigurations markerConfigurations stamp icp o
    = Some (icp', o') ->
  exists (dynConf : DynamicsConfiguration) (source : PointCloud),
    dynamicsConfigurations !! m_dynamicsConfigurationIdx o = Some dynConf /\
    markerConfigurations !! m_markerConfigurationIdx o = Some source /\
    corr_dist_threshold_ icp'
      = F64.mul (float_to_double (double_to_float (maxXVelocity dynConf)))
                (elapsedSeconds stamp (m_lastValidTransform o)) /\
    icp' = setInputSource
             (setMaxCorrespondenceDistance icp (corr_dist_threshold_ icp'))
             source /\
    (lastTransformationValid o' = true ->
     hasConverged (align icp' (m_lastTransformation o)) = true /\
     transformation o' = getFinalTransformation (align icp' (m_lastTransformation o))).
Proof.
  unfold trackObject. intros Ht.
  apply bind_Some in Ht as (dynConf & Hdyn & Ht).
  apply bind_Some in Ht as (source & Hsrc & Ht).
  cbn [set_lastTransformationValid m_dynamicsConfigurationIdx
       m_markerConfigurationIdx m_lastTransformation m_lastValidTransform]
    in Hdyn, Hsrc, Ht.
  exists dynConf, source. split; [exact Hdyn|]. split; [exact Hsrc|].
  destruct (hasConverged _) eqn:Hconv; cbn [negb] in Ht.
  - destruct (gate _ _ _ _) eqn:Hgate; injection Ht as <- <-.
    + split; [reflexivity|]. split; [reflexivity|].
      intros _. split; [exact Hconv | reflexivity].
    + split; [reflexivity|]. split; [reflexivity|]. intros Hv. discriminate Hv.
  - injection Ht as <- <-. split; [reflexivity|]. split; [reflexivity|].
    intros Hv. discriminate Hv.
Qed.

(** C7, amended.  For every object of every frame, [dt] is the clock
    reading of the call minus the time stamp the object had before the
    call, in seconds; for an object that never had an accepted pose this
    stamp is the clock's epoch, so [dt] is the time since the epoch of
    the clock. *)
Theorem frame_dt (tr tr' : ObjectTracker) (stamp : time_point)
    (markers : PointCloud) (i : nat) (o o' : Object) :
  update tr stamp markers = Some tr' ->
  m_objects tr !! i = Some o ->
  m_objects tr' !! i = Some o' ->
  exists (tr0 : ObjectTracker) (o0 : Object)
         (dynConf : DynamicsConfiguration) (source : PointCloud),
    ensureInitialized tr markers = Some tr0 /\
    m_objects tr0 !! i = Some o0 /\
    m_dynamicsConfigurations tr !! m_dynamicsConfigurationIdx o0 = Some dynConf /\
    m_markerConfigurations tr !! m_markerConfigurationIdx o0 = Some source /\
    o' = tracked markers dynConf source stamp o0 /\
    frameDt stamp o0 = elapsedSeconds stamp (m_lastValidTransform o) /\
    (forall (markerIdx dynamicsIdx : nat) (t : Affine3f),
        o = Object_new markerIdx dynamicsIdx t ->
        frameDt stamp o0
          = F64.div (double_of_int stamp) (double_of_int ticks_per_second)).
Proof.
  intros Hu Ho Ho'. unfold update in Hu.
  apply runICP_spec in Hu as (tr0 & He & _ & _ & _ & Hall).
  destruct (Forall2_lookup_r _ _ _ _ _ Hall Ho') as (o0 & Ho0 & Ht).
  destruct Ht as (dynConf & source & Hdyn & Hsrc & Heq).
  destruct (update_object_before _ _ _ _ _ _ He Ho Ho0) as [Hts _].
  exists tr0, o0, dynConf, source.
  split; [exact He|]. split; [exact Ho0|]. split; [exact Hdyn|].
  split; [exact Hsrc|]. split; [exact Heq|].
  unfold frameDt. rewrite Hts. split; [reflexivity|].
  intros markerIdx dynamicsIdx t ->. cbn [Object_new m_lastValidTransform].
  unfold elapsedSeconds, epoch. rewrite Z.sub_0_r. reflexivity.
Qed.

End DistanceClaims.

(* ------------------------------------------------------------------ *)
(** ** Properties of the initialization *)

Section InitializeClaims.
Context {lib : PCL}.

Lemma lookup_map {A B : Type} (f : A -> B) (l : list A) (k : nat) (x : A) :
  l !! k = Some x -> map f l !! k = Some (f x).
Proof.
  revert k. induction l as [|a l IH]; intros [|k] Hk; try discriminate.
  - injection Hk as <-. reflexivity.
  - cbn. apply IH. exact Hk.
Qed.

(** The hypothesised angle is the argument that [pcl::getTransformation]
    takes as the roll; the pitch and the yaw it is given are zero. *)
Lemma tryMatrix_arguments (center : PointXYZ) (angle : float) :
  tryMatrix center angle
    = getTransformation (px center) (py center) (pz center)
                        angle (S754_zero false) (S754_zero false).
Proof. reflexivity. Qed.

Lemma yawIndices_lookup (k : nat) :
  (k < 20)%nat -> yawIndices !! k = Some (Z.of_nat k).
Proof.
  intros Hk. do 20 (destruct k as [|k]; [reflexivity|]). lia.
Qed.

(** The hypothesised angles start at 0, increase, and stay below
    [2 * M_PI]. *)
Lemma yawGuess_range :
  yawGuess 0 = S754_zero false /\
  (forall k : nat, (k < 19)%nat ->
      flt (yawGuess (Z.of_nat k)) (yawGuess (Z.of_nat (S k))) = true) /\
  (forall k : nat, (k < 20)%nat ->
      flt (float_to_double (yawGuess (Z.of_nat k)))
          (F64.mul (double_of_int 2) M_PI) = true).
Proof.
  split; [reflexivity|]. split.
  - intros k Hk. do 19 (destruct k as [|k]; [vm_compute; reflexivity|]). lia.
  - intros k Hk. do 20 (destruct k as [|k]; [vm_compute; reflexivity|]). lia.
Qed.

Lemma candidatePose_outcome (markers objMarkers : PointCloud)
    (center : PointXYZ) (o : Object) :
  searchOutcome (hypotheses (initICP markers objMarkers) center yawIndices)
                (m_lastTransformation o)
                (candidatePose markers objMarkers center o).
Proof.
  unfold candidatePose, searchOutcome.
  destruct (yawSearch_inv (initICP markers objMarkers) center yawIndices
              DBL_MAX (m_lastTransformation o))
    as [[Heq Hall] | (k & r & Hk & Heq & Hbelow & Hall & Hfirst)];
    rewrite Heq; cbn [snd].
  - left. split; [reflexivity | exact Hall].
  - right. exists k, r.
    split; [exact Hk|]. split; [reflexivity|]. split; [exact Hbelow|].
    split; [exact Hall | exact Hfirst].
Qed.

Lemma initialize_object (tr tr' : ObjectTracker) (markers : PointCloud)
    (ok : bool) (i : nat) (o o' : Object) :
  initialize tr markers = Some (ok, tr') ->
  m_objects tr !! i = Some o ->
  m_objects tr' !! i = Some o' ->
  initialized (m_markerConfigurations tr) markers o o'.
Proof.
  intros Hi Ho Ho'. apply initialize_spec in Hi as (_ & _ & _ & Hall & _).
  exact (Forall2_lookup_lr _ _ _ _ _ _ Hall Ho Ho').
Qed.

(** The summation loop adds up, component by component, the points of
    the cloud that the loop indices select through [nearestIdx]. *)
Lemma sumNearest_fold (markers : PointCloud) (nearestIdx : list nat)
    (ixs : list nat) :
  forall c0 c : PointXYZ,
    sumNearest markers nearestIdx ixs c0 = Some c ->
    exists pts : list PointXYZ,
      Forall2 (fun i p => exists j : nat,
                   nearestIdx !! i = Some j /\ markers !! j = Some p) ixs pts /\
      c = mkPoint (fold_left (fun s p => F32.add s (px p)) pts (px c0))
                  (fold_left (fun s p => F32.add s (py p)) pts (py c0))
                  (fold_left (fun s p => F32.add s (pz p)) pts (pz c0)).
Proof.
  induction ixs as [|i ixs IH]; intros c0 c Hs; cbn [sumNearest] in Hs.
  - injection Hs as <-. exists []. split; [constructor|].
    destruct c0; reflexivity.
  - apply bind_Some in Hs as (j & Hj & Hs).
    apply bind_Some in Hs as (p & Hp & Hs).
    apply IH in Hs as (pts & Hall & ->).
    exists (p :: pts). split; [|reflexivity].
    constructor; [exists j; split; assumption | exact Hall].
Qed.

(** C3, amended.  During initialization the engine computes, for every
    object, the centroid of the neighbourhood (the sum, in [float], of as
    many observed markers as the object has nominal markers, those the
    k-d tree returns for the translation of the object's transform,
    divided by their number) and runs exactly 20 registrations; the k-th,
    k = 0..19, is seeded with the transform that [pcl::getTransformation]
    builds from the centroid, the angle [k * (2 * M_PI / 20)] narrowed to
    [float] and two zero angles (the angles start at 0, increase and stay
    below 2 pi).  The object keeps the refined transform of the first
    hypothesis of lowest score when some score is below [DBL_MAX], and
    the transform it had otherwise. *)
Theorem yaw_search (tr tr' : ObjectTracker) (markers : PointCloud)
    (ok : bool) (i : nat) (o o' : Object) :
  initialize tr markers = Some (ok, tr') ->
  m_objects tr !! i = Some o ->
  m_objects tr' !! i = Some o' ->
  exists (objMarkers : PointCloud) (nearest : list PointXYZ)
         (center : PointXYZ),
    m_markerConfigurations tr !! m_markerConfigurationIdx o = Some objMarkers /\
    length nearest = length objMarkers /\
    (forall (k : nat) (p : PointXYZ),
        nearest !! k = Some p ->
        exists j : nat,
          (nearestKSearch markers (translation (transformation o))
                          (length objMarkers)).1 !! k = Some j /\
          markers !! j = Some p) /\
    center
      = mkPoint
          (F32.div (fold_left (fun s p => F32.add s (px p)) nearest (float_of_int 0))
                   (float_of_int (Z.of_nat (length objMarkers))))
          (F32.div (fold_left (fun s p => F32.add s (py p)) nearest (float_of_int 0))
                   (float_of_int (Z.of_nat (length objMarkers))))
          (F32.div (fold_left (fun s p => F32.add s (pz p)) nearest (float_of_int 0))
                   (float_of_int (Z.of_nat (length objMarkers)))) /\
    let icp := setInputSource
                 (setInputTarget (setMaximumIterations ICP_new 5) markers)
                 objMarkers in
    let angle := fun k : nat =>
                   double_to_float
                     (F64.mul (double_of_int (Z.of_nat k))
                        (F64.div (F64.mul (double_of_int 2) M_PI)
                                 (double_of_int 20))) in
    let hs := map (fun k : nat =>
                     align icp
                       (getTransformation (px center) (py center) (pz center)
                          (angle k) (float_of_int 0) (float_of_int 0)))
                  (seq 0 20) in
    angle 0%nat = S754_zero false /\
    (forall k : nat, (k < 19)%nat -> flt (angle k) (angle (S k)) = true) /\
    (forall k : nat, (k < 20)%nat ->
        flt (float_to_double (angle k)) (F64.mul (double_of_int 2) M_PI) = true) /\
    searchOutcome hs (transformation o) (transformation o').
Proof.
  intros Hi Ho Ho'.
  destruct (initialize_object _ _ _ _ _ _ _ Hi Ho Ho')
    as (objMarkers & center & Hcfg & Hctr & Heq).
  pose proof (candidatePose_outcome markers objMarkers center o) as Hout.
  unfold hypotheses, yawIndices in Hout. rewrite map_map in Hout.
  change (m_lastTransformation o) with (transformation o) in Hout.
  assert (Hpose : candidatePose markers objMarkers center o = transformation o')
    by (rewrite Heq; reflexivity).
  rewrite Hpose in Hout. clear Heq Hpose.
  unfold objectCentroid, nearestCentroid in Hctr.
  apply bind_Some in Hctr as (s & Hs & Hc).
  apply sumNearest_fold in Hs as (nearest & Hall & ->).
  cbn [px py pz] in Hc. injection Hc as Hc.
  exists objMarkers, nearest, center.
  split; [exact Hcfg|]. split.
  { rewrite <- (Forall2_length _ _ _ Hall). apply length_seq. }
  split.
  { intros k p Hk.
    destruct (Forall2_lookup_r _ _ _ _ _ Hall Hk) as (n & Hn & j & Hj & Hp).
    apply lookup_seq in Hn as [-> _]. exists j. split; [exact Hj | exact Hp]. }
  split; [symmetry; exact Hc|]. cbv beta zeta.
  destruct yawGuess_range as (H0 & Hinc & Hlt).
  split; [exact H0|]. split; [exact Hinc|]. split; [exact Hlt | exact Hout].
Qed.

(** C4, amended.  [initialize] leaves in every object the outcome of
    its search (the refined transform of the first hypothesis of lowest
    score when some score is below [DBL_MAX], the transform the object
    had otherwise), and reports success exactly when, for every object,
    every nominal marker transformed by that pose lies at a squared
    distance from its nearest observed marker that does not exceed
    [0.008 * 0.008]; a single object that fails makes the whole batch
    fail, whatever the other objects do. *)
Theorem initialize_all_or_nothing (tr tr' : ObjectTracker)
    (markers : PointCloud) (ok : bool) :
  initialize tr markers = Some (ok, tr') ->
  Forall2 (fun o o' =>
             exists (objMarkers : PointCloud) (center : PointXYZ),
               m_markerConfigurations tr !! m_markerConfigurationIdx o
                 = Some objMarkers /\
               objectCentroid markers objMarkers o = Some center /\
               o' = set_lastTransformation o (transformation o') /\
               searchOutcome
                 (hypotheses (initICP markers objMarkers) center yawIndices)
                 (transformation o) (transformation o'))
          (m_objects tr) (m_objects tr') /\
  (ok = true <->
   forall (i : nat) (o' : Object),
     m_objects tr' !! i = Some o' ->
     exists objMarkers : PointCloud,
       m_markerConfigurations tr !! m_markerConfigurationIdx o' = Some objMarkers /\
       forall (k : nat) (p : PointXYZ),
         objMarkers !! k = Some p ->
         exists d : float,
           (nearestKSearch markers (transformPoint (transformation o') p) 1).2
             !! 0%nat = Some d /\
           flt (F64.mul lit_0_008 lit_0_008) (float_to_double d) = false) /\
  (forall (i : nat) (o' : Object),
      m_objects tr' !! i = Some o' ->
      ~ objectFits (m_markerConfigurations tr) markers o' ->
      ok = false).
Proof.
  intros Hi. pose proof Hi as Hspec.
  apply initialize_spec in Hspec as (_ & _ & _ & Hall & Hok).
  split; [|split].
  - eapply Forall2_impl; [exact Hall|].
    intros o o' (objMarkers & center & Hcfg & Hctr & Heq).
    exists objMarkers, center. split; [exact Hcfg|]. split; [exact Hctr|].
    split; [rewrite Heq; reflexivity|].
    rewrite Heq. unfold transformation.
    cbn [set_lastTransformation m_lastTransformation].
    apply candidatePose_outcome.
  - rewrite Hok, Forall_lookup. split.
    + intros Hfit i o' Ho'.
      destruct (Hfit i o' Ho') as (objMarkers & Hcfg & Hpts).
      exists objMarkers. split; [exact Hcfg|]. intros k p Hk.
      rewrite Forall_lookup in Hpts. exact (Hpts k p Hk).
    + intros Hfit i o' Ho'.
      destruct (Hfit i o' Ho') as (objMarkers & Hcfg & Hpts).
      exists objMarkers. split; [exact Hcfg|].
      apply Forall_lookup. exact Hpts.
  - intros i o' Ho' Hnot. destruct ok; [|reflexivity].
    exfalso. apply Hnot. destruct Hok as [Hfit _].
    specialize (Hfit eq_refl). rewrite Forall_lookup in Hfit.
    exact (Hfit i o' Ho').
Qed.

(** C5, amended.  Whatever [initialize] returns, and so also when the
    validation fails, every object is left with the pose of its search:
    the refined transform of the first hypothesis of lowest score when
    some hypothesis scored below [DBL_MAX] (the pose is then
    overwritten, and nothing restores it), the transform it had before
    the call otherwise.  The other members of the object are untouched. *)
Theorem failed_batch_keeps_candidates (tr tr' : ObjectTracker)
    (markers : PointCloud) (ok : bool) (i : nat) (o o' : Object) :
  initialize tr markers = Some (ok, tr') ->
  m_objects tr !! i = Some o ->
  m_objects tr' !! i = Some o' ->
  exists (objMarkers : PointCloud) (center : PointXYZ),
    m_markerConfigurations tr !! m_markerConfigurationIdx o = Some objMarkers /\
    objectCentroid markers objMarkers o = Some center /\
    o' = set_lastTransformation o (candidatePose markers objMarkers center o) /\
    searchOutcome (hypotheses (initICP markers objMarkers) center yawIndices)
                  (transformation o) (transformation o') /\
    (Exists (fun r => flt (getFitnessScore r) DBL_MAX = true)
            (hypotheses (initICP markers objMarkers) center yawIndices) ->
     exists r : Registration,
       r ∈ hypotheses (initICP markers objMarkers) center yawIndices /\
       transformation o' = getFinalTransformation r /\
       Forall (fun r' => flt (getFitnessScore r') (getFitnessScore r) = false)
              (hypotheses (initICP markers objMarkers) center yawIndices)).
Proof.
  intros Hi Ho Ho'.
  destruct (initialize_object _ _ _ _ _ _ _ Hi Ho Ho')
    as (objMarkers & center & Hcfg & Hctr & Heq).
  exists objMarkers, center.
  split; [exact Hcfg|]. split; [exact Hctr|]. split; [exact Heq|].
  assert (Hout : searchOutcome
                   (hypotheses (initICP markers objMarkers) center yawIndices)
                   (transformation o) (transformation o')).
  { rewrite Heq. unfold transformation.
    cbn [set_lastTransformation m_lastTransformation].
    apply candidatePose_outcome. }
  split; [exact Hout|].
  intros Hex. destruct Hout as [[_ Hnone] | (k & r & Hk & Hp & _ & Hall & _)].
  - exfalso. apply Exists_exists in Hex as (r & Hr & Hlt).
    rewrite Forall_forall in Hnone. rewrite (Hnone r Hr) in Hlt. discriminate.
  - exists r. split; [|split; [exact Hp | exact Hall]].
    apply list_elem_of_lookup. exists k. exact Hk.
Qed.

End InitializeClaims.

(* ------------------------------------------------------------------ *)
(** ** The divisions *)

Section DivisionClaims.
Context {lib : PCL}.

(** C10, amended.  The two kinds of division of the engine and their
    divisors.  The centroid is divided by the marker count of the object,
    a zero exactly when the marker configuration is empty; nothing checks
    it: for an empty configuration the loop body runs to its end with a
    NaN centroid.  The rates are divided by [dt], a zero exactly when the
    clock reading equals the object's time stamp (so that, for a clock
    reading not earlier than the stamp, [dt] is non-zero exactly when the
    reading strictly exceeds it); nothing checks it: with equal stamps
    every rate is a NaN or an infinity and the frame is rejected as any
    other.  The only other division, by [N_YAW], has a non-zero constant
    divisor. *)
Theorem division_preconditions :
  is_zero (double_of_int N_YAW) = false /\
  (forall objMarkers : MarkerConfiguration,
      is_zero (centroidDivisor (length objMarkers)) = true <-> objMarkers = []) /\
  (forall (markers : PointCloud) (nearestIdx : list nat),
      nearestCentroid markers nearestIdx 0 = Some nanPoint) /\
  (forall (markerConfigurations : list MarkerConfiguration)
          (markers : PointCloud) (icp : ICP) (ok : bool) (o : Object),
      markerConfigurations !! m_markerConfigurationIdx o = Some [] ->
      initializeObject markerConfigurations markers icp ok o
        = Some (setInputSource icp [], ok,
                set_lastTransformation o
                  (yawSearch (setInputSource icp []) nanPoint yawIndices DBL_MAX
                             (m_lastTransformation o)).2)) /\
  (forall (stamp : time_point) (o : Object),
      is_zero (frameDt stamp o) = true <-> stamp = m_lastValidTransform o) /\
  (forall (stamp : time_point) (o : Object),
      m_lastValidTransform o <= stamp ->
      (is_zero (frameDt stamp o) = false <-> m_lastValidTransform o < stamp)) /\
  (forall (a b : float) (o : Object),
      is_nonfinite (rate a b (frameDt (m_lastValidTransform o) o)) = true) /\
  (forall (markers : PointCloud) (dynConf : DynamicsConfiguration)
          (source : PointCloud) (o : Object),
      tracked markers dynConf source (m_lastValidTransform o) o
        = set_lastTransformationValid o false).
Proof.
  assert (Hdt : forall (stamp : time_point) (o : Object),
             is_zero (frameDt stamp o) = true <-> stamp = m_lastValidTransform o).
  { intros stamp o. unfold frameDt. apply elapsedSeconds_zero. }
  split; [reflexivity|].
  split; [|split; [|split; [|split; [|split; [|split]]]]].
  - intros objMarkers. unfold centroidDivisor. rewrite float_of_int_zero.
    destruct objMarkers; cbn [length]; split; intros Hx;
      try reflexivity; try discriminate; lia.
  - intros markers nearestIdx. reflexivity.
  - intros markerConfigurations markers icp ok o Hcfg.
    unfold initializeObject. apply bind_Some. exists [].
    split; [exact Hcfg | reflexivity].
  - exact Hdt.
  - intros stamp o Hle. split.
    + intros Hnz. destruct (Z.eq_dec stamp (m_lastValidTransform o)) as [Heq|Hne];
        [|lia]. apply Hdt in Heq. congruence.
    + intros Hlt. destruct (is_zero (frameDt stamp o)) eqn:Hz; [|reflexivity].
      apply Hdt in Hz. lia.
  - intros a b o. apply rate_dt_zero. apply Hdt. reflexivity.
  - intros markers dynConf source o. unfold tracked, frameGate.
    rewrite gate_dt_zero by (apply Hdt; reflexivity).
    rewrite andb_false_r. reflexivity.
Qed.

End DivisionClaims.

(* ------------------------------------------------------------------ *)
(** ** What a call keeps *)

Section Structure.
Context {lib : PCL}.

Lemma tracked_indices (markers : PointCloud) (dynConf : DynamicsConfiguration)
    (source : PointCloud) (stamp : time_point) (o : Object) :
  sameIndices o (tracked markers dynConf source stamp o).
Proof. unfold tracked. destruct (_ && _); split; reflexivity. Qed.

(** X1.  A call of [update] leaves the two configuration tables as they
    are, and [objects()] returns afterwards as many objects as before,
    each at its place with its two configuration indices: no object is
    added, dropped or re-bound. *)
Theorem update_preserves_structure (tr tr' : ObjectTracker)
    (stamp : time_point) (markers : PointCloud) :
  update tr stamp markers = Some tr' ->
  m_dynamicsConfigurations tr' = m_dynamicsConfigurations tr /\
  m_markerConfigurations tr' = m_markerConfigurations tr /\
  length (objects tr') = length (objects tr) /\
  Forall2 sameIndices (objects tr) (objects tr').
Proof.
  intros Hu. unfold objects, update in Hu |- *.
  apply runICP_spec in Hu as (tr0 & He & Hd & Hm & _ & Hall).
  destruct (ensureInitialized_keeps _ _ _ He) as (_ & _ & Hall0).
  split; [exact Hd|]. split; [exact Hm|].
  assert (Hlen : length (m_objects tr') = length (m_objects tr)).
  { rewrite <- (Forall2_length _ _ _ Hall), <- (Forall2_length _ _ _ Hall0).
    reflexivity. }
  split; [exact Hlen|].
  apply Forall2_same_length_lookup. split; [symmetry; exact Hlen|].
  intros i o o' Ho Ho'.
  destruct (Forall2_lookup_r _ _ _ _ _ Hall Ho') as (o0 & Ho0 & Ht).
  destruct Ht as (dynConf & source & _ & _ & ->).
  destruct (Forall2_lookup_lr _ _ _ _ _ _ Hall0 Ho Ho0) as (Hmi & Hdi & _).
  destruct (tracked_indices markers dynConf source stamp o0) as [H1 H2].
  split; congruence.
Qed.

(** X2.  The initialized flag after a call of [update]: a set flag stays
    set and [initialize] is not run again; a cleared flag becomes the
    verdict of the [initialize] that the call runs. *)
Theorem initialized_flag (tr tr' : ObjectTracker) (stamp : time_point)
    (markers : PointCloud) :
  update tr stamp markers = Some tr' ->
  (m_initialized tr = true ->
     m_initialized tr' = true /\ ensureInitialized tr markers = Some tr) /\
  (m_initialized tr = false ->
     exists (ok : bool) (tr1 : ObjectTracker),
       initialize tr markers = Some (ok, tr1) /\ m_initialized tr' = ok).
Proof.
  intros Hu. unfold update in Hu.
  apply runICP_spec in Hu as (tr0 & He & _ & _ & Hinit & _).
  pose proof He as He'.
  apply ensureInitialized_spec in He' as [[Ht ->] | (Hf & ok & tr1 & Hi & ->)].
  - split; [intros _; split; [congruence | exact He] | congruence].
  - split; [congruence|]. intros _. exists ok, tr1. split; [exact Hi | exact Hinit].
Qed.

(** X4.  [initialize] changes nothing but the transformations of the
    objects: the configuration tables, the initialized flag, the number of
    objects and, in every object, the two indices, the time stamp and the
    validity flag are as before. *)
Theorem initialize_changes_poses_only (tr tr' : ObjectTracker)
    (markers : PointCloud) (ok : bool) :
  initialize tr markers = Some (ok, tr') ->
  m_dynamicsConfigurations tr' = m_dynamicsConfigurations tr /\
  m_markerConfigurations tr' = m_markerConfigurations tr /\
  m_initialized tr' = m_initialized tr /\
  Forall2 (fun o o' => o' = set_lastTransformation o (transformation o'))
          (m_objects tr) (m_objects tr').
Proof.
  intros Hi. apply initialize_spec in Hi as (Hd & Hm & Hinit & Hall & _).
  split; [exact Hd|]. split; [exact Hm|]. split; [exact Hinit|].
  eapply Forall2_impl; [exact Hall|].
  intros o o' (objMarkers & center & _ & _ & ->). reflexivity.
Qed.

(** X5.  Whatever the tracker was before the call, an object that
    [update] leaves flagged valid carries the clock reading of the call as
    its time stamp, and the roll and the pitch of its transformation are,
    in absolute value, strictly below the bounds of its dynamics
    configuration. *)
Theorem valid_pose_within_attitude_bounds (tr tr' : ObjectTracker)
    (stamp : time_point) (markers : PointCloud) (i : nat) (o' : Object) :
  update tr stamp markers = Some tr' ->
  m_objects tr' !! i = Some o' ->
  lastTransformationValid o' = true ->
  exists dynConf : DynamicsConfiguration,
    m_dynamicsConfigurations tr' !! m_dynamicsConfigurationIdx o' = Some dynConf /\
    below (pose_roll (getTranslationAndEulerAngles (transformation o')))
          (maxRoll dynConf) = true /\
    below (pose_pitch (getTranslationAndEulerAngles (transformation o')))
          (maxPitch dynConf) = true /\
    m_lastValidTransform o' = stamp.
Proof.
  intros Hu Ho' Hv. unfold update in Hu.
  apply runICP_spec in Hu as (tr0 & He & Hd & _ & _ & Hall).
  destruct (Forall2_lookup_r _ _ _ _ _ Hall Ho') as (o0 & Ho0 & Ht).
  destruct Ht as (dynConf & source & Hdyn & _ & Heq).
  rewrite Heq in Hv. pose proof (tracked_accepted _ _ _ _ _ Hv) as Hacc.
  apply tracked_valid in Hv as [_ Hg].
  unfold frameGate in Hg. apply gate_withinBounds in Hg.
  destruct Hg as (_ & _ & _ & _ & _ & _ & Hroll & Hpitch).
  exists dynConf. rewrite Heq, Hacc, Hd. unfold transformation.
  cbn [m_dynamicsConfigurationIdx m_lastTransformation m_lastValidTransform].
  split; [exact Hdyn|]. split; [exact Hroll|]. split; [exact Hpitch | reflexivity].
Qed.

(** X15.  For an initialized tracker, [update] has a defined result
    exactly when the two configuration indices of every object are within
    the tables; the point cloud plays no part in this. *)
Theorem update_defined_iff (tr : ObjectTracker) (stamp : time_point)
    (markers : PointCloud) :
  m_initialized tr = true ->
  (is_Some (update tr stamp markers) <->
   Forall (indicesInRange tr) (m_objects tr)).
Proof.
  intros Hinit. split.
  - intros [tr' Hu]. unfold update in Hu.
    apply runICP_spec in Hu as (tr0 & He & _ & _ & _ & Hall).
    apply ensureInitialized_spec in He as [[_ ->] | [Hf _]]; [|congruence].
    apply Forall_lookup. intros i o Ho.
    destruct (Forall2_lookup_l _ _ _ _ _ Hall Ho) as (o' & _ & Ht).
    destruct Ht as (dynConf & source & Hdyn & Hsrc & _).
    split; eexists; eassumption.
  - intros Hidx. apply update_defined; [exact Hidx | congruence].
Qed.

(** X16.  Two calls of [update] at the same clock reading: an object that
    the first call accepted is rejected by the second, whatever the second
    point cloud is, and keeps the pose and the time stamp of the first. *)
Theorem same_reading_twice (tr tr1 tr2 : ObjectTracker) (stamp : time_point)
    (markers markers' : PointCloud) (i : nat) (o1 o2 : Object) :
  update tr stamp markers = Some tr1 ->
  update tr1 stamp markers' = Some tr2 ->
  m_initialized tr1 = true ->
  m_objects tr1 !! i = Some o1 ->
  m_objects tr2 !! i = Some o2 ->
  lastTransformationValid o1 = true ->
  o2 = set_lastTransformationValid o1 false.
Proof.
  intros Hu1 Hu2 Hinit Ho1 Ho2 Hv1.
  assert (Hs : m_lastValidTransform o1 = stamp).
  { unfold update in Hu1.
    apply runICP_spec in Hu1 as (tr0 & _ & _ & _ & _ & Hall).
    destruct (Forall2_lookup_r _ _ _ _ _ Hall Ho1) as (o0 & _ & Ht).
    destruct Ht as (dynConf & source & _ & _ & Heq).
    rewrite Heq in Hv1. rewrite Heq, (tracked_accepted _ _ _ _ _ Hv1).
    reflexivity. }
  unfold update in Hu2.
  apply runICP_spec in Hu2 as (tr0 & He & _ & _ & _ & Hall).
  apply ensureInitialized_spec in He as [[_ ->] | [Hf _]]; [|congruence].
  destruct (Forall2_lookup_lr _ _ _ _ _ _ Hall Ho1 Ho2)
    as (dynConf & source & _ & _ & ->).
  unfold tracked, frameGate.
  rewrite gate_dt_zero.
  - rewrite andb_false_r. reflexivity.
  - unfold frameDt. apply elapsedSeconds_zero. symmetry. exact Hs.
Qed.

End Structure.

(* ------------------------------------------------------------------ *)
(** ** Edges of the dynamics gate *)

Section GateEdges.
Context {lib : PCL}.

Lemma sub_nonfinite_l (a b : float) :
  is_nonfinite a = true -> is_nonfinite (F32.sub a b) = true.
Proof.
  destruct a as [sa|[]| |sa ma ea]; try discriminate; intros _;
    destruct b as [sb|[]| |sb mb eb]; reflexivity.
Qed.

Lemma sub_nonfinite_r (a b : float) :
  is_nonfinite b = true -> is_nonfinite (F32.sub a b) = true.
Proof.
  destruct b as [sb|[]| |sb mb eb]; try discriminate; intros _;
    destruct a as [sa|[]| |sa ma ea]; reflexivity.
Qed.

Lemma div_nonfinite_l (a d : double) :
  is_nonfinite a = true -> is_nonfinite (F64.div a d) = true.
Proof.
  destruct a as [sa|sa| |sa ma ea]; try discriminate; intros _;
    destruct d as [sd|sd| |sd md ed]; reflexivity.
Qed.

Lemma rate_nonfinite (a b : float) (dt : double) :
  is_nonfinite a = true \/ is_nonfinite b = true ->
  is_nonfinite (rate a b dt) = true.
Proof.
  intros Hab. unfold rate. apply double_to_float_nonfinite, div_nonfinite_l.
  assert (Hs : is_nonfinite (F32.sub a b) = true).
  { destruct Hab; [apply sub_nonfinite_l | apply sub_nonfinite_r]; assumption. }
  rewrite (float_to_double_nonfinite _ Hs). exact Hs.
Qed.

Lemma below_rate_nonfinite (a b : float) (dt bound : double) :
  is_nonfinite a = true \/ is_nonfinite b = true ->
  below (rate a b dt) bound = false.
Proof.
  intros Hab. unfold below. apply flt_abs_nonfinite, rate_nonfinite. exact Hab.
Qed.

Lemma finitePose_false (p : Pose) :
  finitePose p = false ->
  is_nonfinite (pose_x p) = true \/ is_nonfinite (pose_y p) = true \/
  is_nonfinite (pose_z p) = true \/ is_nonfinite (pose_roll p) = true \/
  is_nonfinite (pose_pitch p) = true \/ is_nonfinite (pose_yaw p) = true.
Proof.
  unfold finitePose. rewrite !andb_false_iff, !negb_false_iff. tauto.
Qed.

(** The gate is shut as soon as a component of the new pose or of the
    previous pose is a NaN or an infinity. *)
Lemma gate_nonfinite (dynConf : DynamicsConfiguration) (p l : Pose)
    (dt : double) :
  finitePose p = false \/ finitePose l = false ->
  gate dynConf p l dt = false.
Proof.
  intros Hpl. unfold gate, dynamicsCheck.
  assert (Hc : (is_nonfinite (pose_x p) = true \/ is_nonfinite (pose_x l) = true) \/
               (is_nonfinite (pose_y p) = true \/ is_nonfinite (pose_y l) = true) \/
               (is_nonfinite (pose_z p) = true \/ is_nonfinite (pose_z l) = true) \/
               (is_nonfinite (pose_roll p) = true \/ is_nonfinite (pose_roll l) = true) \/
               (is_nonfinite (pose_pitch p) = true \/ is_nonfinite (pose_pitch l) = true) \/
               (is_nonfinite (pose_yaw p) = true \/ is_nonfinite (pose_yaw l) = true)).
  { destruct Hpl as [Hp | Hl];
      [apply finitePose_false in Hp | apply finitePose_false in Hl]; tauto. }
  destruct Hc as [Hc|[Hc|[Hc|[Hc|[Hc|Hc]]]]];
    rewrite (below_rate_nonfinite _ _ dt _ Hc);
    rewrite ?andb_false_r; reflexivity.
Qed.

(** X6.  A frame is rejected as soon as the Euler decomposition of the
    new pose or of the pose the object holds has a component that is a NaN
    or an infinity, and the object is left as it was, its validity flag
    cleared. *)
Theorem nonfinite_pose_is_rejected (tr tr0 tr' : ObjectTracker)
    (stamp : time_point) (markers : PointCloud) (i : nat) (o0 o' : Object)
    (dynConf : DynamicsConfiguration) (source : PointCloud) :
  update tr stamp markers = Some tr' ->
  ensureInitialized tr markers = Some tr0 ->
  m_objects tr0 !! i = Some o0 ->
  m_objects tr' !! i = Some o' ->
  m_dynamicsConfigurations tr !! m_dynamicsConfigurationIdx o0 = Some dynConf ->
  m_markerConfigurations tr !! m_markerConfigurationIdx o0 = Some source ->
  finitePose (getTranslationAndEulerAngles
                (newPose markers dynConf source stamp o0)) = false \/
  finitePose (getTranslationAndEulerAngles (m_lastTransformation o0)) = false ->
  o' = set_lastTransformationValid o0 false.
Proof.
  intros Hu He Ho0 Ho' Hdyn Hsrc Hnf.
  rewrite (update_object _ _ _ _ _ _ _ _ _ _ Hu He Ho0 Ho' Hdyn Hsrc).
  unfold tracked, frameGate. fold (newPose markers dynConf source stamp o0).
  rewrite (gate_nonfinite _ _ _ _ Hnf), andb_false_r. reflexivity.
Qed.

Lemma below_positive (v : float) (bound : double) :
  below v bound = true -> positiveBound bound = true.
Proof.
  unfold below. rewrite fabs_promote.
  destruct (float_to_double v) as [s|s| |s m e];
    destruct bound as [[]|[]| |[] mb eb]; cbn; intros Hb;
    try discriminate Hb; reflexivity.
Qed.

Lemma gate_positiveBounds (dynConf : DynamicsConfiguration) (p l : Pose)
    (dt : double) :
  gate dynConf p l dt = true -> positiveBounds dynConf = true.
Proof.
  unfold gate, dynamicsCheck, positiveBounds. rewrite !andb_true_iff.
  intros (((((((H1 & H2) & H3) & H4) & H5) & H6) & H7) & H8).
  repeat split; eapply below_positive; eassumption.
Qed.

(** X7.  An object whose dynamics configuration has a bound that is a
    zero, a negative number or a NaN is never accepted: no absolute value
    is strictly below such a bound. *)
Theorem nonpositive_bound_rejects (tr tr' : ObjectTracker)
    (stamp : time_point) (markers : PointCloud) (i : nat) (o' : Object)
    (dynConf : DynamicsConfiguration) :
  update tr stamp markers = Some tr' ->
  m_objects tr' !! i = Some o' ->
  m_dynamicsConfigurations tr !! m_dynamicsConfigurationIdx o' = Some dynConf ->
  positiveBounds dynConf = false ->
  lastTransformationValid o' = false.
Proof.
  intros Hu Ho' Hdyn Hneg. unfold update in Hu.
  apply runICP_spec in Hu as (tr0 & He & _ & _ & _ & Hall).
  destruct (Forall2_lookup_r _ _ _ _ _ Hall Ho') as (o0 & Ho0 & Ht).
  destruct Ht as (dynConf' & source & Hdyn' & _ & Heq).
  assert (Hidx : m_dynamicsConfigurationIdx o' = m_dynamicsConfigurationIdx o0).
  { rewrite Heq. unfold tracked. destruct (_ && _); reflexivity. }
  rewrite Hidx, Hdyn' in Hdyn. injection Hdyn as ->.
  destruct (lastTransformationValid o') eqn:Hv; [|reflexivity].
  rewrite Heq in Hv. apply tracked_valid in Hv as [_ Hg].
  unfold frameGate in Hg. apply gate_positiveBounds in Hg. congruence.
Qed.

End GateEdges.

Lemma SFcompare_lt_le_trans (x y z : spec_float) :
  SFcompare x y = Some Lt ->
  (SFcompare y z = Some Lt \/ SFcompare y z = Some Eq) ->
  SFcompare x z = Some Lt.
Proof.
  intros Hxy [H|H]; [exact (SFcompare_lt_trans x y z Hxy H)|]. revert Hxy H.
  destruct x as [[]|[]| |[] mx ex], y as [[]|[]| |[] my ey],
           z as [[]|[]| |[] mz ez];
    cbn [SFcompare]; try discriminate; try reflexivity;
    cmp_cases; intros; try discriminate; try reflexivity; try lia.
Qed.

Lemma flt_fle_trans (x y z : spec_float) :
  flt x y = true -> SFleb y z = true -> flt x z = true.
Proof.
  rewrite !flt_Lt. intros Hxy Hle. apply (SFcompare_lt_le_trans x y z Hxy).
  unfold SFleb in Hle. destruct (SFcompare y z) as [[]|]; auto; discriminate.
Qed.

(** X8.  Loosening the bounds never shuts the gate: a new pose that
    passes the eight comparisons under a dynamics configuration passes
    them under every configuration whose bounds are at least as large. *)
Theorem gate_monotone (d d' : DynamicsConfiguration) (p l : Pose) (dt : double) :
  looser d d' -> gate d p l dt = true -> gate d' p l dt = true.
Proof.
  intros (L1 & L2 & L3 & L4 & L5 & L6 & L7 & L8).
  unfold gate, dynamicsCheck, below. rewrite !andb_true_iff.
  intros (((((((H1 & H2) & H3) & H4) & H5) & H6) & H7) & H8).
  repeat split; eapply flt_fle_trans; eassumption.
Qed.

(* ------------------------------------------------------------------ *)
(** ** What the engine does not read, and empty inputs *)

Lemma bind_ext {A B : Type} (m : option A) (f g : A -> option B) :
  (forall a : A, m = Some a -> f a = g a) -> m ≫= f = m ≫= g.
Proof. destruct m as [a|]; intros Hfg; [exact (Hfg a eq_refl) | reflexivity]. Qed.

Section Ignored.
Context {lib : PCL}.

Lemma yawSearch_withConvergence (c : ICP -> Matrix4f -> bool) (icp : ICP)
    (center : PointXYZ) (ixs : list Z) :
  forall (bestErr : double) (T : Affine3f),
    yawSearch (lib := withConvergence c lib) icp center ixs bestErr T
      = yawSearch (lib := lib) icp center ixs bestErr T.
Proof.
  induction ixs as [|i ixs IH]; intros bestErr T; [reflexivity|].
  cbn [yawSearch]. rewrite !IH. reflexivity.
Qed.

Lemma checkFit_withConvergence (c : ICP -> Matrix4f -> bool)
    (markers : PointCloud) (bestCloud : PointCloud) :
  forall ok : bool,
    checkFit (lib := withConvergence c lib) markers bestCloud ok
      = checkFit (lib := lib) markers bestCloud ok.
Proof.
  induction bestCloud as [|p rest IH]; intros ok; [reflexivity|].
  cbn [checkFit]. apply bind_ext. intros d _. apply IH.
Qed.

Lemma initializeObject_withConvergence (c : ICP -> Matrix4f -> bool)
    (markerConfigurations : list MarkerConfiguration) (markers : PointCloud)
    (icp : ICP) (ok : bool) (o : Object) :
  initializeObject (lib := withConvergence c lib) markerConfigurations markers
                   icp ok o
    = initializeObject (lib := lib) markerConfigurations markers icp ok o.
Proof.
  unfold initializeObject. apply bind_ext. intros objMarkers _.
  cbv zeta. apply bind_ext. intros center _.
  rewrite yawSearch_withConvergence, checkFit_withConvergence. reflexivity.
Qed.

Lemma initializeLoop_withConvergence (c : ICP -> Matrix4f -> bool)
    (markerConfigurations : list MarkerConfiguration) (markers : PointCloud)
    (objs : list Object) :
  forall (icp : ICP) (ok : bool),
    initializeLoop (lib := withConvergence c lib) markerConfigurations markers
                   icp ok objs
      = initializeLoop (lib := lib) markerConfigurations markers icp ok objs.
Proof.
  induction objs as [|o rest IH]; intros icp ok; [reflexivity|].
  cbn [initializeLoop]. rewrite initializeObject_withConvergence.
  apply bind_ext. intros [[icp1 ok1] o1] _. rewrite IH. reflexivity.
Qed.

(** X10.  [initialize] never consults the convergence verdict of a
    registration: with the verdicts replaced by any others, it returns the
    same flag and leaves the same poses.  A refined transform is kept on
    its score alone, converged or not. *)
Theorem initialize_ignores_convergence (c : ICP -> Matrix4f -> bool)
    (tr : ObjectTracker) (markers : PointCloud) :
  initialize (lib := withConvergence c lib) tr markers
    = initialize (lib := lib) tr markers.
Proof.
  unfold initialize. cbv zeta.
  change (@ICP_new (withConvergence c lib)) with (@ICP_new lib).
  rewrite initializeLoop_withConvergence. reflexivity.
Qed.

Lemma trackLoop_withScore (s : ICP -> Matrix4f -> double)
    (dynamicsConfigurations : list DynamicsConfiguration)
    (markerConfigurations : list MarkerConfiguration) (stamp : time_point)
    (objs : list Object) :
  forall icp : ICP,
    trackLoop (lib := withScore s lib) dynamicsConfigurations
              markerConfigurations stamp icp objs
      = trackLoop (lib := lib) dynamicsConfigurations markerConfigurations
                  stamp icp objs.
Proof.
  induction objs as [|o rest IH]; intros icp; [reflexivity|].
  cbn [trackLoop].
  change (trackObject (lib := withScore s lib) dynamicsConfigurations
            markerConfigurations stamp icp o)
    with (trackObject (lib := lib) dynamicsConfigurations markerConfigurations
            stamp icp o).
  apply bind_ext. intros [icp1 o1] _. rewrite IH. reflexivity.
Qed.

(** X11.  Once the tracker is initialized, [update] never consults the
    fitness score of a registration: with the scores replaced by any
    others, the call gives the same result. *)
Theorem tracking_ignores_score (s : ICP -> Matrix4f -> double)
    (tr : ObjectTracker) (stamp : time_point) (markers : PointCloud) :
  m_initialized tr = true ->
  update (lib := withScore s lib) tr stamp markers
    = update (lib := lib) tr stamp markers.
Proof.
  intros Hinit. unfold update, runICP, ensureInitialized. rewrite Hinit.
  apply bind_ext. intros tr0 _. cbv zeta.
  change (@ICP_new (withScore s lib)) with (@ICP_new lib).
  rewrite trackLoop_withScore. reflexivity.
Qed.

Lemma trackLoop_clear (dynamicsConfigurations : list DynamicsConfiguration)
    (markerConfigurations : list MarkerConfiguration) (stamp : time_point)
    (objs : list Object) :
  forall icp : ICP,
    trackLoop dynamicsConfigurations markerConfigurations stamp icp
              (map (fun o => set_lastTransformationValid o false) objs)
      = trackLoop dynamicsConfigurations markerConfigurations stamp icp objs.
Proof.
  induction objs as [|o rest IH]; intros icp; [reflexivity|].
  cbn [trackLoop map].
  change (trackObject dynamicsConfigurations markerConfigurations stamp icp
            (set_lastTransformationValid o false))
    with (trackObject dynamicsConfigurations markerConfigurations stamp icp o).
  apply bind_ext. intros [icp1 o1] _. rewrite IH. reflexivity.
Qed.

Lemma initializeObject_clear (markerConfigurations : list MarkerConfiguration)
    (markers : PointCloud) (icp : ICP) (ok : bool) (o : Object) :
  initializeObject markerConfigurations markers icp ok
                   (set_lastTransformationValid o false)
    = (fun r : ICP * bool * Object =>
         (r.1.1, r.1.2, set_lastTransformationValid r.2 false))
      <$> initializeObject markerConfigurations markers icp ok o.
Proof.
  unfold initializeObject.
  cbn [set_lastTransformationValid set_lastTransformation
       m_markerConfigurationIdx m_lastTransformation].
  destruct (markerConfigurations !! m_markerConfigurationIdx o)
    as [objMarkers|]; [|reflexivity].
  change (Some objMarkers ≫= ?f) with (f objMarkers). cbv beta zeta.
  destruct (nearestCentroid markers _ _) as [center|]; [|reflexivity].
  change (Some center ≫= ?f) with (f center). cbv beta.
  cbn [set_lastTransformation m_lastTransformation].
  destruct (checkFit markers _ ok) as [b|]; reflexivity.
Qed.

Lemma initializeLoop_clear (markerConfigurations : list MarkerConfiguration)
    (markers : PointCloud) (objs : list Object) :
  forall (icp : ICP) (ok : bool),
    initializeLoop markerConfigurations markers icp ok
                   (map (fun o => set_lastTransformationValid o false) objs)
      = (fun r : bool * list Object =>
           (r.1, map (fun o => set_lastTransformationValid o false) r.2))
        <$> initializeLoop markerConfigurations markers icp ok objs.
Proof.
  induction objs as [|o rest IH]; intros icp ok; [reflexivity|].
  cbn [initializeLoop map]. rewrite initializeObject_clear.
  destruct (initializeObject markerConfigurations markers icp ok o)
    as [[[icp1 ok1] o1]|]; [|reflexivity].
  cbn [fmap option_fmap option_map fst snd].
  change (Some ?a ≫= ?f) with (f a). cbv beta iota. rewrite IH.
  destruct (initializeLoop markerConfigurations markers icp1 ok1 rest)
    as [[ok2 rest']|]; reflexivity.
Qed.

(** X12.  The validity flags are an output only: [update] gives the same
    result on a tracker and on the same tracker with the validity flags
    of its objects cleared. *)
Theorem update_ignores_validity_flags (tr : ObjectTracker)
    (stamp : time_point) (markers : PointCloud) :
  update (clearFlags tr) stamp markers = update tr stamp markers.
Proof.
  unfold update, runICP.
  assert (He : ensureInitialized (clearFlags tr) markers
               = clearFlags <$> ensureInitialized tr markers).
  { unfold ensureInitialized, clearFlags at 1.
    cbn [m_initialized]. destruct (m_initialized tr) eqn:Hinit.
    - reflexivity.
    - unfold initialize. cbv zeta.
      change (m_objects (clearFlags tr))
        with (map (fun o => set_lastTransformationValid o false) (m_objects tr)).
      change (m_markerConfigurations (clearFlags tr))
        with (m_markerConfigurations tr).
      rewrite initializeLoop_clear.
      destruct (initializeLoop _ _ _ _ _) as [[ok objs']|]; reflexivity. }
  rewrite He. destruct (ensureInitialized tr markers) as [tr0|]; [|reflexivity].
  cbn [fmap option_fmap option_map].
  change (Some ?a ≫= ?f) with (f a). cbv beta zeta.
  change (m_objects (clearFlags tr0))
    with (map (fun o => set_lastTransformationValid o false) (m_objects tr0)).
  change (m_markerConfigurations (clearFlags tr0))
    with (m_markerConfigurations tr0).
  change (m_dynamicsConfigurations (clearFlags tr0))
    with (m_dynamicsConfigurations tr0).
  rewrite trackLoop_clear.
  destruct (trackLoop _ _ _ _ _) as [objs'|]; reflexivity.
Qed.

Lemma initializeObject_empty (markerConfigurations : list MarkerConfiguration)
    (markers : PointCloud) (icp : ICP) (ok : bool) (o : Object) :
  markerConfigurations !! m_markerConfigurationIdx o = Some [] ->
  exists o1 : Object,
    initializeObject markerConfigurations markers icp ok o
      = Some (setInputSource icp [], ok, o1).
Proof.
  intros Hcfg. eexists. unfold initializeObject. apply bind_Some. exists [].
  split; [exact Hcfg | reflexivity].
Qed.

Lemma initializeLoop_empty (markerConfigurations : list MarkerConfiguration)
    (markers : PointCloud) (objs : list Object) :
  forall (icp : ICP) (ok : bool),
    Forall (fun o => markerConfigurations !! m_markerConfigurationIdx o = Some [])
           objs ->
    exists objs' : list Object,
      initializeLoop markerConfigurations markers icp ok objs = Some (ok, objs').
Proof.
  induction objs as [|o rest IH]; intros icp ok Hall; cbn [initializeLoop].
  - eexists. reflexivity.
  - inversion Hall as [|? ? Ho Hrest]; subst.
    destruct (initializeObject_empty markerConfigurations markers icp ok o Ho)
      as [o1 H1].
    destruct (IH (setInputSource icp []) ok Hrest) as [rest' H2].
    exists (o1 :: rest'). apply bind_Some.
    exists (setInputSource icp [], ok, o1). split; [exact H1|].
    apply bind_Some. exists (ok, rest'). split; [exact H2 | reflexivity].
Qed.

(** X13.  Objects without markers are validated by no measurement: when
    the marker configuration of every object is empty (in particular when
    there is no object), [initialize] reports success on every point
    cloud, the empty one included. *)
Theorem empty_configurations_always_initialize (tr : ObjectTracker)
    (markers : PointCloud) :
  Forall (fun o => m_markerConfigurations tr !! m_markerConfigurationIdx o
                   = Some [])
         (m_objects tr) ->
  exists tr' : ObjectTracker, initialize tr markers = Some (true, tr').
Proof.
  intros Hall. unfold initialize.
  destruct (initializeLoop_empty (m_markerConfigurations tr) markers (m_objects tr)
              (setInputTarget (setMaximumIterations ICP_new 5) markers) true Hall)
    as [objs' Hl].
  eexists. apply bind_Some. exists (true, objs'). split; [exact Hl | reflexivity].
Qed.

Lemma sumNearest_empty_cloud (nearestIdx : list nat) (i : nat) (ixs : list nat)
    (center : PointXYZ) :
  sumNearest [] nearestIdx (i :: ixs) center = None.
Proof.
  cbn [sumNearest]. apply bind_None.
  destruct (nearestIdx !! i) as [j|]; [right | left; reflexivity].
  exists j. split; [reflexivity|]. apply bind_None. left. apply lookup_nil.
Qed.

Lemma initializeObject_empty_cloud
    (markerConfigurations : list MarkerConfiguration) (icp : ICP) (ok : bool)
    (o : Object) (p : PointXYZ) (ps : PointCloud) :
  markerConfigurations !! m_markerConfigurationIdx o = Some (p :: ps) ->
  initializeObject markerConfigurations [] icp ok o = None.
Proof.
  intros Hcfg. unfold initializeObject. apply bind_None. right.
  exists (p :: ps). split; [exact Hcfg|]. cbv zeta.
  apply bind_None. left. unfold nearestCentroid. apply bind_None. left.
  cbn [length seq]. apply sumNearest_empty_cloud.
Qed.

Lemma initializeLoop_empty_cloud
    (markerConfigurations : list MarkerConfiguration) (objs : list Object) :
  forall (icp : ICP) (ok : bool) (i : nat) (o : Object) (p : PointXYZ)
         (ps : PointCloud),
    objs !! i = Some o ->
    markerConfigurations !! m_markerConfigurationIdx o = Some (p :: ps) ->
    initializeLoop markerConfigurations [] icp ok objs = None.
Proof.
  induction objs as [|o1 rest IH]; intros icp ok i o p ps Ho Hcfg;
    [discriminate Ho|].
  cbn [initializeLoop]. apply bind_None.
  destruct i as [|i].
  - injection Ho as ->. left. eapply initializeObject_empty_cloud. exact Hcfg.
  - destruct (initializeObject markerConfigurations [] icp ok o1)
      as [[[icp1 ok1] o1']|]; [right | left; reflexivity].
    exists (icp1, ok1, o1'). split; [reflexivity|].
    apply bind_None. left. eapply IH; [exact Ho | exact Hcfg].
Qed.

(** X14.  On an empty point cloud, a tracker that is not initialized and
    has an object with at least one marker has no defined [update]: the
    centroid loop of [initialize] indexes the cloud, which has no
    element. *)
Theorem empty_cloud_is_undefined (tr : ObjectTracker) (stamp : time_point)
    (i : nat) (o : Object) (p : PointXYZ) (ps : PointCloud) :
  m_initialized tr = false ->
  m_objects tr !! i = Some o ->
  m_markerConfigurations tr !! m_markerConfigurationIdx o = Some (p :: ps) ->
  initialize tr [] = None /\ update tr stamp [] = None.
Proof.
  intros Hinit Ho Hcfg.
  assert (Hi : initialize tr [] = None).
  { unfold initialize. apply bind_None. left.
    eapply initializeLoop_empty_cloud; [exact Ho | exact Hcfg]. }
  split; [exact Hi|].
  unfold update, runICP. apply bind_None. left.
  unfold ensureInitialized. rewrite Hinit, Hi. reflexivity.
Qed.

End Ignored.

(* ------------------------------------------------------------------ *)
(** ** Composition of a call, and the sign of the elapsed time *)

Section Composition.
Context {lib : PCL}.

(** X3.  A failed initialization does not stop the call: on a tracker
    that is not initialized, [update] is [initialize] followed by the
    tracking loop of an initialized tracker, whatever [initialize]
    returned; only the initialized flag tells the two verdicts apart. *)
Theorem update_is_initialize_then_track (tr tr1 : ObjectTracker)
    (stamp : time_point) (markers : PointCloud) (ok : bool) :
  m_initialized tr = false ->
  initialize tr markers = Some (ok, tr1) ->
  update tr stamp markers
    = (fun t => with_initialized t ok)
      <$> update (with_initialized tr1 true) stamp markers.
Proof.
  intros Hinit Hi. unfold update, runICP.
  assert (He : ensureInitialized tr markers = Some (with_initialized tr1 ok)).
  { unfold ensureInitialized. rewrite Hinit, Hi. reflexivity. }
  rewrite He.
  change (ensureInitialized (with_initialized tr1 true) markers)
    with (Some (with_initialized tr1 true)).
  change (Some ?a ≫= ?f) with (f a). cbv beta zeta.
  change (m_dynamicsConfigurations (with_initialized tr1 ?b))
    with (m_dynamicsConfigurations tr1).
  change (m_markerConfigurations (with_initialized tr1 ?b))
    with (m_markerConfigurations tr1).
  change (m_objects (with_initialized tr1 ?b)) with (m_objects tr1).
  destruct (trackLoop _ _ _ _ _) as [objs'|]; reflexivity.
Qed.

Lemma trackObject_eq (dynamicsConfigurations : list DynamicsConfiguration)
    (markerConfigurations : list MarkerConfiguration) (markers : PointCloud)
    (stamp : time_point) (icp : ICP) (o : Object)
    (dynConf : DynamicsConfiguration) (source : PointCloud) :
  sameTarget icp (setInputTarget (setMaximumIterations ICP_new 5) markers) ->
  dynamicsConfigurations !! m_dynamicsConfigurationIdx o = Some dynConf ->
  markerConfigurations !! m_markerConfigurationIdx o = Some source ->
  trackObject dynamicsConfigurations markerConfigurations stamp icp o
    = Some (trackICP markers dynConf source (frameDt stamp o),
            tracked markers dynConf source stamp o).
Proof.
  intros Hicp Hdyn Hsrc.
  destruct (trackObject_defined
              (mkObjectTracker dynamicsConfigurations markerConfigurations [] true)
              stamp icp o) as [[icp' o'] Ht].
  { split; eexists; eassumption. }
  cbn [m_dynamicsConfigurations m_markerConfigurations] in Ht.
  destruct (trackObject_spec _ _ markers _ _ _ _ _ Hicp Ht)
    as (d & s & Hd & Hs & -> & ->).
  rewrite Hdyn in Hd. injection Hd as <-.
  rewrite Hsrc in Hs. injection Hs as <-. exact Ht.
Qed.

Lemma checkFit_defined_any (markers : PointCloud) (bestCloud : PointCloud) :
  forall ok ok2 : bool,
    is_Some (checkFit markers bestCloud ok) ->
    is_Some (checkFit markers bestCloud ok2).
Proof.
  induction bestCloud as [|p rest IH]; intros ok ok2 [b Hb]; cbn [checkFit] in *.
  - eexists. reflexivity.
  - apply bind_Some in Hb as (d & Hd & Hb).
    apply (bind_defined _ _ d Hd). eapply IH. eexists. exact Hb.
Qed.

(** The pose [initialize] leaves in an object depends neither on the
    input source the ICP object held before, nor on the verdicts on the
    objects before it. *)
Lemma initializeObject_any (markerConfigurations : list MarkerConfiguration)
    (markers : PointCloud) (icp icp2 icp' : ICP) (ok ok' ok2 : bool)
    (o o' : Object) :
  sameSettings icp icp2 ->
  initializeObject markerConfigurations markers icp ok o = Some (icp', ok', o') ->
  exists ok2' : bool,
    initializeObject markerConfigurations markers icp2 ok2 o
      = Some (icp', ok2', o').
Proof.
  unfold initializeObject. intros Hs Hi.
  apply bind_Some in Hi as (objMarkers & HobjMarkers & Hi).
  apply bind_Some in Hi as (center & Hcenter & Hi).
  remember (yawSearch (setInputSource icp objMarkers) center yawIndices DBL_MAX
              (m_lastTransformation o)).2 as T eqn:HT.
  apply bind_Some in Hi as (b & Hcheck & Hi).
  injection Hi as <- <- <-.
  destruct (checkFit_defined_any markers _ ok ok2 (ex_intro _ b Hcheck))
    as [b2 Hb2].
  exists b2.
  apply bind_Some. exists objMarkers. split; [exact HobjMarkers|].
  apply bind_Some. exists center. split; [exact Hcenter|].
  rewrite <- (sameSettings_source _ _ objMarkers Hs). rewrite <- HT.
  apply bind_Some. exists b2. split; [exact Hb2 | reflexivity].
Qed.

Lemma initializeLoop_lookup (markerConfigurations : list MarkerConfiguration)
    (markers : PointCloud) (objs : list Object) :
  forall (icp : ICP) (ok ok' : bool) (objs' : list Object) (i : nat)
         (o o' : Object),
    sameSettings icp (setInputTarget (setMaximumIterations ICP_new 5) markers) ->
    initializeLoop markerConfigurations markers icp ok objs = Some (ok', objs') ->
    objs !! i = Some o ->
    objs' !! i = Some o' ->
    exists (icp0 icp1 : ICP) (ok0 ok1 : bool),
      sameSettings icp0 (setInputTarget (setMaximumIterations ICP_new 5) markers) /\
      initializeObject markerConfigurations markers icp0 ok0 o
        = Some (icp1, ok1, o').
Proof.
  induction objs as [|o1 rest IH]; intros icp ok ok' objs' i o o' Hicp Hl Ho Ho';
    [discriminate Ho|].
  cbn [initializeLoop] in Hl.
  apply bind_Some in Hl as ([[icp1 ok1] o1'] & Hobj & Hl).
  apply bind_Some in Hl as ([ok2 rest'] & Hrest & Hl).
  injection Hl as <- <-.
  destruct i as [|i].
  - injection Ho as <-. injection Ho' as <-.
    exists icp, icp1, ok, ok1. split; [exact Hicp | exact Hobj].
  - apply (IH icp1 ok1 ok2 rest' i o o'); [|exact Hrest|exact Ho|exact Ho'].
    apply initializeObject_spec in Hobj as (objMarkers & _ & _ & _ & -> & _).
    apply sameSettings_setInputSource. exact Hicp.
Qed.

Lemma initialize_single (tr tr1 : ObjectTracker) (markers : PointCloud)
    (ok : bool) (i : nat) (o o1 : Object) :
  initialize tr markers = Some (ok, tr1) ->
  m_objects tr !! i = Some o ->
  m_objects tr1 !! i = Some o1 ->
  exists ok2 : bool,
    initialize (with_objects tr [o]) markers = Some (ok2, with_objects tr [o1]).
Proof.
  unfold initialize. intros Hi Ho Ho1.
  apply bind_Some in Hi as ([ok1 objs'] & Hl & Hi). injection Hi as <- <-.
  cbn [m_objects with_objects] in Ho1.
  destruct (initializeLoop_lookup _ _ _ _ _ _ _ i o o1
              ltac:(repeat split; reflexivity) Hl Ho Ho1)
    as (icp0 & icp1 & ok0 & ok1' & Hicp0 & Hobj).
  destruct (initializeObject_any _ _ _
              (setInputTarget (setMaximumIterations ICP_new 5) markers)
              _ _ _ true _ _ Hicp0 Hobj) as [ok2 Hobj2].
  exists ok2. apply bind_Some. exists (ok2, [o1]). split; [|reflexivity].
  cbn [m_objects with_objects m_markerConfigurations initializeLoop].
  apply bind_Some. exists (icp1, ok2, o1). split; [exact Hobj2 | reflexivity].
Qed.

(** X9.  The objects are processed independently of one another: what a
    call of [update] leaves in an object is what the same call leaves in
    it on a tracker that holds this object alone.  Every setting of the
    shared ICP object that a registration reads is written anew for each
    object. *)
Theorem objects_are_independent (tr tr' : ObjectTracker) (stamp : time_point)
    (markers : PointCloud) (i : nat) (o o' : Object) :
  update tr stamp markers = Some tr' ->
  m_objects tr !! i = Some o ->
  m_objects tr' !! i = Some o' ->
  m_objects <$> update (with_objects tr [o]) stamp markers = Some [o'].
Proof.
  intros Hu Ho Ho'. unfold update in Hu.
  apply runICP_spec in Hu as (tr0 & He & _ & _ & _ & Hall).
  destruct (ensureInitialized_keeps _ _ _ He) as (Hd0 & Hm0 & _).
  destruct (Forall2_lookup_r _ _ _ _ _ Hall Ho') as (o0 & Ho0 & Ht).
  destruct Ht as (dynConf & source & Hdyn & Hsrc & ->).
  assert (He1 : exists t0 : ObjectTracker,
             ensureInitialized (with_objects tr [o]) markers = Some t0 /\
             m_dynamicsConfigurations t0 = m_dynamicsConfigurations tr /\
             m_markerConfigurations t0 = m_markerConfigurations tr /\
             m_objects t0 = [o0]).
  { apply ensureInitialized_spec in He
      as [[Hi ->] | (Hi & ok & tr1 & Hini & ->)].
    - rewrite Ho in Ho0. injection Ho0 as <-. exists (with_objects tr [o]).
      split; [|repeat split; reflexivity].
      unfold ensureInitialized. cbn [m_initialized with_objects].
      rewrite Hi. reflexivity.
    - cbn [m_objects with_initialized] in Ho0.
      destruct (initialize_single _ _ _ _ _ _ _ Hini Ho Ho0) as [ok2 Hi2].
      exists (with_initialized (with_objects tr [o0]) ok2).
      split; [|repeat split; reflexivity].
      unfold ensureInitialized. cbn [m_initialized with_objects].
      rewrite Hi, Hi2. reflexivity. }
  destruct He1 as (t0 & He1 & Hd1 & Hm1 & Hobjs).
  apply fmap_Some. exists (with_objects t0 [tracked markers dynConf source stamp o0]).
  split; [|reflexivity].
  unfold update, runICP. apply bind_Some. exists t0. split; [exact He1|].
  cbv zeta. rewrite Hobjs, Hd1, Hm1.
  apply bind_Some. exists [tracked markers dynConf source stamp o0].
  split; [|reflexivity].
  cbn [trackLoop]. apply bind_Some.
  exists (trackICP markers dynConf source (frameDt stamp o0),
          tracked markers dynConf source stamp o0).
  split; [|reflexivity].
  apply trackObject_eq; [split; reflexivity | exact Hdyn | exact Hsrc].
Qed.

End Composition.

Section SignOfDt.

Lemma binary_round_aux_opp (prec emax : Z) (s : bool) (m e : Z) (l : location) :
  binary_round_aux prec emax (negb s) m e l
    = SFopp (binary_round_aux prec emax s m e l).
Proof.
  unfold binary_round_aux.
  destruct (shr_fexp prec emax m e l) as [mrs' e'].
  destruct (shr_fexp prec emax _ e' loc_Exact) as [mrs'' e''].
  destruct (shr_m mrs'') as [|p|p]; [reflexivity| |reflexivity].
  destruct (e'' <=? emax - prec); reflexivity.
Qed.

Lemma div_opp_r (x y : double) : F64.div x (SFopp y) = SFopp (F64.div x y).
Proof.
  destruct x as [sx|sx| |sx mx ex], y as [sy|sy| |sy my ey];
    unfold F64.div, SFdiv; cbn [SFopp]; rewrite <- ?negb_xorb_r;
    try reflexivity.
  destruct (SFdiv_core_binary _ _ _ _ _ _) as [[mz ez] lz].
  apply binary_round_aux_opp.
Qed.

Lemma double_to_float_opp (x : double) :
  double_to_float (SFopp x) = SFopp (double_to_float x).
Proof.
  destruct x as [s|s| |s m e]; try reflexivity.
  unfold double_to_float, F32.round. cbn [SFopp]. unfold binary_round.
  destruct (shl_align _ _ _) as [mz ez]. apply (binary_round_aux_opp _ _ s).
Qed.

Lemma fabs_opp (x : spec_float) : fabs (SFopp x) = fabs x.
Proof. destruct x; reflexivity. Qed.

Lemma below_rate_opp (a b : float) (dt bound : double) :
  below (rate a b (SFopp dt)) bound = below (rate a b dt) bound.
Proof.
  unfold below, rate. rewrite div_opp_r, double_to_float_opp, fabs_opp.
  reflexivity.
Qed.

Lemma SFopp_involutive (x : spec_float) : SFopp (SFopp x) = x.
Proof. destruct x; cbn [SFopp]; rewrite ?negb_involutive; reflexivity. Qed.

Lemma binary_round_opp (prec emax : Z) (s : bool) (m : positive) (e : Z) :
  binary_round prec emax (negb s) m e = SFopp (binary_round prec emax s m e).
Proof.
  unfold binary_round. destruct (shl_align _ _ _) as [mz ez].
  apply binary_round_aux_opp.
Qed.

Lemma double_of_int_opp (n : Z) :
  n <> 0 -> double_of_int (- n) = SFopp (double_of_int n).
Proof.
  intros Hn. unfold double_of_int, F64.of_Z, binary_normalize.
  destruct n as [|p|p]; [contradiction | |]; cbn [Z.opp].
  - apply (binary_round_opp _ _ false).
  - rewrite (binary_round_opp _ _ false), SFopp_involutive. reflexivity.
Qed.

Lemma div_opp_l (x y : double) : F64.div (SFopp x) y = SFopp (F64.div x y).
Proof.
  destruct x as [sx|sx| |sx mx ex], y as [sy|sy| |sy my ey];
    unfold F64.div, SFdiv; cbn [SFopp]; rewrite <- ?negb_xorb_l;
    try reflexivity.
  destruct (SFdiv_core_binary _ _ _ _ _ _) as [[mz ez] lz].
  apply binary_round_aux_opp.
Qed.

Lemma elapsedSeconds_swap (a b : time_point) :
  a <> b -> elapsedSeconds b a = SFopp (elapsedSeconds a b).
Proof.
  intros Hab. unfold elapsedSeconds.
  replace (b - a) with (- (a - b)) by lia.
  rewrite double_of_int_opp by lia. apply div_opp_l.
Qed.

Lemma gate_opp (dynConf : DynamicsConfiguration) (p l : Pose) (dt : double) :
  gate dynConf p l (SFopp dt) = gate dynConf p l dt.
Proof.
  unfold gate, dynamicsCheck. rewrite !below_rate_opp. reflexivity.
Qed.

(** X17.  The gate does not see the direction of time: its verdict on a
    new pose is the same whether the elapsed time is taken from the time
    stamp [a] to the clock reading [b] or from [b] to [a].  A clock
    reading that lies before the time stamp of the object is treated as
    one that lies as far after it. *)
Theorem gate_ignores_direction_of_time (dynConf : DynamicsConfiguration)
    (p l : Pose) (a b : time_point) :
  gate dynConf p l (elapsedSeconds b a) = gate dynConf p l (elapsedSeconds a b).
Proof.
  destruct (Z.eq_dec a b) as [->|Hab]; [reflexivity|].
  rewrite (elapsedSeconds_swap a b Hab). apply gate_opp.
Qed.

End SignOfDt.

(* ------------------------------------------------------------------ *)
(** ** Sequences of calls *)

Section Sequences.
Context {lib : PCL}.

Lemma update_stamp (tr tr' : ObjectTracker) (stamp : time_point)
    (markers : PointCloud) (i : nat) (o o' : Object) :
  update tr stamp markers = Some tr' ->
  m_objects tr !! i = Some o ->
  m_objects tr' !! i = Some o' ->
  m_lastValidTransform o' = m_lastValidTransform o \/
  m_lastValidTransform o' = stamp.
Proof.
  intros Hu Ho Ho'. unfold update in Hu.
  apply runICP_spec in Hu as (tr0 & He & _ & _ & _ & Hall).
  destruct (ensureInitialized_keeps _ _ _ He) as (_ & _ & Hall0).
  destruct (Forall2_lookup_r _ _ _ _ _ Hall Ho') as (o0 & Ho0 & Ht).
  destruct Ht as (dynConf & source & _ & _ & ->).
  destruct (Forall2_lookup_lr _ _ _ _ _ _ Hall0 Ho Ho0) as (_ & _ & Hs & _).
  unfold tracked. destruct (_ && _); cbn [m_lastValidTransform];
    [right; reflexivity | left; exact Hs].
Qed.

Lemma update_length (tr tr' : ObjectTracker) (stamp : time_point)
    (markers : PointCloud) :
  update tr stamp markers = Some tr' ->
  length (m_objects tr') = length (m_objects tr).
Proof.
  intros Hu. unfold update in Hu.
  apply runICP_spec in Hu as (tr0 & He & _ & _ & _ & Hall).
  destruct (ensureInitialized_keeps _ _ _ He) as (_ & _ & Hall0).
  rewrite <- (Forall2_length _ _ _ Hall), <- (Forall2_length _ _ _ Hall0).
  reflexivity.
Qed.

Lemma updates_stamps (frames : list (time_point * PointCloud)) :
  forall (tr tr' : ObjectTracker) (known : list time_point),
    updates tr frames = Some tr' ->
    Forall (fun o => In (m_lastValidTransform o) known) (m_objects tr) ->
    Forall (fun o' => In (m_lastValidTransform o') (known ++ map fst frames))
           (m_objects tr').
Proof.
  induction frames as [|[stamp cloud] rest IH]; intros tr tr' known Hr Hall;
    cbn [updates] in Hr.
  - injection Hr as <-. cbn [map]. rewrite app_nil_r. exact Hall.
  - apply bind_Some in Hr as (tr1 & Hu & Hr).
    cbn [map fst]. change (stamp :: map fst rest) with ([stamp] ++ map fst rest).
    rewrite app_assoc. apply (IH tr1 tr' (known ++ [stamp]) Hr).
    apply Forall_lookup. intros i o1 Ho1.
    assert (Hlt : (i < length (m_objects tr))%nat).
    { rewrite <- (update_length _ _ _ _ Hu). eapply lookup_lt_Some. exact Ho1. }
    destruct (lookup_lt_is_Some_2 _ _ Hlt) as [o Ho].
    rewrite Forall_lookup in Hall. specialize (Hall i o Ho).
    apply in_app_iff.
    destruct (update_stamp _ _ _ _ _ _ _ Hu Ho Ho1) as [-> | ->];
      [left; exact Hall | right; left; reflexivity].
Qed.

(** X18.  Time stamps are never invented: on a tracker built by the
    constructor from objects built by the constructor, after any sequence
    of calls of [update] the time stamp of every object is the epoch of
    the clock or the clock reading of one of the calls. *)
Theorem stamps_are_epoch_or_readings
    (dynamicsConfigurations : list DynamicsConfiguration)
    (markerConfigurations : list MarkerConfiguration)
    (given : list (nat * nat * Affine3f))
    (frames : list (time_point * PointCloud)) (tr' : ObjectTracker)
    (i : nat) (o' : Object) :
  updates (ObjectTracker_new dynamicsConfigurations markerConfigurations
             (map newObject given)) frames = Some tr' ->
  objects tr' !! i = Some o' ->
  In (m_lastValidTransform o') (epoch :: map fst frames).
Proof.
  intros Hr Ho'.
  assert (Hall : Forall (fun o' => In (m_lastValidTransform o')
                                      ([epoch] ++ map fst frames))
                        (m_objects tr')).
  { apply (updates_stamps frames _ tr' [epoch] Hr).
    cbn [ObjectTracker_new m_objects]. apply Forall_map, Forall_forall.
    intros [[mi di] t0] _. left. reflexivity. }
  rewrite Forall_lookup in Hall. exact (Hall i o' Ho').
Qed.

End Sequences.


(* ------------------------------------------------------------------ *)
(** ** Runs of the engine on the test doubles *)

Section Runs.
Import Fake Scenario.
Import Field.

(** C1 as stated fails for two frames "implying a velocity at the bound
    minus epsilon": the object moves by 1 along x in 10.0000001 s, a
    velocity of 0.099999999, below the bound 0.1 (and so is the quotient
    the code computes in [double]); the registration converged and the
    seven other comparisons hold.  The frame is rejected: the quotient is
    narrowed to the [float] nearest to it, 0.1000000015, which is not
    below the bound. *)
Lemma implied_velocity_below_bound_is_rejected :
  update (lib := shifted) slow tenSecondsAndABit cloud = Some slow /\
  (forall (icp : ICP) (guess : Matrix4f),
      hasConverged (align (PCL := shifted) icp guess) = true) /\
  m_objects slow !! 0%nat = Some (object 0) /\
  lastTransformationValid (object 0) = false /\
  (let p := poseOf (poseAt 1 0) in
   let l := poseOf (poseAt 0 0) in
   let dt := frameDt tenSecondsAndABit (object 0) in
   flt (fabs (F64.div (float_to_double (F32.sub (pose_x p) (pose_x l))) dt))
       (maxXVelocity boundsTenth) = true /\
   flt (float_to_double
          (fabs (double_to_float
                   (F64.div (float_to_double (F32.sub (pose_x p) (pose_x l))) dt))))
       (maxXVelocity boundsTenth) = false /\
   below (rate (pose_y p) (pose_y l) dt) (maxYVelocity boundsTenth) = true /\
   below (rate (pose_z p) (pose_z l) dt) (maxZVelocity boundsTenth) = true /\
   below (rate (pose_roll p) (pose_roll l) dt) (maxRollRate boundsTenth) = true /\
   below (rate (pose_pitch p) (pose_pitch l) dt) (maxPitchRate boundsTenth) = true /\
   below (rate (pose_yaw p) (pose_yaw l) dt) (maxYawRate boundsTenth) = true /\
   below (pose_roll p) (maxRoll boundsTenth) = true /\
   below (pose_pitch p) (maxPitch boundsTenth) = true).
Proof.
  split; [vm_compute; reflexivity|]. split; [reflexivity|].
  split; [reflexivity|]. split; [reflexivity|].
  repeat split; vm_compute; reflexivity.
Qed.

Lemma gate_acceptance_witness :
  withinBounds (bounds 2) (poseOf (poseAt 1 3)) (poseOf (poseAt 0 0))
               (frameDt (2 * second) (object 0)) /\
  transformation (objectAt (poseAt 1 3) (2 * second) true) = poseAt 1 3 /\
  m_lastValidTransform (objectAt (poseAt 1 3) (2 * second) true) = 2 * second.
Proof.
  destruct (gate_acceptance (lib := moving) (tracker true 0) (tracker true 0)
              (trackerOf true (objectAt (poseAt 1 3) (2 * second) true))
              (2 * second) cloud 0 (object 0)
              (objectAt (poseAt 1 3) (2 * second) true) (bounds 2) cloud)
    as (Hiff & _ & Hcommit); [vm_compute; reflexivity ..|].
  split; [apply Hiff; reflexivity | apply Hcommit; reflexivity].
Defined.

(** C2 as stated fails: on the first call the tracker is not
    initialized; the search of [initialize] moves the object to the
    refined transform, then the registration of the tracking loop does
    not converge.  The frame is rejected and the transformation is not
    the one before the call. *)
Lemma rejection_after_initialization_moves_pose :
  update (lib := lost) (tracker false 0) second cloud
    = Some (trackerOf true (objectAt (poseAt 1 0) 0 false)) /\
  (forall (icp : ICP) (guess : Matrix4f),
      hasConverged (align (PCL := lost) icp guess) = false) /\
  lastTransformationValid (objectAt (poseAt 1 0) 0 false) = false /\
  transformation (objectAt (poseAt 1 0) 0 false) <> transformation (object 0).
Proof.
  split; [vm_compute; reflexivity|]. split; [reflexivity|].
  split; [reflexivity|]. intros Heq. vm_compute in Heq. discriminate Heq.
Qed.

Lemma rejection_keeps_pose_witness :
  lastTransformationValid (object 0) = false /\
  transformation (object 0) = poseAt 0 0 /\
  m_lastValidTransform (object 0) = 0.
Proof.
  destruct (rejection_keeps_pose (lib := lost) (tracker true 0) (tracker true 0)
              (tracker true 0) second cloud 0 (object 0) (object 0) (object 0)
              (bounds 2) cloud)
    as (Hv & Ht & Hs & _ & _);
    [vm_compute; reflexivity .. | left; reflexivity |].
  split; [exact Hv|]. split; [exact Ht | exact Hs].
Defined.

(** C8 as stated fails: the object was last accepted when the clock
    read 10; at this call the clock reads 5 and the pose has not moved.
    The frame is accepted and the time stamp goes from 10 to 5. *)
Lemma timestamp_steps_back_with_clock :
  update (lib := resting) (tracker true 10) 5 cloud
    = Some (trackerOf true (objectAt (poseAt 0 0) 5 true)) /\
  lastTransformationValid (objectAt (poseAt 0 0) 5 true) = true /\
  ~ (m_lastValidTransform (object 10)
       < m_lastValidTransform (objectAt (poseAt 0 0) 5 true)).
Proof.
  split; [vm_compute; reflexivity|]. split; [reflexivity|]. cbn. lia.
Qed.

Lemma timestamp_advances_witness :
  m_lastValidTransform (objectAt (poseAt 1 3) (2 * second) true) = 2 * second /\
  m_lastValidTransform (object 0)
    < m_lastValidTransform (objectAt (poseAt 1 3) (2 * second) true).
Proof.
  destruct (timestamp_advances (lib := moving) (tracker true 0)
              (trackerOf true (objectAt (poseAt 1 3) (2 * second) true))
              (2 * second) cloud 0 (object 0)
              (objectAt (poseAt 1 3) (2 * second) true))
    as (_ & Hacc); [vm_compute; reflexivity ..|].
  destruct (Hacc eq_refl) as (Hs & _ & Hlt).
  split; [exact Hs|]. apply Hlt. vm_compute. discriminate.
Defined.

(** C9 as stated fails: the frame implies a yaw change of 3 rad in one
    second, above the yaw-rate bound of 2 rad/s; every other rate and the
    roll and pitch of the new pose are within their bounds, and the frame
    is rejected.  The same frame without the turn is accepted: the yaw of
    the new pose decides. *)
Lemma large_yaw_change_is_rejected :
  update (lib := moving) (tracker true 0) second cloud
    = Some (trackerOf true (object 0)) /\
  lastTransformationValid (object 0) = false /\
  (let p := poseOf (poseAt 1 3) in
   let l := poseOf (poseAt 0 0) in
   let dt := frameDt second (object 0) in
   below (rate (pose_x p) (pose_x l) dt) (maxXVelocity (bounds 2)) = true /\
   below (rate (pose_y p) (pose_y l) dt) (maxYVelocity (bounds 2)) = true /\
   below (rate (pose_z p) (pose_z l) dt) (maxZVelocity (bounds 2)) = true /\
   below (rate (pose_roll p) (pose_roll l) dt) (maxRollRate (bounds 2)) = true /\
   below (rate (pose_pitch p) (pose_pitch l) dt) (maxPitchRate (bounds 2)) = true /\
   below (pose_roll p) (maxRoll (bounds 2)) = true /\
   below (pose_pitch p) (maxPitch (bounds 2)) = true) /\
  update (lib := shifted) (tracker true 0) second cloud
    = Some (trackerOf true (objectAt (poseAt 1 0) second true)).
Proof.
  split; [vm_compute; reflexivity|]. split; [reflexivity|].
  split; [|vm_compute; reflexivity].
  repeat split; vm_compute; reflexivity.
Qed.

Lemma yaw_is_unbounded_witness :
  lastTransformationValid (objectAt (poseAt 1 3) (2 * second) true) = true /\
  transformation (objectAt (poseAt 1 3) (2 * second) true) = poseAt 1 3.
Proof.
  destruct (yaw_is_unbounded (lib := moving) (tracker true 0) (tracker true 0)
              (trackerOf true (objectAt (poseAt 1 3) (2 * second) true))
              (2 * second) cloud 0 (object 0)
              (objectAt (poseAt 1 3) (2 * second) true) (bounds 2) cloud)
    as (Hacc & _); [vm_compute; reflexivity ..|].
  apply Hacc; vm_compute; reflexivity.
Defined.


(** C6 as stated fails, in both readings of "maximum linear velocity".
    With the bounds 1, 2, 1 along x, y, z and a [dt] of one second the
    distance is set to 1, not to the largest bound times [dt], which
    is 2.  With a bound of 0.1 along x it is set to the [float] nearest
    to 0.1 times [dt], which is not 0.1 times [dt]. *)
Lemma correspondence_distance_is_not_max_velocity :
  (corr_dist_threshold_ <$>
     (fst <$> trackObject (lib := resting) [boundsXYZ] [cloud] second (@ICP_new resting)
                          (object 0))
     = Some (double_of_int 1) /\
   F64.mul (maxLinearVelocity boundsXYZ) (elapsedSeconds second 0)
     = double_of_int 2) /\
  (exists d : double,
      corr_dist_threshold_ <$>
        (fst <$> trackObject (lib := resting) [boundsTenth] [cloud] second (@ICP_new resting)
                             (object 0))
        = Some d /\
      d <> F64.mul (maxXVelocity boundsTenth) (elapsedSeconds second 0) /\
      d <> F64.mul (maxLinearVelocity boundsTenth) (elapsedSeconds second 0)).
Proof.
  split.
  - split; vm_compute; reflexivity.
  - eexists. split; [vm_compute; reflexivity|].
    split; intros Heq; vm_compute in Heq; discriminate Heq.
Qed.

Lemma correspondence_distance_witness :
  exists dynConf : DynamicsConfiguration,
    [boundsXYZ] !! 0%nat = Some dynConf /\
    double_of_int 1
      = F64.mul (float_to_double (double_to_float (maxXVelocity dynConf)))
                (elapsedSeconds second 0).
Proof.
  destruct (correspondence_distance (lib := resting) [boundsXYZ] [cloud] second
              (@ICP_new resting)
              (mkICP 10 [] cloud (double_of_int 1))
              (object 0) (objectAt (poseAt 0 0) second true))
    as (dynConf & source & Hdyn & _ & Hdist & _); [vm_compute; reflexivity|].
  exists dynConf. split; [exact Hdyn | exact Hdist].
Defined.

(** C7 as stated fails: an object constructed when the clock reads 5 s
    and tracked for the first time when it reads 7 s gets a [dt] of 7 s
    (the correspondence distance is 2 * 7), not of 2 s. *)
Lemma fresh_object_dt_counts_from_epoch :
  frameDt (7 * second) (Object_new 0 0 (poseAt 0 0)) = double_of_int 7 /\
  sinceConstruction (5 * second) (7 * second) = double_of_int 2 /\
  corr_dist_threshold_ <$>
    (fst <$> trackObject (lib := resting) [bounds 2] [cloud] (7 * second) (@ICP_new resting)
                         (Object_new 0 0 (poseAt 0 0)))
    = Some (double_of_int 14) /\
  frameDt (7 * second) (Object_new 0 0 (poseAt 0 0))
    <> sinceConstruction (5 * second) (7 * second).
Proof.
  split; [vm_compute; reflexivity|]. split; [vm_compute; reflexivity|].
  split; [vm_compute; reflexivity|].
  intros Heq. vm_compute in Heq. discriminate Heq.
Qed.

Lemma frame_dt_witness :
  exists o0 : Object,
    frameDt (7 * second) o0
      = F64.div (double_of_int (7 * second)) (double_of_int ticks_per_second).
Proof.
  destruct (frame_dt (lib := resting)
              (trackerOf true (Object_new 0 0 (poseAt 0 0)))
              (trackerOf true (objectAt (poseAt 0 0) (7 * second) true))
              (7 * second) cloud 0 (Object_new 0 0 (poseAt 0 0))
              (objectAt (poseAt 0 0) (7 * second) true))
    as (tr0 & o0 & dynConf & source & _ & _ & _ & _ & _ & _ & Hnew);
    [vm_compute; reflexivity ..|].
  exists o0. exact (Hnew 0%nat 0%nat (poseAt 0 0) eq_refl).
Defined.

(** C3 as stated fails, twice.  Every one of the 20 hypotheses scores
    [DBL_MAX], the score of a registration without correspondences, so
    each of them is of lowest score; the object keeps its seed, which is
    the refined transform of none of them.  And the hypothesised angle is
    not the yaw of the candidate transform: line 116 passes it to
    [pcl::getTransformation(x, y, z, roll, pitch, yaw)] as the roll, so
    that on a library that stores the six parameters the candidate of
    hypothesis 1 has the angle 2 pi / 20 as its roll and a zero yaw. *)
Lemma search_keeps_seed_and_angle_is_roll :
  initialize (lib := blind) (tracker false 0) cloud
    = Some (true, tracker false 0) /\
  objectCentroid (lib := blind) cloud cloud (object 0) = Some middle /\
  Forall (fun r => getFitnessScore r = DBL_MAX /\
                   getFinalTransformation r <> transformation (object 0))
         (hypotheses (lib := blind) (initICP (lib := blind) cloud cloud) middle
                     yawIndices) /\
  (forall center : PointXYZ,
      let candidate :=
        getTranslationAndEulerAngles (PCL := blind)
          (tryMatrix (lib := blind) center (yawGuess 1)) in
      pose_roll candidate = yawGuess 1 /\
      pose_pitch candidate = S754_zero false /\
      pose_yaw candidate = S754_zero false) /\
  is_zero (yawGuess 1) = false.
Proof.
  split; [vm_compute; reflexivity|]. split; [vm_compute; reflexivity|].
  split.
  - unfold hypotheses. apply Forall_map, Forall_forall. intros i _.
    split; [reflexivity|]. intros Heq. vm_compute in Heq. discriminate Heq.
  - split; [|vm_compute; reflexivity].
    intros center. cbv zeta. split; [reflexivity|]. split; reflexivity.
Qed.

Lemma yaw_search_witness :
  exists hs : list Registration,
    length hs = 20%nat /\ searchOutcome hs (poseAt 0 0) (poseAt 1 0).
Proof.
  destruct (yaw_search (lib := lost) (tracker false 0)
              (trackerOf false (objectAt (poseAt 1 0) 0 false)) cloud true 0
              (object 0) (objectAt (poseAt 1 0) 0 false))
    as (objMarkers & nearest & center & _ & _ & _ & _ & _ & _ & _ & Hout);
    [vm_compute; reflexivity ..|].
  eexists. split; [|exact Hout]. reflexivity.
Defined.

(** C4 as stated fails: every hypothesis scores [DBL_MAX], so each of
    them is of lowest score and its refined transform, one unit along x,
    is the best candidate pose; the nominal marker transformed by it lies
    at squared distance 1 from the observed markers.  [initialize]
    reports success all the same: what it validates is the pose the
    search left in the object, here the seed. *)
Lemma unscored_candidate_is_not_validated :
  initialize (lib := unscored) alone oneMarker = Some (true, alone) /\
  objectCentroid (lib := unscored) oneMarker oneMarker (object 0)
    = Some (point 0 0 0) /\
  Forall (fun r => getFitnessScore r = DBL_MAX /\
                   getFinalTransformation r = poseAt 1 0)
         (hypotheses (lib := unscored) (initICP (lib := unscored) oneMarker oneMarker)
                     (point 0 0 0) yawIndices) /\
  Forall (fun p => nearestSqrDist (lib := unscored) oneMarker
                     (transformPoint (PCL := unscored) (poseAt 1 0) p)
                   = Some (float_of_int 1))
         oneMarker /\
  flt INIT_MAX_HAUSDORFF_DIST2 (float_to_double (float_of_int 1)) = true.
Proof.
  split; [vm_compute; reflexivity|]. split; [vm_compute; reflexivity|].
  split.
  - unfold hypotheses. apply Forall_map, Forall_forall. intros i _.
    split; reflexivity.
  - split; [|vm_compute; reflexivity].
    constructor; [vm_compute; reflexivity | constructor].
Qed.

Lemma initialize_all_or_nothing_witness :
  objectFits (lib := seeded) [oneMarker; twoMarkers] cloud
             (mkObject 0 0 (poseAt 0 0) 0 false) /\
  ~ objectFits (lib := seeded) [oneMarker; twoMarkers] cloud
               (mkObject 1 0 halfway 0 false) /\
  m_objects threeSearched
    = [mkObject 0 0 (poseAt 0 0) 0 false; mkObject 1 0 halfway 0 false;
       mkObject 0 0 (poseAt 0 0) 0 false] /\
  ~ (forall (i : nat) (o' : Object),
        m_objects threeSearched !! i = Some o' ->
        exists objMarkers : PointCloud,
          [oneMarker; twoMarkers] !! m_markerConfigurationIdx o' = Some objMarkers /\
          forall (k : nat) (p : PointXYZ),
            objMarkers !! k = Some p ->
            exists d : float,
              (nearestKSearch (PCL := seeded) cloud
                 (transformPoint (PCL := seeded) (transformation o') p) 1).2
                !! 0%nat = Some d /\
              flt (F64.mul lit_0_008 lit_0_008) (float_to_double d) = false).
Proof.
  destruct (initialize_all_or_nothing (lib := seeded) three threeSearched
              cloud false) as (_ & [_ Hall] & _); [vm_compute; reflexivity|].
  assert (Hbad : ~ objectFits (lib := seeded) [oneMarker; twoMarkers] cloud
                     (mkObject 1 0 halfway 0 false)).
  { intros (objMarkers & Hcfg & Hpts). vm_compute in Hcfg.
    injection Hcfg as <-.
    inversion Hpts as [|? ? (d & Hd & Hfit) _]. vm_compute in Hd.
    injection Hd as <-. vm_compute in Hfit. discriminate Hfit. }
  split; [|split; [exact Hbad|split; [reflexivity|]]].
  - exists oneMarker. split; [reflexivity|].
    constructor; [|constructor].
    exists (S754_zero false). split; vm_compute; reflexivity.
  - intros Hfits. specialize (Hall Hfits). discriminate Hall.
Defined.

(** C5 as stated fails: no hypothesis scores below [DBL_MAX] and the
    validation fails; the object's transformation has not been
    overwritten with the refined transform of any hypothesis. *)
Lemma failed_batch_without_score_keeps_seed :
  initialize (lib := blindFar) (tracker false 0) cloud
    = Some (false, tracker false 0) /\
  m_objects (tracker false 0) !! 0%nat = Some (object 0) /\
  (forall (icp : ICP) (guess : Matrix4f),
      getFinalTransformation (align (PCL := blindFar) icp guess)
        <> transformation (object 0)).
Proof.
  split; [vm_compute; reflexivity|]. split; [reflexivity|].
  intros icp guess Heq. vm_compute in Heq. discriminate Heq.
Qed.

Lemma failed_batch_keeps_candidates_witness :
  exists r : Registration,
    transformation (objectAt (poseAt 1 0) 0 false) = getFinalTransformation r /\
    transformation (objectAt (poseAt 1 0) 0 false) <> transformation (object 0).
Proof.
  destruct (failed_batch_keeps_candidates (lib := far) (tracker false 0)
              (trackerOf false (objectAt (poseAt 1 0) 0 false)) cloud false 0
              (object 0) (objectAt (poseAt 1 0) 0 false))
    as (objMarkers & center & _ & _ & _ & _ & Hover);
    [vm_compute; reflexivity ..|].
  destruct Hover as (r & _ & Hr & _).
  - apply Exists_exists.
    exists (mkRegistration false (poseAt 1 0) (double_of_int 0)).
    split; [|vm_compute; reflexivity].
    unfold hypotheses. apply list_elem_of_In, in_map_iff.
    exists 0. split; [reflexivity | left; reflexivity].
  - exists r. split; [exact Hr|]. intros Heq. vm_compute in Heq. discriminate Heq.
Defined.

(** C10 as stated fails for the second precondition: when the clock
    reads 5 and the object's time stamp is 10, the divisor [dt] is not a
    zero although the clock reading does not exceed the time stamp. *)
Lemma dt_nonzero_when_clock_steps_back :
  is_zero (frameDt 5 (object 10)) = false /\
  ~ (m_lastValidTransform (object 10) < 5).
Proof. split; [vm_compute; reflexivity | cbn; lia]. Qed.

End Runs.

(* ------------------------------------------------------------------ *)
(** ** Further runs of the engine on the test doubles *)

Section MoreRuns.
Import Fake Scenario Cases.

Lemma update_preserves_structure_witness :
  length [objectAt (poseAt 1 0) second true; objectAt (poseAt 1 0) second true]
    = 2%nat /\
  Forall2 sameIndices
    [object 0; objectAt (poseAt 1 3) 0 false]
    [objectAt (poseAt 1 0) second true; objectAt (poseAt 1 0) second true].
Proof.
  destruct (update_preserves_structure (lib := shifted) (pair false)
              (mkObjectTracker [bounds 2] [cloud]
                 [objectAt (poseAt 1 0) second true;
                  objectAt (poseAt 1 0) second true] true)
              second cloud)
    as (_ & _ & Hlen & Hall); [vm_compute; reflexivity|].
  split; [exact Hlen | exact Hall].
Defined.

Lemma initialized_flag_witness :
  exists (ok : bool) (tr1 : ObjectTracker),
    initialize (lib := lost) (tracker false 0) cloud = Some (ok, tr1) /\
    m_initialized (trackerOf true (objectAt (poseAt 1 0) 0 false)) = ok.
Proof.
  destruct (initialized_flag (lib := lost) (tracker false 0)
              (trackerOf true (objectAt (poseAt 1 0) 0 false)) second cloud)
    as [_ Hf]; [vm_compute; reflexivity|].
  exact (Hf eq_refl).
Defined.

Lemma update_is_initialize_then_track_witness :
  update (lib := misfit) (tracker false 0) second cloud
    = Some (trackerOf false (objectAt (poseAt 1 0) second true)).
Proof.
  rewrite (update_is_initialize_then_track (lib := misfit) (tracker false 0)
             (trackerOf false (objectAt (poseAt 1 0) 0 false)) second cloud false);
    vm_compute; reflexivity.
Defined.

Lemma initialize_changes_poses_only_witness :
  Forall2 (fun o o' => o' = set_lastTransformation o (transformation o'))
          [object 0] [objectAt (poseAt 1 0) 0 false].
Proof.
  destruct (initialize_changes_poses_only (lib := lost) (tracker false 0)
              (trackerOf false (objectAt (poseAt 1 0) 0 false)) cloud true)
    as (_ & _ & _ & Hall); [vm_compute; reflexivity|].
  exact Hall.
Defined.

Lemma valid_pose_within_attitude_bounds_witness :
  exists dynConf : DynamicsConfiguration,
    [bounds 2] !! 0%nat = Some dynConf /\
    below (pose_roll (poseOf (poseAt 1 0))) (maxRoll dynConf) = true /\
    below (pose_pitch (poseOf (poseAt 1 0))) (maxPitch dynConf) = true /\
    m_lastValidTransform (objectAt (poseAt 1 0) second true) = second.
Proof.
  destruct (valid_pose_within_attitude_bounds (lib := shifted) (tracker true 0)
              (trackerOf true (objectAt (poseAt 1 0) second true)) second cloud
              0 (objectAt (poseAt 1 0) second true))
    as (dynConf & Hdyn & Hroll & Hpitch & Hs); [vm_compute; reflexivity ..|].
  exists dynConf. split; [exact Hdyn|]. split; [exact Hroll|].
  split; [exact Hpitch | exact Hs].
Defined.

Lemma nonfinite_pose_is_rejected_witness :
  object 0 = set_lastTransformationValid (objectAt (poseAt 0 0) 0 true) false.
Proof.
  apply (nonfinite_pose_is_rejected (lib := broken)
           (trackerOf true (objectAt (poseAt 0 0) 0 true))
           (trackerOf true (objectAt (poseAt 0 0) 0 true))
           (tracker true 0) second cloud 0
           (objectAt (poseAt 0 0) 0 true) (object 0) (bounds 2) cloud);
    [vm_compute; reflexivity .. | left; vm_compute; reflexivity].
Defined.

Lemma nonpositive_bound_rejects_witness :
  lastTransformationValid (object 0) = false.
Proof.
  apply (nonpositive_bound_rejects (lib := resting)
           (frozen (objectAt (poseAt 0 0) 0 true)) (frozen (object 0))
           second cloud 0 (object 0) (bounds 0));
    vm_compute; reflexivity.
Defined.

Lemma gate_monotone_witness :
  gate (bounds 3) (poseOf (poseAt 1 0)) (poseOf (poseAt 0 0))
       (frameDt second (object 0)) = true.
Proof.
  apply (gate_monotone (bounds 2) (bounds 3));
    [vm_compute; repeat split | vm_compute; reflexivity].
Defined.

Lemma objects_are_independent_witness :
  m_objects <$>
    update (lib := shifted)
           (with_objects (pair false) [objectAt (poseAt 1 3) 0 false])
           second cloud
    = Some [objectAt (poseAt 1 0) second true].
Proof.
  apply (objects_are_independent (lib := shifted) (pair false)
           (mkObjectTracker [bounds 2] [cloud]
              [objectAt (poseAt 1 0) second true;
               objectAt (poseAt 1 0) second true] true)
           second cloud 1);
    vm_compute; reflexivity.
Defined.

Lemma tracking_ignores_score_witness :
  update (lib := withScore (fun _ _ => DBL_MAX) shifted) (tracker true 0)
         second cloud
    = update (lib := shifted) (tracker true 0) second cloud.
Proof.
  apply (tracking_ignores_score (lib := shifted) (fun _ _ => DBL_MAX)
           (tracker true 0) second cloud).
  reflexivity.
Defined.

Lemma empty_configurations_always_initialize_witness :
  exists tr' : ObjectTracker, initialize (lib := far) bare [] = Some (true, tr').
Proof.
  apply (empty_configurations_always_initialize (lib := far) bare []).
  constructor; [reflexivity | constructor].
Defined.

Lemma empty_cloud_is_undefined_witness :
  initialize (lib := resting) (tracker false 0) [] = None /\
  update (lib := resting) (tracker false 0) second [] = None.
Proof.
  apply (empty_cloud_is_undefined (lib := resting) (tracker false 0) second 0
           (object 0) (point 0 0 0) [point 1 0 0]);
    reflexivity.
Defined.

Lemma update_defined_iff_witness :
  ~ Forall (indicesInRange stray) (m_objects stray).
Proof.
  intros Hall.
  destruct (update_defined_iff (lib := resting) stray second cloud eq_refl)
    as [_ Hback].
  destruct (Hback Hall) as [tr' Hu]. vm_compute in Hu. discriminate Hu.
Defined.

Lemma same_reading_twice_witness :
  objectAt (poseAt 0 0) second false
    = set_lastTransformationValid (objectAt (poseAt 0 0) second true) false.
Proof.
  apply (same_reading_twice (lib := resting) (tracker true 0)
           (trackerOf true (objectAt (poseAt 0 0) second true))
           (trackerOf true (objectAt (poseAt 0 0) second false))
           second cloud [] 0
           (objectAt (poseAt 0 0) second true)
           (objectAt (poseAt 0 0) second false));
    vm_compute; reflexivity.
Defined.

Lemma stamps_are_epoch_or_readings_witness :
  In (m_lastValidTransform (objectAt (poseAt 1 0) (2 * second) true))
     (epoch :: map fst [(second, cloud); (2 * second, cloud)]).
Proof.
  apply (stamps_are_epoch_or_readings (lib := shifted) [bounds 2] [cloud]
           [(0%nat, 0%nat, poseAt 0 0)] [(second, cloud); (2 * second, cloud)]
           (trackerOf true (objectAt (poseAt 1 0) (2 * second) true)) 0);
    vm_compute; reflexivity.
Defined.

End MoreRuns.

